(** * simple_model_counter: a shallow embedding of [simple_model_counter.py]

    The script reads dbt [run_results.json] reports, counts the records whose
    identifier starts with ["model."], and prints a summary.  This file embeds
    the three stages of the script (discovery, extraction, presentation) as
    Rocq functions and proves the properties its specification states.

    Conventions of the embedding:
    - a parsed JSON document is a value of [json], the image of Python's
      [json.load]: [None], [bool], [int], [float], [str], [list], [dict];
    - Python [int] is [Z]; Python [float] is IEEE 754 binary64, given by the
      Standard Library's [spec_float] at precision 53 and [emax] 1024;
    - a Python call that may raise is a function into [outcome]; code that
      also prints is a function into [io], which carries what was printed;
    - the file system and the [glob] and [json.load] library calls are the
      fields of a [world], over which every statement is quantified. *)

From Stdlib Require Import ZArith QArith Qpower List String Ascii Bool Lia Lqa.
From Stdlib Require Import Sorted Permutation OrderedTypeEx SpecFloat.
Import ListNotations.

Local Open Scope string_scope.
Local Open Scope Z_scope.

(** ** Exceptions and computations that may raise *)

Inductive exn : Type :=
| AttributeError
| TypeError
| ValueError
| OverflowError
| ZeroDivisionError
| PermissionError
| IsADirectoryError
| UnicodeDecodeError.

Inductive outcome (A : Type) : Type :=
| Ret (a : A)
| Raise (e : exn).

Arguments Ret {A} a.
Arguments Raise {A} e.

Definition bind {A B : Type} (m : outcome A) (k : A -> outcome B) : outcome B :=
  match m with
  | Ret a => k a
  | Raise e => Raise e
  end.

Declare Scope py_scope.
Delimit Scope py_scope with py.
Notation "x <- m ;; k" := (bind m (fun x => k))
  (at level 61, m at next level, right associativity) : py_scope.
Local Open Scope py_scope.

(** ** Python values coming out of [json.load] *)

#[warnings="-register-all"]
Inductive json : Type :=
| JNull
| JBool (b : bool)
| JInt (z : Z)
| JFloat (f : spec_float)
| JStr (s : string)
| JList (l : list json)
| JDict (d : list (string * json)).

(** A [dict] is kept as its list of items; keys are unique in a Python dict,
    and [lookup] takes the first item with the key. *)
Fixpoint lookup (k : string) (d : list (string * json)) : option json :=
  match d with
  | [] => None
  | (k', v) :: d' => if String.eqb k k' then Some v else lookup k d'
  end.

(** [o.get(k, default)]: only a [dict] has the method. *)
Definition py_get (o : json) (k : string) (default : json) : outcome json :=
  match o with
  | JDict d =>
      Ret (match lookup k d with Some v => v | None => default end)
  | _ => Raise AttributeError
  end.

(** [s.startswith(p)]: only a [str] has the method. *)
Definition py_startswith (o : json) (p : string) : outcome bool :=
  match o with
  | JStr s => Ret (String.prefix p s)
  | _ => Raise AttributeError
  end.

(** [o == 'text']: comparing any value with a [str] never raises. *)
Definition py_eq_str (o : json) (t : string) : bool :=
  match o with
  | JStr s => String.eqb s t
  | _ => false
  end.

(** [for x in o]: a list yields its elements, a dict its keys, a string its
    characters; the other values are not iterable. *)
Fixpoint chars (s : string) : list json :=
  match s with
  | EmptyString => []
  | String c s' => JStr (String c EmptyString) :: chars s'
  end.

Definition py_iter (o : json) : outcome (list json) :=
  match o with
  | JList l => Ret l
  | JDict d => Ret (map (fun kv => JStr (fst kv)) d)
  | JStr s => Ret (chars s)
  | _ => Raise TypeError
  end.

(** ** Python numbers: [int] and binary64 [float] *)

Definition prec : Z := 53.
Definition emax : Z := 1024.

Inductive num : Type :=
| NInt (z : Z)
| NFloat (f : spec_float).

(** The numeric reading of a JSON value: [bool] is a subclass of [int]
    ([True] is 1), every other non-number has none. *)
Definition as_number (o : json) : option num :=
  match o with
  | JBool b => Some (NInt (if b then 1 else 0))
  | JInt z => Some (NInt z)
  | JFloat f => Some (NFloat f)
  | _ => None
  end.

Definition float_zero : spec_float := S754_zero false.

(** [x > 0] on a number; a NaN compares false.  On a value that is not a
    number ([as_number] gives [None]) the comparison raises [TypeError]. *)
Definition num_gt0 (n : num) : bool :=
  match n with
  | NInt z => 0 <? z
  | NFloat f => SFltb float_zero f
  end.

(** ** Arithmetic of the numbers

    [int] arithmetic is exact.  [float] arithmetic is the correctly rounded
    binary64 arithmetic of [SpecFloat]; an [int] meeting a [float] is first
    converted, and the conversion raises when the integer is out of range. *)

Definition is_infinity (f : spec_float) : bool :=
  match f with
  | S754_infinity _ => true
  | _ => false
  end.

Definition is_zero (f : spec_float) : bool :=
  match f with
  | S754_zero _ => true
  | _ => false
  end.

(** [float(z)]: the nearest binary64, [OverflowError] beyond the range. *)
Definition float_of_int (z : Z) : outcome spec_float :=
  let f := binary_normalize prec emax z 0 false in
  if is_infinity f then Raise OverflowError else Ret f.

Definition to_float (n : num) : outcome spec_float :=
  match n with
  | NInt z => float_of_int z
  | NFloat f => Ret f
  end.

(** [a + b] *)
Definition num_add (a b : num) : outcome num :=
  match a, b with
  | NInt x, NInt y => Ret (NInt (x + y))
  | _, _ =>
      x <- to_float a ;;
      y <- to_float b ;;
      Ret (NFloat (SFadd prec emax x y))
  end.

(** [a * b] *)
Definition num_mul (a b : num) : outcome num :=
  match a, b with
  | NInt x, NInt y => Ret (NInt (x * y))
  | _, _ =>
      x <- to_float a ;;
      y <- to_float b ;;
      Ret (NFloat (SFmul prec emax x y))
  end.

(** [a / b] on two [int]s: the correctly rounded quotient, computed on the
    integers themselves (no prior conversion), [ZeroDivisionError] on a zero
    divisor and [OverflowError] when the quotient is out of range. *)
Definition int_truediv (a b : Z) : outcome spec_float :=
  match a, b with
  | _, Z0 => Raise ZeroDivisionError
  | Z0, Zpos _ => Ret (S754_zero false)
  | Z0, Zneg _ => Ret (S754_zero true)
  | Zpos p, Zpos q | Zneg p, Zneg q =>
      let f := SFdiv prec emax (S754_finite false p 0) (S754_finite false q 0) in
      if is_infinity f then Raise OverflowError else Ret f
  | Zpos p, Zneg q | Zneg p, Zpos q =>
      let f := SFdiv prec emax (S754_finite true p 0) (S754_finite false q 0) in
      if is_infinity f then Raise OverflowError else Ret f
  end.

(** [a / b] *)
Definition num_truediv (a b : num) : outcome num :=
  match a, b with
  | NInt x, NInt y => f <- int_truediv x y ;; Ret (NFloat f)
  | _, _ =>
      x <- to_float a ;;
      y <- to_float b ;;
      if is_zero y then Raise ZeroDivisionError
      else Ret (NFloat (SFdiv prec emax x y))
  end.

(** [sum(xs)]: accumulation from the [int] 0, left to right, each addition
    rounded (CPython since 3.12 also carries a compensation term through a
    sum of floats, which can change its last bit). *)
Fixpoint sum_from (acc : num) (xs : list num) : outcome num :=
  match xs with
  | [] => Ret acc
  | x :: xs' => acc' <- num_add acc x ;; sum_from acc' xs'
  end.

Definition py_sum (xs : list num) : outcome num := sum_from (NInt 0) xs.

(** [len(xs)] *)
Definition py_len {A : Type} (xs : list A) : Z := Z.of_nat (List.length xs).

(** [round(x, ndigits)] for [ndigits >= 0].  An [int] is returned as it is.
    A finite [float] is rounded to the nearest multiple of [10^-ndigits], ties
    to even, on its exact binary value, and the decimal result is converted to
    the nearest binary64; infinities, NaN and zeros are returned as they are. *)
Definition round_half_even (n d : Z) : Z :=
  let q := n / d in
  let r := n mod d in
  match 2 * r ?= d with
  | Lt => q
  | Gt => q + 1
  | Eq => if Z.even q then q else q + 1
  end.

Definition scaled_decimal (ndigits : Z) (m : positive) (e : Z) : Z :=
  if 0 <=? e then Zpos m * 2 ^ e * 10 ^ ndigits
  else round_half_even (Zpos m * 10 ^ ndigits) (2 ^ (- e)).

Definition float_round (ndigits : Z) (f : spec_float) : outcome spec_float :=
  match f with
  | S754_finite s m e =>
      let k := scaled_decimal ndigits m e in
      if k =? 0 then Ret (S754_zero s)
      else int_truediv (if s then - k else k) (10 ^ ndigits)
  | _ => Ret f
  end.

Definition py_round (x : num) (ndigits : Z) : outcome num :=
  match x with
  | NInt z => Ret (NInt z)
  | NFloat f => r <- float_round ndigits f ;; Ret (NFloat r)
  end.

(** ** Strings, dates and [datetime.fromisoformat] *)

(** [s.replace('Z', '+00:00')]: every occurrence is replaced. *)
Fixpoint replace_Z (s : string) : string :=
  match s with
  | EmptyString => EmptyString
  | String c s' =>
      if Ascii.eqb c "Z" then "+00:00" ++ replace_Z s'
      else String c (replace_Z s')
  end.

(** [s.endswith(suffix)] *)
Definition py_endswith (s suffix : string) : bool :=
  let n := String.length s in
  let k := String.length suffix in
  (k <=? n)%nat && String.eqb (substring (n - k) k s) suffix.

Definition digit_of (c : ascii) : option Z :=
  let n := Z.of_nat (nat_of_ascii c) in
  if (48 <=? n) && (n <=? 57) then Some (n - 48) else None.

(** Exactly [k] decimal digits at the head of [s]: their value and the rest. *)
Fixpoint take_digits (k : nat) (acc : Z) (s : string) : option (Z * string) :=
  match k with
  | O => Some (acc, s)
  | S k' =>
      match s with
      | EmptyString => None
      | String c s' =>
          match digit_of c with
          | Some d => take_digits k' (10 * acc + d) s'
          | None => None
          end
      end
  end.

(** The character [c] at the head of [s]: the rest. *)
Definition take_char (c : ascii) (s : string) : option string :=
  match s with
  | String c' s' => if Ascii.eqb c c' then Some s' else None
  | EmptyString => None
  end.

Definition is_leap (y : Z) : bool :=
  (y mod 4 =? 0) && (negb (y mod 100 =? 0) || (y mod 400 =? 0)).

Definition days_in_month (y m : Z) : Z :=
  if m =? 2 then (if is_leap y then 29 else 28)
  else if (m =? 4) || (m =? 6) || (m =? 9) || (m =? 11) then 30
  else 31.

Record date : Type := mk_date { year : Z; month : Z; day : Z }.

Definition valid_date (y m d : Z) : bool :=
  (1 <=? y) && (y <=? 9999) && (1 <=? m) && (m <=? 12)
  && (1 <=? d) && (d <=? days_in_month y m).

(** [HH[:MM[:SS[.fff[fff]]]]], the whole of [s]: hours, minutes, seconds,
    microseconds. *)
Definition parse_fraction (s : string) : option Z :=
  match String.length s with
  | 3%nat =>
      match take_digits 3 0 s with
      | Some (v, _) => Some (v * 1000)
      | None => None
      end
  | 6%nat =>
      match take_digits 6 0 s with
      | Some (v, _) => Some v
      | None => None
      end
  | _ => None
  end.

Definition parse_hh_mm_ss_ff (s : string) : option (Z * Z * Z * Z) :=
  match take_digits 2 0 s with
  | None => None
  | Some (hh, EmptyString) => Some (hh, 0, 0, 0)
  | Some (hh, s1) =>
      match take_char ":" s1 with
      | None => None
      | Some s2 =>
          match take_digits 2 0 s2 with
          | None => None
          | Some (mm, EmptyString) => Some (hh, mm, 0, 0)
          | Some (mm, s3) =>
              match take_char ":" s3 with
              | None => None
              | Some s4 =>
                  match take_digits 2 0 s4 with
                  | None => None
                  | Some (ss, EmptyString) => Some (hh, mm, ss, 0)
                  | Some (ss, s5) =>
                      match take_char "." s5 with
                      | None => None
                      | Some s6 =>
                          match parse_fraction s6 with
                          | Some us => Some (hh, mm, ss, us)
                          | None => None
                          end
                      end
                  end
              end
          end
      end
  end.

(** The time string up to the first ['+'] or ['-'], and what follows it. *)
Fixpoint split_offset (s : string) : string * option string :=
  match s with
  | EmptyString => (EmptyString, None)
  | String c s' =>
      if Ascii.eqb c "+" || Ascii.eqb c "-" then (EmptyString, Some s')
      else let '(t, o) := split_offset s' in (String c t, o)
  end.

Definition valid_time (t : Z * Z * Z * Z) : bool :=
  let '(hh, mm, ss, us) := t in
  (hh <=? 23) && (mm <=? 59) && (ss <=? 59) && (us <=? 999999).

(** A UTC offset [HH:MM[:SS[.ffffff]]] of 5, 8 or 15 characters, strictly
    less than 24 hours. *)
Definition valid_offset (s : string) : bool :=
  let n := String.length s in
  ((n =? 5) || (n =? 8) || (n =? 15))%nat &&
  match parse_hh_mm_ss_ff s with
  | Some (hh, mm, ss, us) =>
      ((hh * 3600 + mm * 60 + ss) * 1000000 + us <? 86400 * 1000000)
  | None => false
  end.

Definition parse_isoformat_time (s : string) : bool :=
  let '(t, o) := split_offset s in
  match parse_hh_mm_ss_ff t with
  | Some c =>
      valid_time c &&
      match o with
      | Some off => valid_offset off
      | None => true
      end
  | None => false
  end.

(** [datetime.fromisoformat(s).date()], for the grammar the Python library
    documents for it, [YYYY-MM-DD[*HH[:MM[:SS[.fff[fff]]]][+HH:MM[:SS[.ffffff]]]]]
    ([*] is any one character); [None] stands for [ValueError].  Python 3.11
    and later accept further ISO 8601 spellings, which here do not parse. *)
Definition fromisoformat (s : string) : option date :=
  match take_digits 4 0 s with
  | None => None
  | Some (y, s1) =>
  match take_char "-" s1 with
  | None => None
  | Some s2 =>
  match take_digits 2 0 s2 with
  | None => None
  | Some (m, s3) =>
  match take_char "-" s3 with
  | None => None
  | Some s4 =>
  match take_digits 2 0 s4 with
  | None => None
  | Some (d, rest) =>
      if valid_date y m d then
        match rest with
        | EmptyString => Some (mk_date y m d)
        | String _ t =>
            if parse_isoformat_time t then Some (mk_date y m d) else None
        end
      else None
  end end end end end.

Definition digit_char (d : Z) : ascii := ascii_of_nat (Z.to_nat (48 + d mod 10)).

(** [d.isoformat()]: ["%04d-%02d-%02d"]. *)
Definition date_isoformat (d : date) : string :=
  let y := year d in
  let m := month d in
  let n := day d in
  String (digit_char (y / 1000)) (String (digit_char (y / 100))
  (String (digit_char (y / 10)) (String (digit_char y)
  (String "-" (String (digit_char (m / 10)) (String (digit_char m)
  (String "-" (String (digit_char (n / 10)) (String (digit_char n)
   EmptyString))))))))).

(** ** Extraction: [count_models] *)

(** The local variables of the loop of [count_models] (lines 72-77):
    [total_models], [successful_models], [failed_models], [execution_times]. *)
Record tally : Type := mk_tally {
  n_total : Z;
  n_successful : Z;
  n_failed : Z;
  execution_times : list num
}.

Definition tally0 : tally := mk_tally 0 0 0 [].

(** One iteration of [for result in results] (lines 80-95).  The sample
    keeps the numeric value of each time appended. *)
Definition tally_step (t : tally) (result : json) : outcome tally :=
  unique_id <- py_get result "unique_id" (JStr "") ;;
  is_model <- py_startswith unique_id "model." ;;
  if is_model then
    let total := n_total t + 1 in
    status <- py_get result "status" (JStr "unknown") ;;
    let successful :=
      if py_eq_str status "success" then n_successful t + 1 else n_successful t in
    let failed :=
      if py_eq_str status "success" then n_failed t else n_failed t + 1 in
    execution_time <- py_get result "execution_time" (JInt 0) ;;
    match as_number execution_time with
    | None => Raise TypeError
    | Some x =>
        Ret (mk_tally total successful failed
               (if num_gt0 x then (execution_times t ++ [x])%list
                else execution_times t))
    end
  else Ret t.

Fixpoint tally_loop (t : tally) (results : list json) : outcome tally :=
  match results with
  | [] => Ret t
  | result :: rest => t' <- tally_step t result ;; tally_loop t' rest
  end.

(** The dictionary returned by [count_models] (lines 112-124). *)
Record summary : Type := mk_summary {
  file_path : string;
  run_date : string;
  run_timestamp : json;
  dbt_version : json;
  invocation_id : json;
  total_models : Z;
  successful_models : Z;
  failed_models : Z;
  success_rate : num;
  avg_execution_time : num;
  total_execution_time : num
}.

(** Lines 103-110: only a [str] has [replace]; [ValueError] is the one
    exception caught. *)
Definition derive_run_date (generated_at : json) : outcome string :=
  if py_eq_str generated_at "unknown" then Ret "unknown"
  else
    match generated_at with
    | JStr s =>
        match fromisoformat (replace_Z s) with
        | Some d => Ret (date_isoformat d)
        | None => Ret "unknown"
        end
    | _ => Raise AttributeError
    end.

(** Lines 98-100. *)
Definition compute_success_rate (successful total : Z) : outcome num :=
  if 0 <? total then
    q <- num_truediv (NInt successful) (NInt total) ;;
    num_mul q (NInt 100)
  else Ret (NInt 0).

Definition compute_avg (times : list num) : outcome num :=
  match times with
  | [] => Ret (NInt 0)
  | _ => s <- py_sum times ;; num_truediv s (NInt (py_len times))
  end.

(** Lines 98-124: the statistics, the run date and the returned dictionary,
    from the metadata and the counters the loop leaves. *)
Definition build_summary (path : string) (metadata : json) (t : tally)
    : outcome summary :=
  rate <- compute_success_rate (n_successful t) (n_total t) ;;
  avg <- compute_avg (execution_times t) ;;
  total_time <- py_sum (execution_times t) ;;
  generated_at <- py_get metadata "generated_at" (JStr "unknown") ;;
  date <- derive_run_date generated_at ;;
  version <- py_get metadata "dbt_version" (JStr "unknown") ;;
  invocation <- py_get metadata "invocation_id" (JStr "unknown") ;;
  rate' <- py_round rate 2 ;;
  avg' <- py_round avg 3 ;;
  total_time' <- py_round total_time 3 ;;
  Ret (mk_summary path date generated_at version invocation
         (n_total t) (n_successful t) (n_failed t) rate' avg' total_time').

(** Lines 68-124: [count_models] once [json.load] has returned [data]. *)
Definition summarize (path : string) (data : json) : outcome summary :=
  metadata <- py_get data "metadata" (JDict []) ;;
  results <- py_get data "results" (JList []) ;;
  items <- py_iter results ;;
  t <- tally_loop tally0 items ;;
  build_summary path metadata t.

(** ** The environment and printing *)

(** What standard output receives, one event per [print] call: a plain text,
    an f-string (its source text and the values it formats), or the JSON
    rendering of the summaries. *)
Inductive fvalue : Type :=
| VStr (s : string)
| VInt (z : Z)
| VNum (x : num)
| VFloat (f : spec_float)
| VJson (j : json).

Inductive event : Type :=
| Print (line : string)
| PrintF (fstring : string) (values : list fvalue)
| PrintJson (all_stats : list summary).

(** How a piece of code that prints ends: normally, by an exception that
    nothing catches, or by [sys.exit] ([SystemExit] is not an [Exception]). *)
Inductive ending (A : Type) : Type :=
| Done (a : A)
| Uncaught (e : exn)
| Exit (status : Z).

Arguments Done {A} a.
Arguments Uncaught {A} e.
Arguments Exit {A} status.

Definition io (A : Type) : Type := (list event * ending A)%type.

Definition io_ret {A : Type} (a : A) : io A := ([], Done a).

Definition io_bind {A B : Type} (m : io A) (k : A -> io B) : io B :=
  match m with
  | (out, Done a) => let '(out', r) := k a in ((out ++ out')%list, r)
  | (out, Uncaught e) => (out, Uncaught e)
  | (out, Exit status) => (out, Exit status)
  end.

Definition emit (e : event) : io unit := ([e], Done tt).

Definition print (line : string) : io unit := emit (Print line).

(** A pure computation that may raise, run where printing is possible. *)
Definition lift {A : Type} (m : outcome A) : io A :=
  match m with
  | Ret a => ([], Done a)
  | Raise e => ([], Uncaught e)
  end.

Declare Scope io_scope.
Delimit Scope io_scope with io.
Notation "x <~ m ;; k" := (io_bind m (fun x => k))
  (at level 61, m at next level, right associativity) : io_scope.
Notation "m ;;; k" := (io_bind m (fun _ => k))
  (at level 61, right associativity) : io_scope.
Local Open Scope io_scope.

(** What [open(file_path)] followed by [json.load] does on a path. *)
Inductive load_result : Type :=
| Loaded (data : json)
| FileNotFoundError
| JSONDecodeError (diagnostic : string)
| LoadRaises (e : exn).

Inductive path_kind : Type :=
| RegularFile
| Directory
| NoEntry.

(** The environment of one run: what [os.path.isfile]/[isdir] say of a path,
    what [glob.glob(pattern, recursive=...)] returns, and what reading and
    parsing a path gives. *)
Record world : Type := mk_world {
  kind : string -> path_kind;
  glob : string -> bool -> list string;
  load : string -> load_result
}.

(** Lines 57-65 followed by [summarize]. *)
Definition count_models (w : world) (path : string) : io (option summary) :=
  match load w path with
  | FileNotFoundError =>
      print ("Error: File " ++ path ++ " not found.") ;;; io_ret None
  | JSONDecodeError diagnostic =>
      print ("Error: Invalid JSON in " ++ path ++ ": " ++ diagnostic) ;;;
      io_ret None
  | LoadRaises e => lift (Raise e)
  | Loaded data => s <~ lift (summarize path data) ;; io_ret (Some s)
  end.

(** ** Discovery: [find_run_results_files] *)

(** [os.path.join(path, name)] for a relative [name]. *)
Definition os_path_join (path name : string) : string :=
  if String.eqb path "" then name
  else if py_endswith path "/" then path ++ name
  else path ++ "/" ++ name.

(** [list(set(files))]: the distinct elements, in an order Python leaves
    unspecified (see [sorted_order_irrelevant]). *)
Definition list_of_set (files : list string) : list string :=
  nodup string_dec files.

(** [sorted(l)] on strings: ascending in the lexicographic order of the
    characters. *)
Fixpoint insert_sorted (x : string) (l : list string) : list string :=
  match l with
  | [] => [x]
  | y :: l' => if String.leb x y then x :: l else y :: insert_sorted x l'
  end.

Fixpoint sorted (l : list string) : list string :=
  match l with
  | [] => []
  | x :: l' => insert_sorted x (sorted l')
  end.

Definition find_run_results_files (w : world) (path : string) : io (list string) :=
  match kind w path with
  | RegularFile =>
      if py_endswith path ".json" then io_ret [path]
      else print ("Warning: " ++ path ++ " is not a JSON file") ;;; io_ret []
  | Directory =>
      let pattern1 := os_path_join path "run_results.json" in
      let pattern2 := os_path_join path "**/run_results.json" in
      let pattern3 := os_path_join path "run_results*.json" in
      let files :=
        (glob w pattern1 false ++ glob w pattern2 true
           ++ glob w pattern3 false)%list in
      let run_results_files := list_of_set files in
      match run_results_files with
      | [] => print ("No run_results.json files found in " ++ path)
      | _ => io_ret tt
      end ;;;
      io_ret (sorted run_results_files)
  | NoEntry =>
      print ("Error: " ++ path ++ " is not a valid file or directory") ;;;
      io_ret []
  end.

(** ** Presentation and [main] *)

Definition printf (fstring : string) (values : list fvalue) : io unit :=
  emit (PrintF fstring values).

Definition newline : string := String (ascii_of_nat 10) EmptyString.

Fixpoint rule (c : ascii) (n : nat) : string :=
  match n with
  | O => EmptyString
  | S n' => String c (rule c n')
  end.

(** A number formatted with a fixed-point [f] specification is converted to
    [float] first; the conversion of an [int] out of range raises. *)
Definition format_f (x : num) : outcome fvalue :=
  f <- to_float x ;; Ret (VFloat f).

(** [os.path.basename(path)[:28]] *)
Fixpoint basename_from (acc path : string) : string :=
  match path with
  | EmptyString => acc
  | String c rest =>
      if Ascii.eqb c "/" then basename_from EmptyString rest
      else basename_from (acc ++ String c EmptyString) rest
  end.

Definition basename (path : string) : string := basename_from EmptyString path.

(** [sorted(all_stats, key=lambda x: x['run_date'], reverse=True)]: a stable
    sort, latest date first; summaries of one date keep their order. *)
Fixpoint insert_by_date (x : summary) (l : list summary) : list summary :=
  match l with
  | [] => [x]
  | y :: l' =>
      if String.leb (run_date y) (run_date x) then x :: l
      else y :: insert_by_date x l'
  end.

Fixpoint sort_by_date_desc (l : list summary) : list summary :=
  match l with
  | [] => []
  | x :: l' => insert_by_date x (sort_by_date_desc l')
  end.

(** The loop of [print_summary_results] (lines 155-166), with its three
    running totals [total_models], [total_successful], [total_time]. *)
Fixpoint print_rows (rows : list summary) (acc : Z * Z * num) : io (Z * Z * num) :=
  match rows with
  | [] => io_ret acc
  | stats :: rest =>
      let '(models, successful, time) := acc in
      let file_name := substring 0 28 (basename (file_path stats)) in
      rate <~ lift (format_f (success_rate stats)) ;;
      exec_time <~ lift (format_f (total_execution_time stats)) ;;
      printf "{file_name:<30} {stats['run_date']:<12} {models:<7} {success_rate:>6.1f}% {exec_time:>7.2f}"
        [VStr file_name; VStr (run_date stats); VInt (total_models stats);
         rate; exec_time] ;;;
      time' <~ lift (num_add time (total_execution_time stats)) ;;
      print_rows rest
        (models + total_models stats, successful + successful_models stats, time')
  end.

Definition print_summary_results (all_stats : list summary) : io unit :=
  match all_stats with
  | [] => print "No results to display."
  | _ =>
      print (newline ++ rule "=" 80) ;;;
      print "DBT MODEL BUILD SUMMARY" ;;;
      print (rule "=" 80) ;;;
      printf "\n{'File':<30} {'Date':<12} {'Models':<7} {'Success':<8} {'Time(s)':<8}" [] ;;;
      print (rule "-" 80) ;;;
      totals <~ print_rows (sort_by_date_desc all_stats) (0, 0, NInt 0) ;;
      let '(total_models, total_successful, total_time) := totals in
      print (rule "-" 80) ;;;
      overall <~ lift (compute_success_rate total_successful total_models) ;;
      rate <~ lift (format_f overall) ;;
      time <~ lift (format_f total_time) ;;
      printf "{'TOTAL':<30} {'All Dates':<12} {total_models:<7} {overall_success_rate:>6.1f}% {total_time:>7.2f}"
        [VInt total_models; rate; time] ;;;
      print (newline ++ "Overall Statistics:") ;;;
      printf "  Total Runs Analyzed: {len(all_stats)}" [VInt (py_len all_stats)] ;;;
      printf "  Total Models Built: {total_models}" [VInt total_models] ;;;
      per_run <~ lift (int_truediv total_models (py_len all_stats)) ;;
      printf "  Average Models per Run: {total_models / len(all_stats):.1f}"
        [VFloat per_run] ;;;
      printf "  Overall Success Rate: {overall_success_rate:.1f}%" [rate] ;;;
      printf "  Total Execution Time: {total_time:.2f} seconds" [time]
  end.

Definition when (b : bool) (m : io unit) : io unit :=
  if b then m else io_ret tt.

(** [print_single_result] (lines 127-134); the script defines it and never
    calls it. *)
Definition print_single_result (stats : summary) : io unit :=
  print (newline ++ "File: " ++ file_path stats) ;;;
  print ("Date: " ++ run_date stats) ;;;
  printf "Models Built: {stats['total_models']}" [VInt (total_models stats)] ;;;
  printf "Success Rate: {stats['success_rate']}%" [VNum (success_rate stats)] ;;;
  when (num_gt0 (total_execution_time stats))
    (exec_time <~ lift (format_f (total_execution_time stats)) ;;
     printf "Execution Time: {stats['total_execution_time']:.2f}s" [exec_time]).

(** The single-file view of [main] (lines 241-259). *)
Definition print_detail (stats : summary) : io unit :=
  print (newline ++ rule "=" 60) ;;;
  print "DBT MODEL BUILD COUNT" ;;;
  print (rule "=" 60) ;;;
  print (newline ++ "File: " ++ file_path stats) ;;;
  print ("Date: " ++ run_date stats) ;;;
  printf "DBT Version: {stats['dbt_version']}" [VJson (dbt_version stats)] ;;;
  printf "Timestamp: {stats['run_timestamp']}" [VJson (run_timestamp stats)] ;;;
  print (newline ++ "Model Statistics:") ;;;
  printf "  Total Models Built: {stats['total_models']}" [VInt (total_models stats)] ;;;
  printf "  Successful: {stats['successful_models']}" [VInt (successful_models stats)] ;;;
  printf "  Failed: {stats['failed_models']}" [VInt (failed_models stats)] ;;;
  printf "  Success Rate: {stats['success_rate']}%" [VNum (success_rate stats)] ;;;
  when (num_gt0 (total_execution_time stats))
    (print (newline ++ "Performance:") ;;;
     printf "  Average Execution Time: {stats['avg_execution_time']} seconds"
       [VNum (avg_execution_time stats)] ;;;
     printf "  Total Execution Time: {stats['total_execution_time']} seconds"
       [VNum (total_execution_time stats)]).

(** The parsed command line. *)
Record arguments : Type := mk_arguments {
  arg_path : string;
  arg_json : bool;
  arg_recursive : bool;
  arg_verbose : bool
}.

Fixpoint print_each (files : list string) : io unit :=
  match files with
  | [] => io_ret tt
  | f :: rest => print ("  - " ++ f) ;;; print_each rest
  end.

(** Lines 220-229: the loop over the discovered files. *)
Fixpoint process_files (w : world) (verbose : bool) (files : list string)
    (all_stats : list summary) : io (list summary) :=
  match files with
  | [] => io_ret all_stats
  | path :: rest =>
      when verbose (print ("Processing: " ++ path)) ;;;
      stats <~ count_models w path ;;
      match stats with
      | Some s => process_files w verbose rest (all_stats ++ [s])%list
      | None =>
          when verbose (print ("  Failed to process " ++ path)) ;;;
          process_files w verbose rest all_stats
      end
  end.

(** [sys.exit(status)] *)
Definition sys_exit {A : Type} (status : Z) : io A := ([], Exit status).

(** Lines 236-262: the report selected by [--json] and the number of
    summaries. *)
Definition output_results (as_json : bool) (all_stats : list summary) : io unit :=
  if as_json then emit (PrintJson all_stats)
  else
    match all_stats with
    | [stats] => print_detail stats
    | _ => print_summary_results all_stats
    end.

Definition main (w : world) (args : arguments) : io unit :=
  files <~ find_run_results_files w (arg_path args) ;;
  match files with
  | [] => print "No run_results.json files found." ;;; sys_exit 1
  | _ =>
      when (arg_verbose args)
        (printf "Found {len(files)} file(s) to process:" [VInt (py_len files)] ;;;
         print_each files ;;;
         print "") ;;;
      all_stats <~ process_files w (arg_verbose args) files [] ;;
      match all_stats with
      | [] =>
          print "No valid run_results.json files could be processed." ;;;
          sys_exit 1
      | _ => output_results (arg_json args) all_stats
      end
  end.

(** The status the operating system sees: 0 on a normal return, the argument
    of [sys.exit], and 1 when an exception reaches the top level. *)
Definition exit_status (r : io unit) : Z :=
  match snd r with
  | Done _ => 0
  | Exit status => status
  | Uncaught _ => 1
  end.

(** * Specification-level definitions and sample data *)

(** ** What the specification says of a record

    These definitions follow the words of the specification, not the loop:
    a record is a JSON object; it is a model when its identifier is a string
    with the prefix ["model."]; it is successful when its status is the
    string ["success"]; it is timed when its execution time is present and
    strictly positive. *)

(** The result list the loop of [count_models] runs over. *)
Definition results_of (data : json) : outcome (list json) :=
  results <- py_get data "results" (JList []) ;; py_iter results.

Definition is_model (r : json) : bool :=
  match r with
  | JDict d =>
      match lookup "unique_id" d with
      | Some (JStr id) => String.prefix "model." id
      | _ => false
      end
  | _ => false
  end.

Definition is_success (r : json) : bool :=
  match r with
  | JDict d =>
      match lookup "status" d with
      | Some (JStr status) => String.eqb status "success"
      | _ => false
      end
  | _ => false
  end.

Definition positive_time (r : json) : list num :=
  match r with
  | JDict d =>
      match lookup "execution_time" d with
      | Some v =>
          match as_number v with
          | Some x => if num_gt0 x then [x] else []
          | None => []
          end
      | None => []
      end
  | _ => []
  end.

Definition models (items : list json) : list json := filter is_model items.

Definition count (p : json -> bool) (items : list json) : Z :=
  Z.of_nat (List.length (filter p items)).

Definition timing_sample (items : list json) : list num :=
  flat_map positive_time (models items).

(** The document [data] with its result list replaced. *)
Definition with_results (data : json) (items : list json) : json :=
  match data with
  | JDict d => JDict (("results", JList items) :: d)
  | _ => data
  end.

(** ** What the specification says of the run date, of discovery and of the
    loop over the files *)

(** The run date the specification gives to a timestamp string. *)
Definition run_date_of (g : string) : string :=
  if String.eqb g "unknown" then "unknown"
  else
    match fromisoformat (replace_Z g) with
    | Some d => date_isoformat d
    | None => "unknown"
    end.


(** The strict lexicographic order on strings. *)
Definition string_lt (a b : string) : Prop := String.ltb a b = true.

(** The matches of the three patterns in a directory. *)
Definition matches (w : world) (path : string) : list string :=
  (glob w (os_path_join path "run_results.json") false
   ++ glob w (os_path_join path "**/run_results.json") true
   ++ glob w (os_path_join path "run_results*.json") false)%list.

(** What the loop of [main] computes, apart from what it prints. *)
Fixpoint collect (w : world) (files : list string) (all_stats : list summary)
    : ending (list summary) :=
  match files with
  | [] => Done all_stats
  | path :: rest =>
      match snd (count_models w path) with
      | Done (Some s) => collect w rest (all_stats ++ [s])%list
      | Done None => collect w rest all_stats
      | Uncaught e => Uncaught e
      | Exit status => Exit status
      end
  end.


(** The last line printed in each of the two failure cases of [main]. *)
Definition no_files_message : string := "No run_results.json files found.".

Definition no_valid_message : string :=
  "No valid run_results.json files could be processed.".


(** ** The exact value of a number *)

(** A finite binary64 [(s, m, e)] is the rational [(-1)^s * m * 2^e]. *)
Definition float_value (f : spec_float) : Q :=
  match f with
  | S754_finite s m e =>
      ((if s then -1 else 1) * inject_Z (Zpos m) * Qpower 2 e)%Q
  | _ => 0%Q
  end.

Definition is_finite (f : spec_float) : bool :=
  match f with
  | S754_finite _ _ _ | S754_zero _ => true
  | _ => false
  end.

Definition num_value (x : num) : Q :=
  match x with
  | NInt z => inject_Z z
  | NFloat f => float_value f
  end.

Definition num_is_finite (x : num) : bool :=
  match x with
  | NInt _ => true
  | NFloat f => is_finite f
  end.

(** A number of the program lies in [0, 100]. *)
Definition in_percent_range (x : num) : Prop :=
  num_is_finite x = true /\ (0 <= num_value x <= 100)%Q.

(** [2^e], and the rational [m * 2^e]. *)
Definition bpow (e : Z) : Q := Qpower 2 e.

Definition F (m e : Z) : Q := (inject_Z m * bpow e)%Q.

(** The exponent binary64 gives to a number of magnitude [2^e]. *)
Definition fexp64 (e : Z) : Z := fexp prec emax e.

(** Bits were lost in the shifts recorded by [mrs]. *)
Definition inexact (mrs : shr_record) : bool := shr_r mrs || shr_s mrs.

(** A float that is zero or positive and finite, with value at most [u]. *)
Definition at_most (u : Q) (f : spec_float) : Prop :=
  match f with
  | S754_zero false => True
  | S754_finite false m e => (F (Zpos m) e <= u)%Q
  | _ => False
  end.

(** The binary64 numbers 1.0, 1.5, 2.0, 3.0 and 100.0. *)
Definition float_1_0 : spec_float := S754_finite false 4503599627370496 (-52).
Definition float_1_5 : spec_float := S754_finite false 6755399441055744 (-52).
Definition float_2_0 : spec_float := S754_finite false 4503599627370496 (-51).
Definition float_3_0 : spec_float := S754_finite false 6755399441055744 (-51).
Definition float_100 : spec_float := S754_finite false 7036874417766400 (-46).

(** ** Sample reports and environments *)

Definition record (id status : string) (time : json) : json :=
  JDict [("unique_id", JStr id); ("status", JStr status); ("execution_time", time)].

Definition anonymous_record : list (string * json) :=
  [("status", JStr "success"); ("execution_time", JFloat float_1_0)].

(** Three models (two successful, times 1.0, 2.0 and 0), a test, and a
    record without identifier. *)
Definition sample_results : list json :=
  [ record "model.shop.orders" "success" (JFloat float_1_0);
    record "test.shop.not_null_orders_id" "success" (JFloat float_2_0);
    record "model.shop.customers" "success" (JFloat float_2_0);
    JDict anonymous_record;
    record "model.shop.payments" "error" (JInt 0) ].

Definition sample_metadata : json :=
  JDict [("generated_at", JStr "2024-01-15T10:30:00Z"); ("dbt_version", JStr "1.7.4")].

Definition sample_report : json :=
  JDict [("metadata", sample_metadata); ("results", JList sample_results)].

(** A directory [logs] with the sample report and an older report whose
    content is not JSON; the three patterns overlap on the first. *)
Definition sample_world : world :=
  {| kind := fun p =>
       if String.eqb p "logs" then Directory
       else if String.eqb p "logs/run_results.json" then RegularFile
       else if String.eqb p "logs/run_results_old.json" then RegularFile
       else NoEntry;
     glob := fun pattern recursive =>
       if String.eqb pattern "logs/run_results.json" then ["logs/run_results.json"]
       else if String.eqb pattern "logs/**/run_results.json" then
         (if recursive then ["logs/run_results.json"] else [])
       else if String.eqb pattern "logs/run_results*.json" then
         ["logs/run_results_old.json"; "logs/run_results.json"]
       else [];
     load := fun p =>
       if String.eqb p "logs/run_results.json" then Loaded sample_report
       else if String.eqb p "logs/run_results_old.json" then
         JSONDecodeError "Expecting value: line 1 column 1 (char 0)"
       else FileNotFoundError |}.

(** What [count_models] returns on the sample report. *)
Definition sample_summary : summary :=
  {| file_path := "logs/run_results.json";
     run_date := "2024-01-15";
     run_timestamp := JStr "2024-01-15T10:30:00Z";
     dbt_version := JStr "1.7.4";
     invocation_id := JStr "unknown";
     total_models := 3;
     successful_models := 2;
     failed_models := 1;
     success_rate := NFloat (S754_finite false 4691484174324859 (-46));
     avg_execution_time := NFloat float_1_5;
     total_execution_time := NFloat float_3_0 |}.

(** The environment [w], with the report at [path] replaced by [data]. *)
Definition with_report (w : world) (path : string) (data : json) : world :=
  {| kind := kind w;
     glob := glob w;
     load := fun p => if String.eqb p path then Loaded data else load w p |}.

(** Three models, two successful and one failed, with the execution times
    1.0, 2.0 and 0. *)
Definition three_models_report : json :=
  JDict [("results", JList
    [ record "model.a" "success" (JFloat float_1_0);
      record "model.b" "success" (JFloat float_2_0);
      record "model.c" "error" (JFloat (S754_zero false)) ])].

Definition three_models_world : world :=
  {| kind := fun p => if String.eqb p "run_results.json" then RegularFile else NoEntry;
     glob := fun _ _ => [];
     load := fun p =>
       if String.eqb p "run_results.json" then Loaded three_models_report
       else FileNotFoundError |}.



(** A directory with the sample report and, after it in the sorted list, a
    well-formed JSON document that is a list, not an object. *)
Definition list_document_world : world :=
  {| kind := fun p => if String.eqb p "logs" then Directory else NoEntry;
     glob := fun pattern _ =>
       if String.eqb pattern "logs/run_results*.json" then
         ["logs/run_results_list.json"; "logs/run_results.json"]
       else [];
     load := fun p =>
       if String.eqb p "logs/run_results.json" then Loaded sample_report
       else if String.eqb p "logs/run_results_list.json" then Loaded (JList [])
       else FileNotFoundError |}.

(** The command line [simple_model_counter.py path]. *)
Definition plain_arguments (path : string) : arguments :=
  {| arg_path := path; arg_json := false; arg_recursive := false;
     arg_verbose := false |}.

(** The sample results around the record without identifier, and the sample
    world whose report lacks that record. *)
Definition results_before : list json := firstn 3 sample_results.

Definition results_after : list json := skipn 4 sample_results.

Definition trimmed_world : world :=
  with_report sample_world "logs/run_results.json"
    (with_results sample_report (results_before ++ results_after)%list).

(** The files discovered in the two sample directories, and the two runs. *)
Definition sample_files : list string :=
  ["logs/run_results.json"; "logs/run_results_old.json"].




(** * Definitions for the further properties *)

(** ** The shape of a report *)

(** [metadata.get(key, 'unknown')] on the items of the metadata object. *)
Definition metadata_field (key : string) (metadata : list (string * json)) : json :=
  match lookup key metadata with
  | Some v => v
  | None => JStr "unknown"
  end.

Definition is_number (v : json) : bool :=
  match as_number v with
  | Some _ => true
  | None => false
  end.

(** A record the loop of [count_models] gets through: an object whose
    identifier is absent or a string and, when it is a model, whose execution
    time is absent or a number. *)
Definition well_shaped (r : json) : bool :=
  match r with
  | JDict d =>
      match lookup "unique_id" d with
      | None => true
      | Some (JStr id) =>
          if String.prefix "model." id then
            match lookup "execution_time" d with
            | None => true
            | Some v => is_number v
            end
          else true
      | Some _ => false
      end
  | _ => false
  end.

(** An execution time of ordinary size: a binary64 number, a [bool], or an
    [int] below [2^53]. *)
Definition ordinary_time (v : json) : bool :=
  match v with
  | JFloat f => valid_binary prec emax f
  | JInt z => z <? 2 ^ 53
  | JBool _ => true
  | _ => false
  end.

(** A record of a report as dbt writes it: an object whose identifier is
    absent or a string and, when it is a model, whose execution time is absent
    or ordinary. *)
Definition ordinary_record (r : json) : bool :=
  match r with
  | JDict d =>
      match lookup "unique_id" d with
      | None => true
      | Some (JStr id) =>
          if String.prefix "model." id then
            match lookup "execution_time" d with
            | None => true
            | Some v => ordinary_time v
            end
          else true
      | Some _ => false
      end
  | _ => false
  end.

(** Metadata whose timestamp is absent or a string. *)
Definition ordinary_metadata (metadata : json) : bool :=
  match metadata with
  | JDict md =>
      match lookup "generated_at" md with
      | None | Some (JStr _) => true
      | Some _ => false
      end
  | _ => false
  end.

(** A report as dbt writes it: an object whose metadata, when present, are
    ordinary and whose results, when present, are a list of ordinary
    records, shorter than the longest list Python can hold. *)
Definition ordinary_report (data : json) : bool :=
  match data with
  | JDict d =>
      ordinary_metadata
        (match lookup "metadata" d with Some m => m | None => JDict [] end)
      && match lookup "results" d with
         | None => true
         | Some (JList items) =>
             forallb ordinary_record items && (py_len items <? 2 ^ 63)
         | Some _ => false
         end
  | _ => false
  end.

(** Reading the file gives an ordinary report, or fails in one of the two
    ways [count_models] handles. *)
Definition readable (w : world) (path : string) : Prop :=
  match load w path with
  | Loaded data => ordinary_report data = true
  | FileNotFoundError | JSONDecodeError _ => True
  | LoadRaises _ => False
  end.

(** ** Numbers the arithmetic accepts *)

(** A float whose mantissa has at most 53 bits and whose exponent is at most
    971, when it is finite: every binary64 number is one. *)
Definition bounded64 (f : spec_float) : Prop :=
  match f with
  | S754_finite _ m e => Zdigits2 (Zpos m) <= 53 /\ e <= 971
  | _ => True
  end.

(** A number the sums of the script accept: an [int] from 0 to [B], or a
    binary64 [float]. *)
Definition within (B : Z) (x : num) : Prop :=
  match x with
  | NInt z => 0 <= z <= B
  | NFloat f => bounded64 f
  end.

(** A number that is formatted and added without error: an [int] from 0 to
    [B], or any [float]. *)
Definition addable (B : Z) (x : num) : Prop :=
  match x with
  | NInt z => 0 <= z <= B
  | NFloat _ => True
  end.

(** The [int] 0 or a [float]. *)
Definition zero_or_float (x : num) : Prop := x = NInt 0 \/ exists f, x = NFloat f.

(** What the summary of an ordinary report satisfies. *)
Definition printable (s : summary) : Prop :=
  0 <= successful_models s <= total_models s /\
  total_models s <= 2 ^ 63 /\
  zero_or_float (success_rate s) /\
  addable (2 ^ 116) (total_execution_time s).

(** ** Exceptions *)

(** The computation [m] raises only exceptions that satisfy [P]. *)
Definition raises_only {A : Type} (P : exn -> Prop) (m : outcome A) : Prop :=
  forall e, m = Raise e -> P e.

(** The printing code [m] ends only by exceptions that satisfy [P]. *)
Definition ends_only {A : Type} (P : exn -> Prop) (m : io A) : Prop :=
  forall e, snd m = Uncaught e -> P e.

(** The exceptions that leave the body of [count_models]. *)
Definition escapes_count_models (e : exn) : Prop :=
  e = AttributeError \/ e = TypeError \/ e = OverflowError.

Definition is_overflow (e : exn) : Prop := e = OverflowError.

(** ** Output and command lines *)

(** One list is the other with some elements left out, the order kept. *)
Inductive subsequence {A : Type} : list A -> list A -> Prop :=
| subsequence_nil : subsequence [] []
| subsequence_skip (x : A) (l l' : list A) :
    subsequence l l' -> subsequence l (x :: l')
| subsequence_keep (x : A) (l l' : list A) :
    subsequence l l' -> subsequence (x :: l) (x :: l').

(** [quiet] and [loud] end the same way and [loud] prints at least the lines of
    [quiet], in the same order. *)
Definition adds_lines {A : Type} (quiet loud : io A) : Prop :=
  snd quiet = snd loud /\ subsequence (fst quiet) (fst loud).

(** The command line with [--verbose], or [--recursive], set as given. *)
Definition with_verbose (args : arguments) (verbose : bool) : arguments :=
  {| arg_path := arg_path args; arg_json := arg_json args;
     arg_recursive := arg_recursive args; arg_verbose := verbose |}.

Definition with_recursive (args : arguments) (recursive : bool) : arguments :=
  {| arg_path := arg_path args; arg_json := arg_json args;
     arg_recursive := recursive; arg_verbose := arg_verbose args |}.

(** The summaries of the files that yield one, in the order of the files. *)
Definition summaries_of (w : world) (files : list string) : list summary :=
  flat_map (fun f => match snd (count_models w f) with
                     | Done (Some s) => [s]
                     | _ => []
                     end) files.

(** ** The summary table *)

(** The summary [a] is listed no later than [b]: its date is not earlier. *)
Definition not_earlier (a b : summary) : Prop :=
  String.leb (run_date b) (run_date a) = true.

Definition has_date (d : string) (s : summary) : bool :=
  String.eqb (run_date s) d.

(** The calendar order of two dates. *)
Definition date_leb (a b : date) : bool :=
  (year a <? year b)
  || ((year a =? year b)
      && ((month a <? month b)
          || ((month a =? month b) && (day a <=? day b)))).

(** The sum of a counter over the summaries. *)
Fixpoint total_of (f : summary -> Z) (l : list summary) : Z :=
  match l with
  | [] => 0
  | s :: l' => f s + total_of f l'
  end.

(** The lines of [print_summary_results] above and below the rows. *)
Definition table_header : list event :=
  [ Print (newline ++ rule "=" 80);
    Print "DBT MODEL BUILD SUMMARY";
    Print (rule "=" 80);
    PrintF "\n{'File':<30} {'Date':<12} {'Models':<7} {'Success':<8} {'Time(s)':<8}" [];
    Print (rule "-" 80) ].

Definition table_footer (runs models : Z) (rate time : fvalue) (per_run : spec_float)
    : list event :=
  [ Print (rule "-" 80);
    PrintF "{'TOTAL':<30} {'All Dates':<12} {total_models:<7} {overall_success_rate:>6.1f}% {total_time:>7.2f}"
      [VInt models; rate; time];
    Print (newline ++ "Overall Statistics:");
    PrintF "  Total Runs Analyzed: {len(all_stats)}" [VInt runs];
    PrintF "  Total Models Built: {total_models}" [VInt models];
    PrintF "  Average Models per Run: {total_models / len(all_stats):.1f}" [VFloat per_run];
    PrintF "  Overall Success Rate: {overall_success_rate:.1f}%" [rate];
    PrintF "  Total Execution Time: {total_time:.2f} seconds" [time] ].


(** ** Further sample data *)

(** The command line [simple_model_counter.py path --json]. *)
Definition json_arguments (path : string) : arguments :=
  {| arg_path := path; arg_json := true; arg_recursive := false;
     arg_verbose := false |}.

(** The sample directory, which answers to its name with a trailing slash
    too. *)
Definition slash_world : world :=
  {| kind := fun p => if String.eqb p "logs/" then Directory else kind sample_world p;
     glob := glob sample_world;
     load := load sample_world |}.

(** A report whose second record is a string, not an object. *)
Definition bad_record_report : list (string * json) :=
  [("results",
    JList ([record "model.a" "success" (JFloat float_1_0)]
           ++ JStr "oops" :: [record "model.b" "success" (JFloat float_2_0)])%list)].

Definition bad_record_world : world :=
  with_report sample_world "logs/run_results.json" (JDict bad_record_report).

(** The sample report cut before its failed model. *)
Definition all_successful_world : world :=
  with_report sample_world "logs/run_results.json"
    (with_results sample_report results_before).

(** What [count_models] returns on the report of the three models, which has
    no metadata. *)
Definition three_models_summary : summary :=
  {| file_path := "run_results.json";
     run_date := "unknown";
     run_timestamp := JStr "unknown";
     dbt_version := JStr "unknown";
     invocation_id := JStr "unknown";
     total_models := 3;
     successful_models := 2;
     failed_models := 1;
     success_rate := NFloat (S754_finite false 4691484174324859 (-46));
     avg_execution_time := NFloat float_1_5;
     total_execution_time := NFloat float_3_0 |}.

(** A summary whose total time is an [int] beyond the binary64 range, as two
    models with the integer time [2^1023] give. *)
Definition huge_time_report : json :=
  JDict [("results", JList
    [ record "model.a" "success" (JInt (2 ^ 1023));
      record "model.b" "success" (JInt (2 ^ 1023)) ])].

Definition huge_time_summary : summary :=
  {| file_path := "run_results.json";
     run_date := "unknown";
     run_timestamp := JStr "unknown";
     dbt_version := JStr "unknown";
     invocation_id := JStr "unknown";
     total_models := 2;
     successful_models := 2;
     failed_models := 0;
     success_rate := NFloat float_100;
     avg_execution_time := NFloat (S754_finite false 4503599627370496 971);
     total_execution_time := NInt (2 ^ 1024) |}.

(** * Properties *)

(** ** Inversion of the monadic code *)

Lemma bind_Ret {A B : Type} (m : outcome A) (k : A -> outcome B) (b : B) :
  bind m k = Ret b -> exists a, m = Ret a /\ k a = Ret b.
Proof.
  destruct m as [a | e]; simpl; intros H; [ | discriminate ].
  exists a; split; [ reflexivity | exact H ].
Qed.

Ltac invert_bind H :=
  let a := fresh "v" in
  let Ha := fresh "Hv" in
  apply bind_Ret in H; destruct H as [a [Ha H]].

Lemma py_get_Ret (o : json) (k : string) (default v : json) :
  py_get o k default = Ret v ->
  exists d, o = JDict d /\
    v = match lookup k d with Some x => x | None => default end.
Proof.
  destruct o; simpl; intros H; try discriminate.
  inversion H; subst. eexists; split; reflexivity.
Qed.

(** One iteration, read against the specification's words. *)
Lemma tally_step_Ret (t t' : tally) (r : json) :
  tally_step t r = Ret t' ->
  n_total t' = n_total t + (if is_model r then 1 else 0) /\
  n_successful t' =
    n_successful t + (if is_model r && is_success r then 1 else 0) /\
  n_failed t' =
    n_failed t + (if is_model r && negb (is_success r) then 1 else 0) /\
  execution_times t' =
    (execution_times t ++ (if is_model r then positive_time r else []))%list.
Proof.
  unfold tally_step. intros H.
  invert_bind H. apply py_get_Ret in Hv. destruct Hv as [d [-> ->]].
  invert_bind H.
  unfold is_model, is_success, positive_time.
  destruct (lookup "unique_id" d) as [[ | | | | id | | ] | ];
    simpl in Hv; try discriminate; inversion Hv; subst; clear Hv.
  - destruct (String.prefix "model." id).
    + simpl in H.
      destruct (lookup "execution_time" d) as [v | ]; simpl in H.
      * destruct (as_number v) as [x | ]; [ | discriminate ].
        inversion H; subst; clear H; simpl.
        destruct (lookup "status" d) as [[ | | | | status | | ] | ]; simpl;
          try (destruct (String.eqb status "success"); simpl);
          destruct (num_gt0 x); rewrite ?app_nil_r; repeat split;
          reflexivity || lia.
      * inversion H; subst; clear H; simpl.
        destruct (lookup "status" d) as [[ | | | | status | | ] | ]; simpl;
          try (destruct (String.eqb status "success"); simpl);
          rewrite ?app_nil_r; repeat split; reflexivity || lia.
    + inversion H; subst. simpl. rewrite app_nil_r. repeat split; lia.
  - simpl in H. inversion H; subst. simpl. rewrite app_nil_r.
    repeat split; lia.
Qed.

Lemma tally_loop_Ret (items : list json) : forall t t',
  tally_loop t items = Ret t' ->
  n_total t' = n_total t + count is_model items /\
  n_successful t' =
    n_successful t + count (fun r => is_model r && is_success r) items /\
  n_failed t' =
    n_failed t + count (fun r => is_model r && negb (is_success r)) items /\
  execution_times t' = (execution_times t ++ timing_sample items)%list.
Proof.
  unfold count, timing_sample, models.
  induction items as [ | r items IH]; simpl; intros t t' H.
  - inversion H; subst. rewrite app_nil_r. repeat split; reflexivity || lia.
  - invert_bind H. apply tally_step_Ret in Hv.
    destruct Hv as (H1 & H2 & H3 & H4).
    apply IH in H. destruct H as (K1 & K2 & K3 & K4).
    rewrite K1, K2, K3, K4, H1, H2, H3, H4. clear.
    destruct (is_model r); simpl;
      [ destruct (is_success r); simpl | ];
      rewrite ?app_nil_r, <- ?app_assoc; repeat split;
      try reflexivity; lia.
Qed.

Lemma tally_eq (t t' : tally) :
  n_total t' = n_total t -> n_successful t' = n_successful t ->
  n_failed t' = n_failed t -> execution_times t' = execution_times t ->
  t' = t.
Proof. destruct t, t'; simpl; intros; subst; reflexivity. Qed.

(** A record that is not a model leaves the counters as they are. *)
Lemma tally_step_not_model (t t' : tally) (r : json) :
  tally_step t r = Ret t' -> is_model r = false -> t' = t.
Proof.
  intros H Hm. apply tally_step_Ret in H. rewrite Hm in H. simpl in H.
  destruct H as (H1 & H2 & H3 & H4). rewrite app_nil_r in H4.
  apply tally_eq; lia || assumption.
Qed.

Lemma tally_loop_app (a b : list json) : forall t,
  tally_loop t (a ++ b) = (t' <- tally_loop t a ;; tally_loop t' b).
Proof.
  induction a as [ | r a IH]; simpl; intros t; [ reflexivity | ].
  destruct (tally_step t r) as [t1 | e]; simpl; [ apply IH | reflexivity ].
Qed.

(** The loop over the models alone ends in the same counters. *)
Lemma tally_loop_models (items : list json) : forall t t',
  tally_loop t items = Ret t' -> tally_loop t (models items) = Ret t'.
Proof.
  unfold models.
  induction items as [ | r items IH]; simpl; intros t t' H; [ exact H | ].
  invert_bind H. destruct (is_model r) eqn:Hm; simpl.
  - rewrite Hv. simpl. apply IH, H.
  - apply tally_step_not_model in Hv; [ subst | exact Hm ]. apply IH, H.
Qed.

(** An object whose identifier is absent, or is a string without the prefix,
    is stepped over without an error. *)
Lemma tally_step_skip (t : tally) (d : list (string * json)) :
  lookup "unique_id" d = None \/
  (exists id, lookup "unique_id" d = Some (JStr id) /\
              String.prefix "model." id = false) ->
  tally_step t (JDict d) = Ret t.
Proof.
  unfold tally_step. simpl. intros [H | [id [H Hp]]]; rewrite H; simpl.
  - reflexivity.
  - rewrite Hp. reflexivity.
Qed.

Lemma tally_loop_skip (t : tally) (pre post : list json) (d : list (string * json)) :
  lookup "unique_id" d = None \/
  (exists id, lookup "unique_id" d = Some (JStr id) /\
              String.prefix "model." id = false) ->
  tally_loop t (pre ++ JDict d :: post) = tally_loop t (pre ++ post).
Proof.
  intros H. rewrite !tally_loop_app.
  destruct (tally_loop t pre) as [t1 | e]; simpl; [ | reflexivity ].
  rewrite (tally_step_skip t1 d H). reflexivity.
Qed.

Lemma summarize_with_results (path : string) (data : json) (items : list json) :
  summarize path (with_results data items) =
  (metadata <- py_get data "metadata" (JDict []) ;;
   t <- tally_loop tally0 items ;;
   build_summary path metadata t).
Proof. destruct data; reflexivity. Qed.

Lemma summarize_results_of (path : string) (data : json) :
  summarize path data =
  (metadata <- py_get data "metadata" (JDict []) ;;
   items <- results_of data ;;
   t <- tally_loop tally0 items ;;
   build_summary path metadata t).
Proof.
  unfold summarize, results_of.
  destruct (py_get data "metadata" (JDict [])); simpl; [ | reflexivity ].
  destruct (py_get data "results" (JList [])); simpl; reflexivity.
Qed.

(** What a returned summary says of the loop that produced it. *)
Lemma summarize_Ret (path : string) (data : json) (s : summary) :
  summarize path data = Ret s ->
  exists metadata items t,
    py_get data "metadata" (JDict []) = Ret metadata /\
    results_of data = Ret items /\
    tally_loop tally0 items = Ret t /\
    build_summary path metadata t = Ret s.
Proof.
  rewrite summarize_results_of. intros H.
  invert_bind H. invert_bind H. invert_bind H.
  eauto 8.
Qed.

Lemma build_summary_Ret (path : string) (metadata : json) (t : tally) (s : summary) :
  build_summary path metadata t = Ret s ->
  exists rate avg time generated_at,
    compute_success_rate (n_successful t) (n_total t) = Ret rate /\
    compute_avg (execution_times t) = Ret avg /\
    py_sum (execution_times t) = Ret time /\
    py_get metadata "generated_at" (JStr "unknown") = Ret generated_at /\
    derive_run_date generated_at = Ret (run_date s) /\
    py_round rate 2 = Ret (success_rate s) /\
    py_round avg 3 = Ret (avg_execution_time s) /\
    py_round time 3 = Ret (total_execution_time s) /\
    file_path s = path /\ run_timestamp s = generated_at /\
    total_models s = n_total t /\
    successful_models s = n_successful t /\
    failed_models s = n_failed t.
Proof.
  unfold build_summary. intros H.
  do 10 (invert_bind H). inversion H; subst; clear H; simpl.
  do 4 eexists. repeat split; eassumption.
Qed.

Lemma count_models_Some (w : world) (path : string) (out : list event) (s : summary) :
  count_models w path = (out, Done (Some s)) ->
  exists data, load w path = Loaded data /\ summarize path data = Ret s.
Proof.
  unfold count_models.
  destruct (load w path) as [data | | diagnostic | e]; simpl;
    try (intros H; inversion H; fail).
  destruct (summarize path data) as [s' | e] eqn:E; simpl; intros H;
    inversion H; subst.
  exists data; split; [ reflexivity | exact E ].
Qed.

(** ** A sample run *)

Lemma sample_count_models :
  count_models sample_world "logs/run_results.json" = ([], Done (Some sample_summary)).
Proof. vm_compute. reflexivity. Qed.

(** ** The counts *)

Lemma tally_step_invariant (t t' : tally) (r : json) :
  tally_step t r = Ret t' ->
  n_total t = n_successful t + n_failed t ->
  n_total t' = n_successful t' + n_failed t'.
Proof.
  intros H. apply tally_step_Ret in H. destruct H as (H1 & H2 & H3 & _).
  rewrite H1, H2, H3.
  destruct (is_model r); destruct (is_success r); simpl; lia.
Qed.

Lemma tally_loop_invariant (items : list json) : forall t t',
  tally_loop t items = Ret t' ->
  n_total t = n_successful t + n_failed t ->
  n_total t' = n_successful t' + n_failed t'.
Proof.
  induction items as [ | r items IH]; simpl; intros t t' H Ht.
  - inversion H; subst; exact Ht.
  - invert_bind H. eapply IH; [ exact H | ].
    eapply tally_step_invariant; eassumption.
Qed.

(** C1. For every report file whose parse succeeds, the summary returned by
    [count_models] satisfies
    [total_models = successful_models + failed_models]. *)
Theorem total_is_successful_plus_failed :
  forall (w : world) (path : string) (out : list event) (s : summary),
    count_models w path = (out, Done (Some s)) ->
    total_models s = successful_models s + failed_models s.
Proof.
  intros w path out s H.
  apply count_models_Some in H. destruct H as (data & _ & H).
  apply summarize_Ret in H. destruct H as (metadata & items & t & _ & _ & Hl & Hb).
  apply build_summary_Ret in Hb.
  destruct Hb as (rate & avg & time & g & Hb).
  destruct Hb as (_ & _ & _ & _ & _ & _ & _ & _ & _ & _ & -> & -> & ->).
  eapply tally_loop_invariant; [ exact Hl | reflexivity ].
Qed.

Lemma total_is_successful_plus_failed_witness :
  count_models sample_world "logs/run_results.json" = ([], Done (Some sample_summary))
  /\ total_models sample_summary
     = successful_models sample_summary + failed_models sample_summary.
Proof.
  split.
  - vm_compute. reflexivity.
  - apply (total_is_successful_plus_failed sample_world "logs/run_results.json" []).
    vm_compute. reflexivity.
Defined.

(** ** The filter on the identifier *)

Lemma prefix_iff_append (p s : string) :
  String.prefix p s = true <-> exists rest, s = p ++ rest.
Proof.
  revert s. induction p as [ | c p IH]; intros s; simpl.
  - destruct s; split; intros _; try reflexivity; eexists; reflexivity.
  - destruct s as [ | c' s].
    + split; [ discriminate | intros [rest H]; discriminate ].
    + simpl. destruct (ascii_dec c c') as [Hc | Hc].
      * subst c'. rewrite IH. split; intros [rest H]; exists rest.
        -- rewrite H; reflexivity.
        -- inversion H; reflexivity.
      * split; [ discriminate | intros [rest H]; inversion H; congruence ].
Qed.

Lemma is_model_iff (r : json) :
  is_model r = true <->
  exists d rest, r = JDict d /\ lookup "unique_id" d = Some (JStr ("model." ++ rest)).
Proof.
  unfold is_model. split.
  - destruct r as [ | | | | | | d]; try discriminate.
    destruct (lookup "unique_id" d) as [[ | | | | id | | ] | ] eqn:E;
      try discriminate.
    intros H. apply prefix_iff_append in H. destruct H as [rest ->].
    exists d, rest; split; [ reflexivity | exact E ].
  - intros (d & rest & Hr & Hid). subst r. rewrite Hid.
    apply prefix_iff_append. exists rest; reflexivity.
Qed.

Lemma count_models_of_models (p : json -> bool) (items : list json) :
  count (fun r => is_model r && p r) items = count p (models items).
Proof.
  unfold count, models. f_equal.
  induction items as [ | r items IH]; simpl; [ reflexivity | ].
  destruct (is_model r); simpl; [ | exact IH ].
  destruct (p r); simpl; rewrite IH; reflexivity.
Qed.

(** C2. A record of the result list enters the tally if and only if its
    [unique_id] is a string that starts with the exact, case-sensitive prefix
    ["model."]: [total_models] is the number of such records, each is counted
    as a success or as a failure, and the summary is the one of the report
    whose other records are deleted. *)
Theorem model_prefix_decides_inclusion :
  forall (w : world) (path : string) (out : list event) (s : summary),
    count_models w path = (out, Done (Some s)) ->
    exists data items,
      load w path = Loaded data /\
      results_of data = Ret items /\
      (forall r, In r items ->
         (is_model r = true <->
          exists d rest, r = JDict d /\
            lookup "unique_id" d = Some (JStr ("model." ++ rest)))) /\
      total_models s = Z.of_nat (List.length (models items)) /\
      successful_models s + failed_models s = Z.of_nat (List.length (models items)) /\
      summarize path (with_results data (models items)) = Ret s.
Proof.
  intros w path out s H.
  apply count_models_Some in H. destruct H as (data & Hload & H).
  exists data.
  apply summarize_Ret in H.
  destruct H as (metadata & items & t & Hm & Hr & Hl & Hb).
  exists items. split; [ exact Hload | ]. split; [ exact Hr | ].
  split; [ intros r _; apply is_model_iff | ].
  pose proof (tally_loop_Ret _ _ _ Hl) as (K1 & K2 & K3 & _).
  pose proof (tally_loop_invariant _ _ _ Hl eq_refl) as Hinv.
  pose proof (build_summary_Ret _ _ _ _ Hb) as (rate & avg & time & g & Hs).
  destruct Hs as (_ & _ & _ & _ & _ & _ & _ & _ & _ & _ & E1 & E2 & E3).
  unfold count in K1. simpl in K1. fold (models items) in K1.
  split; [ rewrite E1; exact K1 | ].
  split; [ rewrite E2, E3, <- Hinv; exact K1 | ].
  rewrite summarize_with_results, Hm. simpl.
  rewrite (tally_loop_models _ _ _ Hl). simpl. exact Hb.
Qed.

Lemma model_prefix_decides_inclusion_witness :
  count_models sample_world "logs/run_results.json" = ([], Done (Some sample_summary))
  /\ exists data items,
      load sample_world "logs/run_results.json" = Loaded data /\
      results_of data = Ret items /\
      (forall r, In r items ->
         (is_model r = true <->
          exists d rest, r = JDict d /\
            lookup "unique_id" d = Some (JStr ("model." ++ rest)))) /\
      total_models sample_summary = Z.of_nat (List.length (models items)) /\
      successful_models sample_summary + failed_models sample_summary
        = Z.of_nat (List.length (models items)) /\
      summarize "logs/run_results.json" (with_results data (models items))
        = Ret sample_summary.
Proof.
  split.
  - vm_compute. reflexivity.
  - apply (model_prefix_decides_inclusion sample_world "logs/run_results.json" []).
    vm_compute. reflexivity.
Defined.

(** The prefix is matched exactly and with its case. *)
Example prefix_is_case_sensitive :
  is_model (record "Model.shop.orders" "success" (JInt 1)) = false /\
  is_model (record "models.shop.orders" "success" (JInt 1)) = false /\
  is_model (record "model" "success" (JInt 1)) = false /\
  is_model (record "model." "success" (JInt 1)) = true.
Proof. repeat split. Qed.

(** ** The classification by status *)

Lemma is_success_iff (r : json) :
  is_success r = true <->
  exists d, r = JDict d /\ lookup "status" d = Some (JStr "success").
Proof.
  unfold is_success. split.
  - destruct r as [ | | | | | | d]; try discriminate.
    destruct (lookup "status" d) as [[ | | | | status | | ] | ] eqn:E;
      try discriminate.
    intros H. apply String.eqb_eq in H. subst.
    exists d; split; [ reflexivity | exact E ].
  - intros (d & Hr & Hst). subst r. rewrite Hst. reflexivity.
Qed.

(** C3. A model record is counted as successful if and only if its status
    is exactly the string ["success"]; with any other status value, or with
    no status field, it is counted as failed. *)
Theorem success_iff_status_is_success :
  forall (w : world) (path : string) (out : list event) (s : summary),
    count_models w path = (out, Done (Some s)) ->
    exists data items,
      load w path = Loaded data /\
      results_of data = Ret items /\
      (forall r,
         is_success r = true <->
         exists d, r = JDict d /\ lookup "status" d = Some (JStr "success")) /\
      successful_models s = Z.of_nat (List.length (filter is_success (models items))) /\
      failed_models s =
        Z.of_nat (List.length (filter (fun r => negb (is_success r)) (models items))).
Proof.
  intros w path out s H.
  apply count_models_Some in H. destruct H as (data & Hload & H).
  exists data.
  apply summarize_Ret in H.
  destruct H as (metadata & items & t & Hm & Hr & Hl & Hb).
  exists items. split; [ exact Hload | ]. split; [ exact Hr | ].
  split; [ exact is_success_iff | ].
  pose proof (tally_loop_Ret _ _ _ Hl) as (_ & K2 & K3 & _).
  pose proof (build_summary_Ret _ _ _ _ Hb) as (rate & avg & time & g & Hs).
  destruct Hs as (_ & _ & _ & _ & _ & _ & _ & _ & _ & _ & _ & E2 & E3).
  rewrite count_models_of_models in K2.
  rewrite (count_models_of_models (fun r => negb (is_success r))) in K3.
  unfold count in K2, K3. simpl in K2, K3.
  split; congruence.
Qed.

Lemma success_iff_status_is_success_witness :
  count_models sample_world "logs/run_results.json" = ([], Done (Some sample_summary))
  /\ exists data items,
      load sample_world "logs/run_results.json" = Loaded data /\
      results_of data = Ret items /\
      (forall r,
         is_success r = true <->
         exists d, r = JDict d /\ lookup "status" d = Some (JStr "success")) /\
      successful_models sample_summary
        = Z.of_nat (List.length (filter is_success (models items))) /\
      failed_models sample_summary
        = Z.of_nat (List.length (filter (fun r => negb (is_success r)) (models items))).
Proof.
  split.
  - vm_compute. reflexivity.
  - apply (success_iff_status_is_success sample_world "logs/run_results.json" []).
    vm_compute. reflexivity.
Defined.

(** A status that is missing, differs in case, or is not a string counts as
    a failure. *)
Example other_statuses_fail :
  tally_step tally0 (JDict [("unique_id", JStr "model.a")])
    = Ret (mk_tally 1 0 1 []) /\
  tally_step tally0 (JDict [("unique_id", JStr "model.a"); ("status", JStr "Success")])
    = Ret (mk_tally 1 0 1 []) /\
  tally_step tally0 (JDict [("unique_id", JStr "model.a"); ("status", JNull)])
    = Ret (mk_tally 1 0 1 []) /\
  tally_step tally0 (JDict [("unique_id", JStr "model.a"); ("status", JStr "success")])
    = Ret (mk_tally 1 1 0 []).
Proof. repeat split. Qed.

(** ** Records without identifier *)

(** C10. A record with no [unique_id] field has the empty string as its
    identifier and is left out of the tally, without an error: whatever
    [count_models] does on the report, it does on the report without that
    record. *)
Theorem record_without_unique_id_is_skipped :
  forall (w w' : world) (path : string) (data : json)
         (pre post : list json) (d : list (string * json)),
    load w path = Loaded data ->
    results_of data = Ret (pre ++ JDict d :: post)%list ->
    lookup "unique_id" d = None ->
    load w' path = Loaded (with_results data (pre ++ post)%list) ->
    py_get (JDict d) "unique_id" (JStr "") = Ret (JStr "") /\
    (forall t, tally_step t (JDict d) = Ret t) /\
    count_models w path = count_models w' path.
Proof.
  intros w w' path data pre post d Hload Hr Hd Hload'.
  split; [ simpl; rewrite Hd; reflexivity | ].
  split; [ intros t; apply tally_step_skip; left; exact Hd | ].
  unfold count_models. rewrite Hload, Hload'. f_equal. f_equal.
  rewrite summarize_with_results, summarize_results_of, Hr.
  destruct (py_get data "metadata" (JDict [])) as [metadata | e]; simpl;
    [ | reflexivity ].
  rewrite tally_loop_skip; [ reflexivity | left; exact Hd ].
Qed.

Lemma record_without_unique_id_is_skipped_witness :
  lookup "unique_id" anonymous_record = None /\
  py_get (JDict anonymous_record) "unique_id" (JStr "") = Ret (JStr "") /\
  (forall t, tally_step t (JDict anonymous_record) = Ret t) /\
  count_models sample_world "logs/run_results.json"
    = count_models trimmed_world "logs/run_results.json".
Proof.
  split; [ reflexivity | ].
  apply (record_without_unique_id_is_skipped sample_world trimmed_world
           "logs/run_results.json" sample_report
           results_before results_after anonymous_record);
    reflexivity.
Defined.

(** ** The timing sample *)





(** ** The run date *)

Lemma derive_run_date_str (g : string) :
  derive_run_date (JStr g) = Ret (run_date_of g).
Proof.
  unfold derive_run_date, run_date_of. simpl.
  destruct (String.eqb g "unknown"); [ reflexivity | ].
  destruct (fromisoformat (replace_Z g)); reflexivity.
Qed.

Lemma derive_run_date_Ret (v : json) (date : string) :
  derive_run_date v = Ret date -> exists g, v = JStr g /\ date = run_date_of g.
Proof.
  destruct v as [ | | | | g | | ]; try discriminate.
  rewrite derive_run_date_str. intros H. injection H as <-.
  exists g; split; reflexivity.
Qed.



Lemma take_digits_cons (k : nat) (acc : Z) (c : ascii) (s : string) :
  take_digits (S k) acc (String c s) =
  match digit_of c with
  | Some d => take_digits k (10 * acc + d) s
  | None => None
  end.
Proof. reflexivity. Qed.












(** Timestamps that do not parse. *)
Example unparsable_timestamps :
  run_date_of "yesterday" = "unknown" /\
  run_date_of "2024-02-30T10:30:00Z" = "unknown" /\
  run_date_of "2024-01-15T25:00:00Z" = "unknown" /\
  run_date_of "" = "unknown" /\
  run_date_of "2024-01-15 10:30:00.123456+00:00" = "2024-01-15".
Proof. repeat split. Qed.

(** ** Discovery *)

Lemma string_lt_iff (a b : string) : string_lt a b <-> String_as_OT.lt a b.
Proof.
  unfold string_lt, String.ltb. rewrite <- String_as_OT.cmp_lt.
  unfold String_as_OT.cmp. destruct (String.compare a b); split; congruence.
Qed.

Lemma string_lt_trans (a b c : string) :
  string_lt a b -> string_lt b c -> string_lt a c.
Proof. rewrite !string_lt_iff. apply String_as_OT.lt_trans. Qed.

Lemma string_lt_irrefl (a : string) : ~ string_lt a a.
Proof.
  rewrite string_lt_iff. intros H.
  exact (String_as_OT.lt_not_eq a a H eq_refl).
Qed.

Lemma leb_false_lt (x y : string) : String.leb x y = false -> string_lt y x.
Proof.
  unfold String.leb, string_lt, String.ltb.
  rewrite (String.compare_antisym y x).
  destruct (String.compare x y); simpl; congruence.
Qed.

Lemma leb_true_lt (x y : string) :
  String.leb x y = true -> x <> y -> string_lt x y.
Proof.
  unfold String.leb, string_lt, String.ltb.
  destruct (String.compare x y) eqn:E; try congruence.
  apply String.compare_eq_iff in E. congruence.
Qed.

Lemma insert_sorted_perm (x : string) (l : list string) :
  Permutation (insert_sorted x l) (x :: l).
Proof.
  induction l as [ | y l IH]; simpl; [ reflexivity | ].
  destruct (String.leb x y); [ reflexivity | ].
  rewrite IH. apply perm_swap.
Qed.

Lemma sorted_perm (l : list string) : Permutation (sorted l) l.
Proof.
  induction l as [ | x l IH]; simpl; [ reflexivity | ].
  rewrite insert_sorted_perm. constructor. exact IH.
Qed.

Lemma insert_sorted_increasing (x : string) (l : list string) :
  ~ In x l -> StronglySorted string_lt l ->
  StronglySorted string_lt (insert_sorted x l).
Proof.
  induction l as [ | y l IH]; simpl; intros Hx Hl.
  - repeat constructor.
  - apply StronglySorted_inv in Hl. destruct Hl as [Hl Hy].
    destruct (String.leb x y) eqn:E.
    + assert (Hxy : string_lt x y).
      { apply leb_true_lt; [ exact E | ].
        intros ->. apply Hx. left; reflexivity. }
      constructor; [ constructor; assumption | ].
      constructor; [ exact Hxy | ].
      eapply Forall_impl; [ | exact Hy ].
      intros z Hz. eapply string_lt_trans; eassumption.
    + constructor; [ apply IH; [ intros H; apply Hx; right; exact H | exact Hl ] | ].
      apply (Permutation_Forall (Permutation_sym (insert_sorted_perm x l))).
      constructor; [ apply leb_false_lt, E | exact Hy ].
Qed.

Lemma sorted_increasing (l : list string) :
  NoDup l -> StronglySorted string_lt (sorted l).
Proof.
  induction 1 as [ | x l Hx Hl IH]; simpl; [ constructor | ].
  apply insert_sorted_increasing; [ | exact IH ].
  intros H. apply Hx. eapply Permutation_in; [ apply sorted_perm | exact H ].
Qed.

(** Two increasing lists with the same elements are the same list. *)
Lemma increasing_unique (l1 : list string) : forall l2,
  StronglySorted string_lt l1 -> StronglySorted string_lt l2 ->
  (forall x, In x l1 <-> In x l2) -> l1 = l2.
Proof.
  induction l1 as [ | a l1 IH]; intros [ | b l2] H1 H2 Hin.
  - reflexivity.
  - exfalso. apply (proj2 (Hin b)). left; reflexivity.
  - exfalso. apply (proj1 (Hin a)). left; reflexivity.
  - apply StronglySorted_inv in H1. destruct H1 as [H1 Ha].
    apply StronglySorted_inv in H2. destruct H2 as [H2 Hb].
    rewrite Forall_forall in Ha, Hb.
    assert (Hab : a = b).
    { destruct (proj1 (Hin a) (or_introl eq_refl)) as [E | Ea]; [ congruence | ].
      destruct (proj2 (Hin b) (or_introl eq_refl)) as [E | Eb]; [ congruence | ].
      exfalso. apply (string_lt_irrefl a).
      eapply string_lt_trans; [ apply Ha, Eb | apply Hb, Ea ]. }
    subst b. f_equal. apply IH; try assumption.
    intros x. split; intros Hx.
    + destruct (proj1 (Hin x) (or_intror Hx)) as [E | E]; [ | exact E ].
      subst x. exfalso. exact (string_lt_irrefl a (Ha a Hx)).
    + destruct (proj2 (Hin x) (or_intror Hx)) as [E | E]; [ | exact E ].
      subst x. exfalso. exact (string_lt_irrefl a (Hb a Hx)).
Qed.

(** The order in which [list(set(files))] lists the set is irrelevant. *)
Lemma sorted_order_irrelevant (l1 l2 : list string) :
  NoDup l1 -> Permutation l2 l1 -> sorted l2 = sorted l1.
Proof.
  intros Hn Hp.
  apply increasing_unique.
  - apply sorted_increasing. eapply Permutation_NoDup; [ | exact Hn ].
    symmetry; exact Hp.
  - apply sorted_increasing, Hn.
  - intros x. split; intros H.
    + eapply Permutation_in; [ symmetry; apply sorted_perm | ].
      eapply Permutation_in; [ exact Hp | ].
      eapply Permutation_in; [ apply sorted_perm | exact H ].
    + eapply Permutation_in; [ symmetry; apply sorted_perm | ].
      eapply Permutation_in; [ symmetry; exact Hp | ].
      eapply Permutation_in; [ apply sorted_perm | exact H ].
Qed.

(** C7. For an existing directory, [find_run_results_files] returns the
    union of the matches of the three patterns ([run_results.json] in the
    directory, [**/run_results.json] searched recursively, and
    [run_results*.json] in the directory), in strictly increasing
    lexicographic order, hence sorted and without repeats, whatever the order
    in which the set of matches is listed.  A directory holding
    [run_results.json] and [run_results_old.json] yields both, once each. *)
Theorem discovery_is_the_sorted_union :
  (forall (w : world) (path : string),
     kind w path = Directory ->
     exists out files,
       find_run_results_files w path = (out, Done files) /\
       (forall f,
          In f files <->
          In f (glob w (os_path_join path "run_results.json") false) \/
          In f (glob w (os_path_join path "**/run_results.json") true) \/
          In f (glob w (os_path_join path "run_results*.json") false)) /\
       StronglySorted string_lt files /\
       NoDup files /\
       (forall listing,
          Permutation listing (list_of_set (matches w path)) ->
          sorted listing = files))
  /\
  find_run_results_files sample_world "logs"
    = ([], Done ["logs/run_results.json"; "logs/run_results_old.json"]).
Proof.
  split; [ | reflexivity ].
  intros w path Hk. unfold find_run_results_files. rewrite Hk.
  fold (matches w path).
  exists (match list_of_set (matches w path) with
          | [] => [Print ("No run_results.json files found in " ++ path)]
          | _ => []
          end), (sorted (list_of_set (matches w path))).
  assert (Hn : NoDup (list_of_set (matches w path))) by apply NoDup_nodup.
  split; [ destruct (list_of_set (matches w path)); reflexivity | ].
  split; [ | split; [ | split ] ].
  - intros f. rewrite <- !in_app_iff. fold (matches w path).
    rewrite <- (nodup_In string_dec (matches w path) f).
    fold (list_of_set (matches w path)).
    split; apply Permutation_in.
    + apply sorted_perm.
    + symmetry; apply sorted_perm.
  - apply sorted_increasing, Hn.
  - eapply Permutation_NoDup; [ symmetry; apply sorted_perm | exact Hn ].
  - intros listing Hp. apply sorted_order_irrelevant; assumption.
Qed.

Lemma discovery_is_the_sorted_union_witness :
  kind sample_world "logs" = Directory /\
  exists out files,
    find_run_results_files sample_world "logs" = (out, Done files) /\
    (forall f,
       In f files <->
       In f (glob sample_world (os_path_join "logs" "run_results.json") false) \/
       In f (glob sample_world (os_path_join "logs" "**/run_results.json") true) \/
       In f (glob sample_world (os_path_join "logs" "run_results*.json") false)) /\
    StronglySorted string_lt files /\
    NoDup files /\
    (forall listing,
       Permutation listing (list_of_set (matches sample_world "logs")) ->
       sorted listing = files).
Proof.
  split; [ reflexivity | ].
  apply (proj1 discovery_is_the_sorted_union sample_world "logs").
  reflexivity.
Defined.

(** ** The loop over the files *)

Lemma io_bind_snd {A B : Type} (m : io A) (k : A -> io B) :
  snd (io_bind m k) =
  match snd m with
  | Done a => snd (k a)
  | Uncaught e => Uncaught e
  | Exit status => Exit status
  end.
Proof.
  destruct m as [out [a | e | status]]; simpl; try reflexivity.
  destruct (k a); reflexivity.
Qed.

Lemma when_snd (b : bool) (m : io unit) :
  snd m = Done tt -> snd (when b m) = Done tt.
Proof. destruct b; simpl; intros H; [ exact H | reflexivity ]. Qed.

(** [count_models] ends with a summary, with [None], or with an exception
    that [summarize] or the load raises; it never exits. *)
Lemma count_models_snd (w : world) (path : string) :
  snd (count_models w path) =
  match load w path with
  | Loaded data =>
      match summarize path data with
      | Ret s => Done (Some s)
      | Raise e => Uncaught e
      end
  | FileNotFoundError | JSONDecodeError _ => Done None
  | LoadRaises e => Uncaught e
  end.
Proof.
  unfold count_models.
  destruct (load w path) as [data | | diagnostic | e]; try reflexivity.
  destruct (summarize path data); reflexivity.
Qed.

Lemma count_models_never_exits (w : world) (path : string) (status : Z) :
  snd (count_models w path) <> Exit status.
Proof.
  rewrite count_models_snd.
  destruct (load w path) as [data | | diagnostic | e]; try discriminate.
  destruct (summarize path data); discriminate.
Qed.

Lemma process_files_snd (w : world) (verbose : bool) (files : list string) :
  forall all_stats,
    snd (process_files w verbose files all_stats) = collect w files all_stats.
Proof.
  induction files as [ | path rest IH]; intros all_stats; [ reflexivity | ].
  cbn [process_files collect].
  rewrite io_bind_snd.
  assert (Hw : forall line, snd (when verbose (print line)) = Done tt)
    by (intros line; apply when_snd; reflexivity).
  rewrite Hw, io_bind_snd.
  destruct (snd (count_models w path)) as [[s | ] | e | status]; try reflexivity.
  - apply IH.
  - rewrite io_bind_snd, Hw. apply IH.
Qed.




Lemma collect_never_exits (w : world) (files : list string) : forall all_stats status,
  collect w files all_stats <> Exit status.
Proof.
  induction files as [ | path rest IH]; simpl; intros all_stats status;
    [ discriminate | ].
  destruct (snd (count_models w path)) as [[s | ] | e' | status'] eqn:E;
    try discriminate; try apply IH.
  exfalso. exact (count_models_never_exits _ _ _ E).
Qed.



(** One unreadable file between two runs of the sample report. *)
Example processing_goes_on :
  snd (process_files sample_world true
         ["logs/run_results.json"; "logs/run_results_old.json"; "logs/run_results.json"] [])
  = Done [sample_summary; sample_summary].
Proof. vm_compute. reflexivity. Qed.

(** ** The exit status *)

(** Discovery raises nothing: it always returns a list of files. *)
Lemma find_run_results_files_Done (w : world) (path : string) :
  exists out files, find_run_results_files w path = (out, Done files).
Proof.
  unfold find_run_results_files. destruct (kind w path).
  - destruct (py_endswith path ".json"); eexists; eexists; reflexivity.
  - destruct (list_of_set _); eexists; eexists; reflexivity.
  - eexists; eexists; reflexivity.
Qed.

Lemma print_each_snd (files : list string) : snd (print_each files) = Done tt.
Proof.
  induction files as [ | f rest IH]; [ reflexivity | ].
  cbn [print_each]. rewrite io_bind_snd. exact IH.
Qed.








(** The ways [main] ends, by the files found and by what the loop over them
    computes. *)
Lemma main_cases (w : world) (args : arguments) (out : list event) (files : list string) :
  find_run_results_files w (arg_path args) = (out, Done files) ->
  match files with
  | [] => main w args = ((out ++ [Print no_files_message])%list, Exit 1)
  | _ =>
      exists printed,
        match collect w files [] with
        | Done [] => main w args = ((printed ++ [Print no_valid_message])%list, Exit 1)
        | Done all_stats =>
            main w args =
            ((printed ++ fst (output_results (arg_json args) all_stats))%list,
             snd (output_results (arg_json args) all_stats))
        | Uncaught e => main w args = (printed, Uncaught e)
        | Exit _ => False
        end
  end.
Proof.
  intros Hfind. unfold main. rewrite Hfind.
  destruct files as [ | f rest]; [ reflexivity | ].
  cbn [io_bind].
  remember (f :: rest) as files eqn:Hfiles.
  set (prelude := when (arg_verbose args) _).
  assert (Hp : snd prelude = Done tt).
  { apply when_snd. rewrite io_bind_snd. cbn [printf emit snd].
    rewrite io_bind_snd, print_each_snd. reflexivity. }
  pose proof (process_files_snd w (arg_verbose args) files []) as Hl.
  destruct prelude as [o1 e1]. simpl in Hp. subst e1.
  destruct (process_files w (arg_verbose args) files []) as [o2 e2].
  simpl in Hl. subst e2. cbn [io_bind].
  destruct (collect w files []) as [[ | s l] | e | status] eqn:E.
  - exists (out ++ o1 ++ o2)%list. cbn. rewrite <- ?app_assoc. reflexivity.
  - exists (out ++ o1 ++ o2)%list.
    destruct (output_results (arg_json args) (s :: l)) as [o3 e3].
    cbn. rewrite <- ?app_assoc. reflexivity.
  - exists (out ++ o1 ++ o2)%list. cbn. rewrite <- ?app_assoc. reflexivity.
  - exfalso. exact (collect_never_exits _ _ _ _ E).
Qed.




(** ** Binary64 numbers as rationals *)

Lemma bpow_pos (e : Z) : (0 < bpow e)%Q.
Proof. apply Qpower_0_lt. reflexivity. Qed.

Lemma bpow_add (a b : Z) : (bpow (a + b) == bpow a * bpow b)%Q.
Proof. apply Qpower_plus. discriminate. Qed.

Lemma bpow_Z (n : Z) : 0 <= n -> (bpow n == inject_Z (2 ^ n))%Q.
Proof. intros H. unfold bpow. rewrite Zpower_Qpower by exact H. reflexivity. Qed.

Lemma bpow_lt_inv (a b : Z) : (bpow a < bpow b)%Q -> a < b.
Proof. intros H. eapply Qpower_lt_compat_l_inv; [ exact H | reflexivity ]. Qed.

(** Moving a power of two between mantissa and exponent. *)
Lemma F_shift (m e n : Z) : 0 <= n -> (F (m * 2 ^ n) e == F m (e + n))%Q.
Proof.
  intros H. unfold F. rewrite inject_Z_mult, bpow_add, (bpow_Z n H). ring.
Qed.

Lemma F_le (m M e : Z) : (F m e <= F M e)%Q <-> m <= M.
Proof.
  unfold F. rewrite Qmult_le_r by apply bpow_pos. rewrite <- Zle_Qle. reflexivity.
Qed.

Lemma F_lt (m M e : Z) : (F m e < F M e)%Q <-> m < M.
Proof.
  unfold F. rewrite Qmult_lt_r by apply bpow_pos. rewrite <- Zlt_Qlt. reflexivity.
Qed.

Lemma F_align (M e E : Z) : e <= E -> (F M E == F (M * 2 ^ (E - e)) e)%Q.
Proof.
  intros H. rewrite F_shift by lia. replace (e + (E - e)) with E by ring.
  reflexivity.
Qed.

Lemma F_nonneg (m e : Z) : 0 <= m -> (0 <= F m e)%Q.
Proof.
  intros H. unfold F. apply Qmult_le_0_compat.
  - rewrite Zle_Qle in H. exact H.
  - apply Qlt_le_weak, bpow_pos.
Qed.

(** Flooring the mantissa while raising the exponent only lowers the value. *)
Lemma F_floor (m e n : Z) : 0 <= n -> (F (m / 2 ^ n) (e + n) <= F m e)%Q.
Proof.
  intros H. rewrite <- F_shift by exact H. apply F_le.
  pose proof (Z.mul_div_le m (2 ^ n)) as K. 
  assert (0 < 2 ^ n) by (apply Z.pow_pos_nonneg; lia). specialize (K H0). lia.
Qed.

(** ** The number of binary digits *)

Lemma digits2_size (p : positive) : digits2_pos p = Pos.size p.
Proof. induction p; simpl; congruence. Qed.

Lemma Zdigits2_bounds (m : Z) :
  0 < m -> 2 ^ (Zdigits2 m - 1) <= m < 2 ^ Zdigits2 m.
Proof.
  destruct m as [ | p | p]; try lia. intros _.
  change (Zdigits2 (Zpos p)) with (Zpos (digits2_pos p)). rewrite digits2_size.
  pose proof (Pos2Z.pos_lt_pos _ _ (Pos.size_gt p)) as Hgt.
  pose proof (Pos2Z.pos_le_pos _ _ (Pos.size_le p)) as Hle.
  rewrite Pos2Z.inj_pow in Hgt, Hle.
  change (Zpos p~0) with (2 * Zpos p) in Hle.
  split.
  - assert (E2 : 2 ^ Zpos (Pos.size p) = 2 * 2 ^ (Zpos (Pos.size p) - 1)).
    { rewrite <- Z.pow_succ_r by lia. f_equal. lia. }
    lia.
  - lia.
Qed.

Lemma Zdigits2_nonneg (m : Z) : 0 <= Zdigits2 m.
Proof. destruct m; simpl; lia. Qed.

Lemma Zdigits2_ge (m : Z) (k : Z) : 0 <= k -> 2 ^ k <= m -> k + 1 <= Zdigits2 m.
Proof.
  intros Hk H.
  assert (0 < m) by (pose proof (Z.pow_pos_nonneg 2 k); lia).
  destruct (Zdigits2_bounds m H0) as [_ Hu].
  assert (2 ^ k < 2 ^ Zdigits2 m) by lia.
  apply Z.pow_lt_mono_r_iff in H1; [ lia | lia | apply Zdigits2_nonneg ].
Qed.

Lemma Zdigits2_shift (m s : Z) : 0 < m -> 0 <= s -> Zdigits2 (m * 2 ^ s) = Zdigits2 m + s.
Proof.
  intros Hm Hs.
  assert (Hp : 0 < 2 ^ s) by (apply Z.pow_pos_nonneg; lia).
  destruct (Zdigits2_bounds m Hm) as [Hl Hu].
  assert (Hms : 0 < m * 2 ^ s) by nia.
  destruct (Zdigits2_bounds _ Hms) as [Hl' Hu'].
  pose proof (Zdigits2_nonneg m). pose proof (Zdigits2_nonneg (m * 2 ^ s)).
  assert (Zdigits2 m <> 0) by (destruct m; simpl; lia).
  assert (Zdigits2 (m * 2 ^ s) <> 0) by (destruct (m * 2 ^ s); simpl; lia).
  assert (A : 2 ^ (Zdigits2 m - 1 + s) <= m * 2 ^ s).
  { rewrite Z.pow_add_r by lia. nia. }
  assert (B : m * 2 ^ s < 2 ^ (Zdigits2 m + s)).
  { rewrite Z.pow_add_r by lia. nia. }
  assert (C : 2 ^ (Zdigits2 m - 1 + s) < 2 ^ Zdigits2 (m * 2 ^ s)) by lia.
  assert (D : 2 ^ (Zdigits2 (m * 2 ^ s) - 1) < 2 ^ (Zdigits2 m + s)) by lia.
  apply Z.pow_lt_mono_r_iff in C; [ | lia | lia ].
  apply Z.pow_lt_mono_r_iff in D; [ | lia | lia ].
  lia.
Qed.

Lemma F_one (e : Z) : (F 1 e == bpow e)%Q.
Proof. unfold F. ring. Qed.

Lemma F_upper (m e : Z) : 0 < m -> (F m e < bpow (Zdigits2 m + e))%Q.
Proof.
  intros H. destruct (Zdigits2_bounds m H) as [_ Hu].
  rewrite <- F_one, (Z.add_comm (Zdigits2 m)), <- F_shift by apply Zdigits2_nonneg.
  apply F_lt. lia.
Qed.

Lemma F_lower (m e : Z) : 0 < m -> (bpow (Zdigits2 m - 1 + e) <= F m e)%Q.
Proof.
  intros H. destruct (Zdigits2_bounds m H) as [Hl _].
  assert (0 <= Zdigits2 m - 1).
  { destruct m as [ | p | p]; try lia.
    change (Zdigits2 (Zpos p)) with (Zpos (digits2_pos p)). lia. }
  rewrite <- F_one, (Z.add_comm (Zdigits2 m - 1)), <- F_shift by assumption.
  apply F_le. lia.
Qed.

(** ** Shifting a mantissa to the right *)

Lemma fexp64_eq (e : Z) : fexp64 e = Z.max (e - 53) (-1074).
Proof. reflexivity. Qed.

Lemma fexp64_mono (a b : Z) : a <= b -> fexp64 a <= fexp64 b.
Proof. rewrite !fexp64_eq. lia. Qed.

Lemma loc_of_shr_record_exact (mrs : shr_record) :
  inexact mrs = false -> loc_of_shr_record mrs = loc_Exact.
Proof.
  destruct mrs as [m [ | ] [ | ]]; unfold inexact; simpl; intros H;
    reflexivity || discriminate.
Qed.

Lemma inexact_of_loc (m : Z) (l : location) :
  inexact (shr_record_of_loc m l) = true -> l <> loc_Exact.
Proof.
  destruct l as [ | [ | | ]]; unfold inexact; simpl; intros H;
    discriminate.
Qed.

Lemma shr_1_spec (mrs : shr_record) :
  0 <= shr_m mrs ->
  shr_m (shr_1 mrs) = shr_m mrs / 2 /\
  (inexact (shr_1 mrs) = true ->
   inexact mrs = true \/ 2 * (shr_m mrs / 2) < shr_m mrs).
Proof.
  destruct mrs as [m r s]. unfold inexact. cbn [shr_m shr_r shr_s].
  intros Hm.
  destruct m as [ | [p | p | ] | p]; try lia; cbn [shr_1 shr_m shr_r shr_s].
  - split; [ reflexivity | ]. simpl. intros H; left; exact H.
  - assert (E : Zpos p~1 / 2 = Zpos p)
      by (symmetry; apply (Z.div_unique_pos _ 2 _ 1); lia).
    rewrite E. split; [ reflexivity | intros _; right; lia ].
  - assert (E : Zpos p~0 / 2 = Zpos p)
      by (symmetry; apply (Z.div_unique_pos _ 2 _ 0); lia).
    rewrite E. split; [ reflexivity | ].
    simpl. intros H; left; exact H.
  - split; [ reflexivity | intros _; right; reflexivity ].
Qed.

Lemma iter_pos_nat {A : Type} (f : A -> A) (p : positive) : forall x,
  iter_pos f p x = Nat.iter (Pos.to_nat p) f x.
Proof.
  induction p as [p IH | p IH | ]; intros x; cbn [iter_pos].
  - rewrite !IH, Pos2Nat.inj_xI, Nat.iter_succ_r.
    replace (2 * Pos.to_nat p)%nat with (Pos.to_nat p + Pos.to_nat p)%nat by lia.
    rewrite Nat.iter_add. reflexivity.
  - rewrite !IH, Pos2Nat.inj_xO.
    replace (2 * Pos.to_nat p)%nat with (Pos.to_nat p + Pos.to_nat p)%nat by lia.
    rewrite Nat.iter_add. reflexivity.
  - reflexivity.
Qed.

Lemma shr_iter_spec (n : nat) (mrs : shr_record) :
  0 <= shr_m mrs ->
  let r := Nat.iter n shr_1 mrs in
  shr_m r = shr_m mrs / 2 ^ Z.of_nat n /\
  (inexact r = true ->
   inexact mrs = true \/ (shr_m mrs / 2 ^ Z.of_nat n) * 2 ^ Z.of_nat n < shr_m mrs).
Proof.
  intros Hm. induction n as [ | n IH]; cbn zeta.
  - simpl. rewrite Z.div_1_r. split; [ reflexivity | intros H; left; exact H ].
  - cbn zeta in IH. destruct IH as [IHm IHi].
    cbn [Nat.iter nat_rect].
    set (r := Nat.iter n shr_1 mrs) in *.
    assert (Hp : 0 < 2 ^ Z.of_nat n) by (apply Z.pow_pos_nonneg; lia).
    assert (Hr : 0 <= shr_m r) by (rewrite IHm; apply Z.div_pos; lia).
    destruct (shr_1_spec r Hr) as [Sm Si].
    assert (E : 2 ^ Z.of_nat (S n) = 2 ^ Z.of_nat n * 2)
      by (rewrite Nat2Z.inj_succ, Z.pow_succ_r by lia; ring).
    rewrite E.
    assert (Ed : shr_m mrs / (2 ^ Z.of_nat n * 2) = shr_m r / 2)
      by (rewrite <- Z.div_div by lia; rewrite IHm; reflexivity).
    rewrite Ed. split; [ exact Sm | ].
    intros H. destruct (Si H) as [K | K].
    + destruct (IHi K) as [K' | K']; [ left; exact K' | right ].
      pose proof (Z.mul_div_le (shr_m r) 2). nia.
    + right. pose proof (Z.mul_div_le (shr_m mrs) (2 ^ Z.of_nat n) Hp).
      rewrite <- IHm in H0. nia.
Qed.

(** [shr_fexp] either leaves mantissa, exponent and location as they are, or
    floors the mantissa at the exponent the format gives to the number. *)
Lemma shr_fexp_spec (m e : Z) (l : location) :
  0 <= m ->
  let '(mrs, e') := shr_fexp prec emax m e l in
  0 <= shr_m mrs /\
  (F (shr_m mrs) e' <= F m e)%Q /\
  ((e' = e /\ mrs = shr_record_of_loc m l /\ fexp64 (Zdigits2 m + e) <= e) \/
   (e' = fexp64 (Zdigits2 m + e) /\ e < e' /\
    (inexact mrs = true -> l <> loc_Exact \/ (F (shr_m mrs) e' < F m e)%Q))).
Proof.
  intros Hm. unfold shr_fexp, shr. fold (fexp64 (Zdigits2 m + e)).
  assert (Hrec : shr_m (shr_record_of_loc m l) = m)
    by (destruct l as [ | [ | | ]]; reflexivity).
  destruct (fexp64 (Zdigits2 m + e) - e) as [ | n | n] eqn:En.
  - rewrite Hrec. split; [ exact Hm | ]. split; [ apply Qle_refl | ].
    left. repeat split. lia.
  - rewrite iter_pos_nat.
    assert (Hm' : 0 <= shr_m (shr_record_of_loc m l)) by (rewrite Hrec; exact Hm).
    destruct (shr_iter_spec (Pos.to_nat n) _ Hm') as [Sm Si].
    rewrite positive_nat_Z, Hrec in Sm, Si.
    set (r := Nat.iter (Pos.to_nat n) shr_1 (shr_record_of_loc m l)) in *.
    assert (Hp : 0 < 2 ^ Zpos n) by (apply Z.pow_pos_nonneg; lia).
    rewrite Sm. split; [ apply Z.div_pos; lia | ].
    split; [ apply F_floor; lia | ].
    right. split; [ lia | ]. split; [ lia | ].
    intros H. destruct (Si H) as [K | K].
    + left. apply inexact_of_loc with (m := m). exact K.
    + right. rewrite <- F_shift by lia. apply F_lt. exact K.
  - rewrite Hrec. split; [ exact Hm | ]. split; [ apply Qle_refl | ].
    left. repeat split. lia.
Qed.

(** ** Rounding below a representable bound *)

Lemma round_nearest_even_cases (m : Z) (l : location) :
  round_nearest_even m l = m \/
  (l <> loc_Exact /\ round_nearest_even m l = m + 1).
Proof.
  destruct l as [ | [ | | ]]; simpl; auto.
  - destruct (Z.even m); [ left; reflexivity | right; split; [ discriminate | reflexivity ] ].
  - right; split; [ discriminate | reflexivity ].
Qed.

Section Bound.

(** The bound [Mu * 2^eu] is a binary64 number below [2^972]. *)
Variables Mu eu : Z.
Hypothesis Mu_pos : 0 < Mu.
Hypothesis Mu_canonical : fexp64 (Zdigits2 Mu + eu) = eu.
Hypothesis Mu_small : Zdigits2 Mu + eu <= emax - prec + 1.

(** Below the bound, the exponent the format gives is at most [eu]. *)
Lemma exponent_below (m e : Z) :
  0 < m -> (F m e <= F Mu eu)%Q -> fexp64 (Zdigits2 m + e) <= eu.
Proof.
  intros Hm Hle. rewrite <- Mu_canonical. apply fexp64_mono.
  assert (H : (bpow (Zdigits2 m - 1 + e) < bpow (Zdigits2 Mu + eu))%Q).
  { eapply Qle_lt_trans; [ apply F_lower, Hm | ].
    eapply Qle_lt_trans; [ exact Hle | apply F_upper, Mu_pos ]. }
  apply bpow_lt_inv in H. lia.
Qed.

(** At an exponent not above [eu], the bound is a whole number of units, so
    what is strictly below it stays at or below it when one unit is added. *)
Lemma next_below (m e : Z) :
  e <= eu -> (F m e < F Mu eu)%Q -> (F (m + 1) e <= F Mu eu)%Q.
Proof.
  intros He Hlt. rewrite (F_align Mu e eu He) in *.
  apply F_lt in Hlt. apply F_le. lia.
Qed.

Lemma binary_round_aux_bound (mx ex : Z) (lx : location) :
  0 <= mx ->
  (F mx ex <= F Mu eu)%Q ->
  (lx <> loc_Exact ->
   (F mx ex < F Mu eu)%Q /\ ex <= fexp64 (Zdigits2 mx + ex)) ->
  at_most (F Mu eu) (binary_round_aux prec emax false mx ex lx).
Proof.
  intros Hmx Hle Hinexact. unfold binary_round_aux.
  pose proof (shr_fexp_spec mx ex lx Hmx) as H1.
  destruct (shr_fexp prec emax mx ex lx) as [mrs' e'].
  destruct H1 as (Hm1 & Hv1 & Hcase).
  set (m1 := shr_m mrs') in *.
  set (m2 := round_nearest_even m1 (loc_of_shr_record mrs')).
  assert (Hm2 : 0 <= m2 /\ (F m2 e' <= F Mu eu)%Q).
  { destruct (inexact mrs') eqn:Ei.
    - (* the location is inexact: one unit may be added *)
      assert (Hlt : (F m1 e' < F Mu eu)%Q /\ e' <= eu).
      { destruct Hcase as [(-> & -> & Hf) | (He' & Hlt & Hi)].
        - apply inexact_of_loc in Ei. destruct (Hinexact Ei) as [Hs Hp].
          assert (Em : m1 = mx) by (unfold m1; destruct lx as [ | [ | | ]]; reflexivity).
          rewrite Em. split; [ exact Hs | ].
          assert (Ee : ex = fexp64 (Zdigits2 mx + ex)) by lia.
          destruct (Z.eq_dec mx 0) as [-> | Hnz].
          + rewrite Ee, <- Mu_canonical. simpl Zdigits2. rewrite !fexp64_eq.
            rewrite fexp64_eq in Hp. simpl Zdigits2 in Hp. lia.
          + rewrite Ee. apply exponent_below; [ lia | exact Hle ].
        - assert (Hs : (F m1 e' < F Mu eu)%Q).
          { destruct (Hi eq_refl) as [Hl | Hl].
            - eapply Qle_lt_trans; [ exact Hv1 | apply (Hinexact Hl) ].
            - eapply Qlt_le_trans; [ exact Hl | exact Hle ]. }
          split; [ exact Hs | ].
          destruct (Z.eq_dec mx 0) as [-> | Hnz].
          + destruct (Hi eq_refl) as [Hl | Hl].
            * destruct (Hinexact Hl) as [_ Hp]. simpl Zdigits2 in *.
              rewrite He', <- Mu_canonical, !fexp64_eq.
              rewrite fexp64_eq in Hp. lia.
            * exfalso. apply (Qlt_not_le _ _ Hl).
              assert (E0 : (F 0 ex == 0)%Q) by (unfold F; ring).
              rewrite E0. apply F_nonneg, Hm1.
          + rewrite He'. apply exponent_below; [ lia | exact Hle ]. }
      destruct Hlt as [Hlt He].
      destruct (round_nearest_even_cases m1 (loc_of_shr_record mrs')) as [E | [_ E]];
        unfold m2; rewrite E.
      + split; [ exact Hm1 | apply Qlt_le_weak, Hlt ].
      + split; [ lia | apply next_below; assumption ].
    - (* the location is exact: the mantissa is kept *)
      unfold m2. rewrite (loc_of_shr_record_exact _ Ei). cbn [round_nearest_even].
      split; [ exact Hm1 | ].
      eapply Qle_trans; [ exact Hv1 | exact Hle ]. }
  destruct Hm2 as [Hm2 Hv2].
  pose proof (shr_fexp_spec m2 e' loc_Exact Hm2) as H2.
  destruct (shr_fexp prec emax m2 e' loc_Exact) as [mrs'' e''].
  destruct H2 as (Hm3 & Hv3 & _).
  assert (Hv : (F (shr_m mrs'') e'' <= F Mu eu)%Q)
    by (eapply Qle_trans; [ exact Hv3 | exact Hv2 ]).
  destruct (shr_m mrs'') as [ | m | m]; [ exact I | | lia ].
  assert (He : e'' <= emax - prec).
  { assert (H : (bpow e'' < bpow (Zdigits2 Mu + eu))%Q).
    { eapply Qle_lt_trans; [ | apply F_upper, Mu_pos ].
      eapply Qle_trans; [ | exact Hv ].
      rewrite <- F_one. apply F_le. lia. }
    apply bpow_lt_inv in H. lia. }
  apply Z.leb_le in He. rewrite He. exact Hv.
Qed.

End Bound.

(** ** The quotient of two integers *)

Lemma new_location_exact (nb_steps k : Z) :
  new_location nb_steps k <> loc_Exact -> k <> 0.
Proof.
  unfold new_location, new_location_even, new_location_odd.
  intros H ->. destruct (Z.even nb_steps); simpl in H; congruence.
Qed.

Lemma Zdigits2_div (a b : Z) :
  0 < a -> 0 < b -> Zdigits2 a - Zdigits2 b <= Zdigits2 (a / b).
Proof.
  intros Ha Hb.
  destruct (Z.le_gt_cases (Zdigits2 a - Zdigits2 b) 0) as [Hk | Hk].
  - pose proof (Zdigits2_nonneg (a / b)). lia.
  - destruct (Zdigits2_bounds a Ha) as [Hla _].
    destruct (Zdigits2_bounds b Hb) as [_ Hub].
    pose proof (Zdigits2_nonneg b) as Hdb.
    assert (Hq : 2 ^ (Zdigits2 a - Zdigits2 b - 1) <= a / b).
    { apply Z.div_le_lower_bound; [ exact Hb | ].
      assert (E : 2 ^ (Zdigits2 a - 1)
                  = 2 ^ Zdigits2 b * 2 ^ (Zdigits2 a - Zdigits2 b - 1)).
      { rewrite <- Z.pow_add_r by lia. f_equal. lia. }
      assert (0 < 2 ^ (Zdigits2 a - Zdigits2 b - 1))
        by (apply Z.pow_pos_nonneg; lia).
      nia. }
    apply Zdigits2_ge in Hq; lia.
Qed.

Lemma SFdiv_core_binary_spec (a b : positive) :
  let '(q, e', l) := SFdiv_core_binary prec emax (Zpos a) 0 (Zpos b) 0 in
  e' <= 0 /\ 0 <= q /\
  q * Zpos b <= Zpos a * 2 ^ (- e') /\
  (l <> loc_Exact ->
   q * Zpos b < Zpos a * 2 ^ (- e') /\ e' <= fexp64 (Zdigits2 q + e')).
Proof.
  unfold SFdiv_core_binary.
  set (d1 := Zdigits2 (Zpos a)). set (d2 := Zdigits2 (Zpos b)).
  rewrite !Z.add_0_r, Z.sub_0_r. fold (fexp64 (d1 - d2)).
  set (e' := Z.min (fexp64 (d1 - d2)) 0).
  assert (He : e' <= 0) by (unfold e'; lia).
  replace (0 - e') with (- e') by ring.
  set (m' := match - e' with
             | Zpos _ => Z.shiftl (Zpos a) (- e')
             | 0 => Zpos a
             | Zneg _ => 0
             end).
  assert (Em : m' = Zpos a * 2 ^ (- e')).
  { unfold m'. destruct (- e') as [ | s | s] eqn:Es; try lia.
    rewrite Z.shiftl_mul_pow2 by lia. reflexivity. }
  clearbody m'.
  pose proof (Z_div_mod m' (Zpos b) eq_refl) as Hdiv.
  destruct (Z.div_eucl m' (Zpos b)) as [q r] eqn:Eq.
  destruct Hdiv as [Hm' Hr].
  assert (Hp : 0 < 2 ^ (- e')) by (apply Z.pow_pos_nonneg; lia).
  assert (Hq : q = m' / Zpos b).
  { apply (Z.div_unique_pos m' (Zpos b) q r); [ lia | exact Hm' ]. }
  assert (Hq0 : 0 <= q) by (rewrite Hq; apply Z.div_pos; lia).
  split; [ exact He | ]. split; [ exact Hq0 | ].
  split; [ nia | ].
  intros Hl. apply new_location_exact in Hl.
  split; [ nia | ].
  assert (Hd : d1 - e' - d2 <= Zdigits2 q).
  { rewrite Hq. 
    assert (E : Zdigits2 m' = d1 - e').
    { rewrite Em. unfold d1. rewrite Zdigits2_shift by lia. ring. }
    rewrite <- E. apply Zdigits2_div; lia. }
  apply Z.le_trans with (fexp64 (d1 - d2)); [ unfold e'; lia | ].
  apply fexp64_mono. lia.
Qed.

Section Quotient.

Variables Mu eu : Z.
Hypothesis Mu_pos : 0 < Mu.
Hypothesis Mu_canonical : fexp64 (Zdigits2 Mu + eu) = eu.
Hypothesis Mu_small : Zdigits2 Mu + eu <= emax - prec + 1.

Lemma quotient_le (q a b e' : Z) :
  0 < b -> e' <= 0 -> q * b <= a * 2 ^ (- e') ->
  (inject_Z a <= F Mu eu * inject_Z b)%Q -> (F q e' <= F Mu eu)%Q.
Proof.
  intros Hb He Hq Ha.
  assert (Hb' : (0 < inject_Z b)%Q) by (rewrite Zlt_Qlt in Hb; exact Hb).
  apply (Qmult_le_r _ _ (inject_Z b) Hb').
  eapply Qle_trans; [ | exact Ha ].
  assert (E1 : (F q e' * inject_Z b == F (q * b) e')%Q)
    by (unfold F; rewrite inject_Z_mult; ring).
  assert (E2 : (inject_Z a == F (a * 2 ^ (- e')) e')%Q).
  { rewrite F_shift by lia. replace (e' + - e') with 0 by ring.
    unfold F, bpow. simpl. ring. }
  rewrite E1, E2. apply F_le. exact Hq.
Qed.

Lemma quotient_lt (q a b e' : Z) :
  0 < b -> e' <= 0 -> q * b < a * 2 ^ (- e') ->
  (inject_Z a <= F Mu eu * inject_Z b)%Q -> (F q e' < F Mu eu)%Q.
Proof.
  intros Hb He Hq Ha.
  assert (Hb' : (0 < inject_Z b)%Q) by (rewrite Zlt_Qlt in Hb; exact Hb).
  apply (Qmult_lt_r _ _ (inject_Z b) Hb').
  eapply Qlt_le_trans; [ | exact Ha ].
  assert (E1 : (F q e' * inject_Z b == F (q * b) e')%Q)
    by (unfold F; rewrite inject_Z_mult; ring).
  assert (E2 : (inject_Z a == F (a * 2 ^ (- e')) e')%Q).
  { rewrite F_shift by lia. replace (e' + - e') with 0 by ring.
    unfold F, bpow. simpl. ring. }
  rewrite E1, E2. apply F_lt. exact Hq.
Qed.

(** The correctly rounded quotient of [a] by [b] stays at or below a
    representable [F Mu eu] when [a / b] does. *)
Lemma SFdiv_bound (a b : positive) :
  (inject_Z (Zpos a) <= F Mu eu * inject_Z (Zpos b))%Q ->
  at_most (F Mu eu) (SFdiv prec emax (S754_finite false a 0) (S754_finite false b 0)).
Proof.
  intros Hab. cbn [SFdiv xorb].
  pose proof (SFdiv_core_binary_spec a b) as H.
  destruct (SFdiv_core_binary prec emax (Zpos a) 0 (Zpos b) 0) as [[q e'] l].
  destruct H as (He & Hq & Hle & Hl).
  apply (binary_round_aux_bound Mu eu Mu_pos Mu_canonical Mu_small);
    [ exact Hq | | ].
  - apply (quotient_le q (Zpos a) (Zpos b)); try assumption; reflexivity.
  - intros Hne. destruct (Hl Hne) as [Hlt Hp]. split; [ | exact Hp ].
    apply (quotient_lt q (Zpos a) (Zpos b)); try assumption; reflexivity.
Qed.

End Quotient.

(** ** The success rate *)

Lemma float_of_int_100 : float_of_int 100 = Ret float_100.
Proof. reflexivity. Qed.

Lemma F_one_exact : (F 4503599627370496 (-52) == 1)%Q.
Proof. reflexivity. Qed.

Lemma F_100_exact : (F 7036874417766400 (-46) == 100)%Q.
Proof. reflexivity. Qed.

(** 1 and 100 are binary64 numbers. *)
Lemma representable_1 :
  0 < 4503599627370496 /\
  fexp64 (Zdigits2 4503599627370496 + -52) = -52 /\
  Zdigits2 4503599627370496 + -52 <= emax - prec + 1.
Proof. repeat split. discriminate. Qed.

Lemma representable_100 :
  0 < 7036874417766400 /\
  fexp64 (Zdigits2 7036874417766400 + -46) = -46 /\
  Zdigits2 7036874417766400 + -46 <= emax - prec + 1.
Proof. repeat split. discriminate. Qed.

(** The correctly rounded [a / b] of two integers with [0 <= a <= u * b],
    for the representable [u = Mu * 2^eu], is a finite float, zero or
    positive, of value at most [u]. *)
Lemma int_truediv_bound (Mu eu a b : Z) :
  0 < Mu -> fexp64 (Zdigits2 Mu + eu) = eu ->
  Zdigits2 Mu + eu <= emax - prec + 1 ->
  0 <= a -> 0 < b -> (inject_Z a <= F Mu eu * inject_Z b)%Q ->
  exists f, int_truediv a b = Ret f /\ at_most (F Mu eu) f.
Proof.
  intros H1 H2 H3 Ha Hb Hab.
  destruct b as [ | q | q]; try lia.
  destruct a as [ | p | p]; try lia.
  - exists (S754_zero false). split; [ reflexivity | exact I ].
  - pose proof (SFdiv_bound Mu eu H1 H2 H3 p q Hab) as Hf.
    cbn [int_truediv].
    destruct (SFdiv prec emax (S754_finite false p 0) (S754_finite false q 0))
      as [[ | ] | [ | ] | | [ | ] m e]; try contradiction;
      eexists; (split; [ reflexivity | exact Hf ]).
Qed.

(** A product by the float 100 of a float of value at most 1. *)
Lemma SFmul_100_bound (f : spec_float) :
  at_most 1 f -> at_most 100 (SFmul prec emax f float_100).
Proof.
  destruct f as [[ | ] | [ | ] | | [ | ] m e]; try contradiction.
  - intros _. exact I.
  - intros H. cbn [SFmul float_100 xorb]. cbn [at_most] in H.
    assert (E : forall u, (u == F 7036874417766400 (-46))%Q ->
              at_most (F 7036874417766400 (-46))
                (binary_round_aux prec emax false
                   (Zpos (m * 7036874417766400)) (e + -46) loc_Exact) ->
              at_most u
                (binary_round_aux prec emax false
                   (Zpos (m * 7036874417766400)) (e + -46) loc_Exact)).
    { intros u Hu K.
      destruct (binary_round_aux _ _ _ _ _ _) as [[ | ] | [ | ] | | [ | ] m' e'];
        try contradiction; try exact I.
      cbn [at_most] in *. rewrite Hu. exact K. }
    apply E; [ rewrite F_100_exact; reflexivity | ].
    destruct representable_100 as (R1 & R2 & R3).
    apply (binary_round_aux_bound _ _ R1 R2 R3); [ lia | | ].
    + rewrite Pos2Z.inj_mul.
      assert (E2 : (F (Zpos m * 7036874417766400) (e + -46)
                    == F (Zpos m) e * F 7036874417766400 (-46))%Q).
      { unfold F. rewrite inject_Z_mult, bpow_add. ring. }
      rewrite E2.
      rewrite <- (Qmult_1_l (F 7036874417766400 (-46))) at 2.
      apply Qmult_le_compat_r; [ exact H | rewrite F_100_exact; discriminate ].
    + intros K. congruence.
Qed.

Lemma round_half_even_bound (n d B : Z) :
  0 < d -> 0 <= n -> n <= B * d -> 0 <= round_half_even n d <= B.
Proof.
  intros Hd Hn HB. unfold round_half_even.
  pose proof (Z_div_mod_eq_full n d) as E.
  pose proof (Z.mod_pos_bound n d Hd) as Hr.
  assert (Hq : 0 <= n / d) by (apply Z.div_pos; lia).
  assert (HqB : n / d <= B) by (apply Z.div_le_upper_bound; lia).
  destruct (Z.compare_spec (2 * (n mod d)) d) as [Hc | Hc | Hc].
  - destruct (Z.even (n / d)); [ lia | ].
    assert (n / d <> B) by nia. lia.
  - lia.
  - assert (n / d <> B) by nia. lia.
Qed.

Lemma scaled_decimal_bound (m : positive) (e : Z) :
  (F (Zpos m) e <= 100)%Q -> 0 <= scaled_decimal 2 m e <= 10000.
Proof.
  intros H. unfold scaled_decimal.
  rewrite <- F_100_exact in H.
  assert (E100 : (F 7036874417766400 (-46) == F 100 0)%Q) by reflexivity.
  rewrite E100 in H. clear E100.
  destruct (Z.leb_spec 0 e) as [He | He].
  - assert (E : (F (Zpos m) e == F (Zpos m * 2 ^ e) 0)%Q)
      by (rewrite F_shift by lia; reflexivity).
    rewrite E in H. apply F_le in H.
    change (10 ^ 2) with 100. 
    assert (0 < 2 ^ e) by (apply Z.pow_pos_nonneg; lia). nia.
  - rewrite (F_align 100 e 0) in H by lia. apply F_le in H.
    rewrite Z.sub_0_l in H.
    assert (0 < 2 ^ (- e)) by (apply Z.pow_pos_nonneg; lia).
    change (10 ^ 2) with 100.
    apply round_half_even_bound; lia.
Qed.

(** Rounding to two decimals keeps a float within [0, 100]. *)
Lemma float_round_2_bound (f : spec_float) :
  at_most 100 f ->
  exists r, float_round 2 f = Ret r /\ at_most 100 r.
Proof.
  destruct f as [[ | ] | [ | ] | | [ | ] m e]; try contradiction.
  - intros _. eexists. split; [ reflexivity | exact I ].
  - intros H. cbn [at_most] in H. cbn [float_round].
    pose proof (scaled_decimal_bound m e H) as Hk.
    destruct (Z.eqb_spec (scaled_decimal 2 m e) 0) as [E0 | E0].
    + eexists. split; [ reflexivity | exact I ].
    + change (10 ^ 2) with 100.
      destruct representable_100 as (R1 & R2 & R3).
      destruct (int_truediv_bound 7036874417766400 (-46)
                  (scaled_decimal 2 m e) 100 R1 R2 R3) as (r & Hr & Hb);
        try lia.
      * rewrite F_100_exact.
        change (100 * inject_Z 100)%Q with (inject_Z 10000).
        rewrite <- Zle_Qle. lia.
      * exists r. split; [ exact Hr | ].
        destruct r as [[ | ] | [ | ] | | [ | ] m' e']; try contradiction;
          try exact I.
        cbn [at_most] in *. rewrite <- F_100_exact. exact Hb.
Qed.

Lemma at_most_100_range (f : spec_float) :
  at_most 100 f -> in_percent_range (NFloat f).
Proof.
  unfold in_percent_range.
  destruct f as [[ | ] | [ | ] | | [ | ] m e]; try contradiction; simpl.
  - intros _. split; [ reflexivity | split; discriminate ].
  - intros H. split; [ reflexivity | ].
    assert (E : (1 * inject_Z (Zpos m) * Qpower 2 e == F (Zpos m) e)%Q)
      by (unfold F, bpow; ring).
    rewrite E. split; [ apply F_nonneg; lia | exact H ].
Qed.

(** The success rate of [successful] models out of [total]: the computation
    does not raise, and its rounded result lies in [0, 100]. *)
Lemma success_rate_range (successful total : Z) :
  0 <= successful <= total ->
  exists rate rounded,
    compute_success_rate successful total = Ret rate /\
    py_round rate 2 = Ret rounded /\
    in_percent_range rounded.
Proof.
  intros Hst. unfold compute_success_rate.
  destruct (Z.ltb_spec 0 total) as [Ht | Ht].
  - destruct representable_1 as (R1 & R2 & R3).
    destruct (int_truediv_bound 4503599627370496 (-52) successful total
                R1 R2 R3) as (q & Hq & Hb); try lia.
    { rewrite F_one_exact, Qmult_1_l, <- Zle_Qle. lia. }
    assert (Hb1 : at_most 1 q).
    { destruct q as [[ | ] | [ | ] | | [ | ] m e]; try contradiction;
        try exact I.
      cbn [at_most] in *. rewrite <- F_one_exact. exact Hb. }
    pose proof (SFmul_100_bound q Hb1) as Hp.
    destruct (float_round_2_bound _ Hp) as (r & Hr & Hr100).
    exists (NFloat (SFmul prec emax q float_100)), (NFloat r).
    cbn [num_truediv bind]. rewrite Hq. cbn [bind num_mul to_float].
    rewrite float_of_int_100. cbn [bind py_round]. rewrite Hr.
    split; [ reflexivity | ]. split; [ reflexivity | ].
    apply at_most_100_range, Hr100.
  - exists (NInt 0), (NInt 0). split; [ reflexivity | ]. split; [ reflexivity | ].
    split; [ reflexivity | split; discriminate ].
Qed.

Lemma compute_success_rate_no_zero_division (successful total : Z) :
  compute_success_rate successful total <> Raise ZeroDivisionError.
Proof.
  unfold compute_success_rate.
  destruct (Z.ltb_spec 0 total) as [Ht | Ht]; [ | discriminate ].
  destruct total as [ | t | t]; try lia.
  cbn [num_truediv].
  assert (H : forall f : spec_float,
            (if is_infinity f then Raise OverflowError else Ret f)
            <> @Raise spec_float ZeroDivisionError)
    by (intros f; destruct (is_infinity f); discriminate).
  destruct successful as [ | p | p]; cbn [int_truediv bind].
  - discriminate.
  - specialize (H (SFdiv prec emax (S754_finite false p 0) (S754_finite false t 0))).
    destruct (is_infinity _); [ discriminate | ].
    cbn [bind num_mul to_float]. rewrite float_of_int_100. discriminate.
  - specialize (H (SFdiv prec emax (S754_finite true p 0) (S754_finite false t 0))).
    destruct (is_infinity _); [ discriminate | ].
    cbn [bind num_mul to_float]. rewrite float_of_int_100. discriminate.
Qed.

Lemma counts_ordered (items : list json) (t : tally) :
  tally_loop tally0 items = Ret t ->
  0 <= n_successful t <= n_total t.
Proof.
  intros H.
  pose proof (tally_loop_invariant _ _ _ H eq_refl) as Hinv.
  apply tally_loop_Ret in H. destruct H as (_ & H2 & H3 & _).
  unfold count in H2, H3. simpl in H2, H3. lia.
Qed.

(** C5. In every summary [count_models] returns, [success_rate] is
    [successful_models / total_models * 100] rounded to 2 decimals when
    [total_models > 0] and is 0 when [total_models = 0]; it is a finite number
    in [0, 100].  Computing it never divides by zero, and on counts
    [0 <= successful <= total] it raises nothing at all. *)
Theorem success_rate_is_a_rounded_percentage :
  (forall (w : world) (path : string) (out : list event) (s : summary),
     count_models w path = (out, Done (Some s)) ->
     0 <= successful_models s <= total_models s /\
     (0 < total_models s ->
      exists quotient percentage,
        num_truediv (NInt (successful_models s)) (NInt (total_models s))
          = Ret quotient /\
        num_mul quotient (NInt 100) = Ret percentage /\
        py_round percentage 2 = Ret (success_rate s)) /\
     (total_models s = 0 -> success_rate s = NInt 0) /\
     num_is_finite (success_rate s) = true /\
     (0 <= num_value (success_rate s) <= 100)%Q) /\
  (forall successful total,
     compute_success_rate successful total <> Raise ZeroDivisionError) /\
  (forall successful total,
     0 <= successful <= total ->
     exists rate rounded,
       compute_success_rate successful total = Ret rate /\
       py_round rate 2 = Ret rounded /\
       num_is_finite rounded = true /\
       (0 <= num_value rounded <= 100)%Q).
Proof.
  split; [ | split; [ exact compute_success_rate_no_zero_division | ] ].
  - intros w path out s H.
    apply count_models_Some in H. destruct H as (data & _ & H).
    apply summarize_Ret in H.
    destruct H as (metadata & items & t & _ & _ & Hl & Hb).
    pose proof (counts_ordered _ _ Hl) as Hc.
    apply build_summary_Ret in Hb.
    destruct Hb as (rate & avg & time & g & Hb).
    destruct Hb as (Hrate & _ & _ & _ & _ & Hround & _ & _ & _ & _ & E1 & E2 & _).
    rewrite E1, E2.
    destruct (success_rate_range _ _ Hc) as (rate' & rounded & Hr1 & Hr2 & Hrange).
    rewrite Hrate in Hr1. injection Hr1 as <-.
    rewrite Hround in Hr2. injection Hr2 as <-.
    split; [ exact Hc | ]. split; [ | split; [ | exact Hrange ] ].
    + intros Ht. unfold compute_success_rate in Hrate.
      apply Z.ltb_lt in Ht. rewrite Ht in Hrate.
      invert_bind Hrate. exists v, rate. repeat split; assumption.
    + intros Ht. unfold compute_success_rate in Hrate. rewrite Ht in Hrate.
      simpl in Hrate. injection Hrate as <-. simpl in Hround.
      injection Hround as <-. reflexivity.
  - intros successful total H.
    destruct (success_rate_range _ _ H) as (rate & rounded & H1 & H2 & H3 & H4).
    exists rate, rounded. repeat split; assumption || apply H4.
Qed.

Lemma success_rate_is_a_rounded_percentage_witness :
  count_models sample_world "logs/run_results.json" = ([], Done (Some sample_summary))
  /\ 0 <= successful_models sample_summary <= total_models sample_summary
  /\ num_is_finite (success_rate sample_summary) = true
  /\ (0 <= num_value (success_rate sample_summary) <= 100)%Q.
Proof.
  split; [ vm_compute; reflexivity | ].
  pose proof (proj1 success_rate_is_a_rounded_percentage
                sample_world "logs/run_results.json" [] sample_summary) as H.
  destruct H as (H1 & _ & _ & H4 & H5); [ vm_compute; reflexivity | ].
  split; [ exact H1 | ]. split; [ exact H4 | exact H5 ].
Defined.

(** The success rate of the sample report: 2 models out of 3 give 66.67. *)
Example success_rate_two_thirds :
  (x <- compute_success_rate 2 3 ;; py_round x 2) = Ret (success_rate sample_summary) /\
  int_truediv 6667 100 = Ret (S754_finite false 4691484174324859 (-46)).
Proof. split; reflexivity. Qed.

(** * Further properties

    What follows is read off the code alone: the behaviour of each function at
    the edges of its input, what it keeps invariant, and how the functions
    compose. *)

(** ** Discovery *)

Lemma sorted_nil (l : list string) : sorted l = [] -> l = [].
Proof.
  intros H. pose proof (sorted_perm l) as P. rewrite H in P.
  apply Permutation_nil in P. exact P.
Qed.

(** X1.  [find_run_results_files] prints exactly one line when it returns no
    file (the warning for a file that is not [.json], the note for a
    directory without match, the error for a path that is neither) and prints
    nothing when it returns at least one file. *)
Theorem discovery_reports_iff_nothing_found :
  forall (w : world) (path : string) (out : list event) (files : list string),
    find_run_results_files w path = (out, Done files) ->
    (files = [] -> exists line, out = [Print line]) /\
    (files <> [] -> out = []).
Proof.
  intros w path out files. unfold find_run_results_files.
  destruct (kind w path).
  - destruct (py_endswith path ".json"); simpl; intros H; inversion H; subst;
      split; intros K; try discriminate; try congruence; eauto.
  - set (l := list_of_set _). destruct l as [ | x l'] eqn:E; simpl; intros H;
      inversion H; subst; split; intros K; eauto; try congruence.
    exfalso. change (sorted (x :: l') = []) in K. apply sorted_nil in K. discriminate.
  - simpl. intros H; inversion H; subst. split; intros K; eauto; congruence.
Qed.

Lemma discovery_reports_iff_nothing_found_witness :
  find_run_results_files sample_world "logs" = ([], Done sample_files) /\
  find_run_results_files sample_world "missing"
    = ([Print "Error: missing is not a valid file or directory"], Done []) /\
  (exists line,
     [Print "Error: missing is not a valid file or directory"] = [Print line]).
Proof.
  split; [ vm_compute; reflexivity | ]. split; [ reflexivity | ].
  apply (discovery_reports_iff_nothing_found sample_world "missing" _ []);
    reflexivity.
Defined.

(** X2.  A path that names a regular file without the suffix [".json"], or
    that names neither a file nor a directory, is refused whatever the file
    system holds: [main] prints the diagnostic of the discovery and the line
    ["No run_results.json files found."], reads nothing, and exits with
    status 1. *)
Theorem refused_path_exits_with_two_lines :
  forall (w : world) (args : arguments),
    (kind w (arg_path args) = RegularFile ->
     py_endswith (arg_path args) ".json" = false ->
     main w args =
       ([Print ("Warning: " ++ arg_path args ++ " is not a JSON file");
         Print "No run_results.json files found."], Exit 1)) /\
    (kind w (arg_path args) = NoEntry ->
     main w args =
       ([Print ("Error: " ++ arg_path args ++ " is not a valid file or directory");
         Print "No run_results.json files found."], Exit 1)).
Proof.
  intros w args. unfold main, find_run_results_files. split.
  - intros -> ->. reflexivity.
  - intros ->. reflexivity.
Qed.

Lemma refused_path_exits_with_two_lines_witness :
  kind sample_world "missing" = NoEntry /\
  main sample_world (plain_arguments "missing") =
    ([Print "Error: missing is not a valid file or directory";
      Print "No run_results.json files found."], Exit 1).
Proof.
  split; [ reflexivity | ].
  apply (proj2 (refused_path_exits_with_two_lines sample_world
                  (plain_arguments "missing"))).
  reflexivity.
Defined.

(** ** What [count_models] returns and prints *)

Lemma count_models_fst (w : world) (path : string) :
  fst (count_models w path) =
  match load w path with
  | FileNotFoundError => [Print ("Error: File " ++ path ++ " not found.")]
  | JSONDecodeError diagnostic =>
      [Print ("Error: Invalid JSON in " ++ path ++ ": " ++ diagnostic)]
  | _ => []
  end.
Proof.
  unfold count_models.
  destruct (load w path) as [data | | diagnostic | e]; try reflexivity.
  destruct (summarize path data); reflexivity.
Qed.

(** X3.  [count_models] returns [None] exactly when the file is missing or
    its content is not JSON, and it prints a line exactly in these two cases:
    when it returns a summary, or when an exception escapes, it has printed
    nothing. *)
Theorem count_models_None_iff_handled_error :
  forall (w : world) (path : string),
    (snd (count_models w path) = Done None <->
     load w path = FileNotFoundError \/
     exists diagnostic, load w path = JSONDecodeError diagnostic) /\
    (snd (count_models w path) <> Done None <-> fst (count_models w path) = []).
Proof.
  intros w path. rewrite count_models_snd, count_models_fst.
  destruct (load w path) as [data | | diagnostic | e].
  - destruct (summarize path data); split; split; intros H;
      try discriminate; try reflexivity;
      try (destruct H as [H | [x H]]; discriminate).
  - split; split; intros H; try discriminate; try reflexivity; auto;
      exfalso; apply H; reflexivity.
  - split; split; intros H; try discriminate; try reflexivity; eauto;
      exfalso; apply H; reflexivity.
  - split; split; intros H; try discriminate; try reflexivity;
      try (destruct H as [H | [x H]]; discriminate).
Qed.

(** ** The flags [--verbose] and [--recursive] *)

Lemma subsequence_refl {A : Type} (l : list A) : subsequence l l.
Proof. induction l; constructor; assumption. Qed.

Lemma subsequence_nil_l {A : Type} (l : list A) : subsequence [] l.
Proof. induction l; constructor; assumption. Qed.

Lemma subsequence_app {A : Type} (a a' : list A) :
  subsequence a a' -> forall b b', subsequence b b' ->
  subsequence (a ++ b) (a' ++ b').
Proof.
  induction 1 as [ | x l l' _ IH | x l l' _ IH]; intros b b' Hb; simpl.
  - exact Hb.
  - apply subsequence_skip, IH, Hb.
  - apply subsequence_keep, IH, Hb.
Qed.

Lemma adds_lines_refl {A : Type} (m : io A) : adds_lines m m.
Proof. split; [ reflexivity | apply subsequence_refl ]. Qed.

Lemma adds_lines_bind {A B : Type} (m m' : io A) (k k' : A -> io B) :
  adds_lines m m' -> (forall a, adds_lines (k a) (k' a)) ->
  adds_lines (io_bind m k) (io_bind m' k').
Proof.
  destruct m as [out r], m' as [out' r']. intros [Hs Hf] Hk.
  simpl in Hs, Hf. subst r'. destruct r as [a | e | st]; simpl.
  - specialize (Hk a). destruct (k a) as [o1 r1], (k' a) as [o2 r2].
    destruct Hk as [K1 K2]. simpl in *. split;
      [ exact K1 | apply subsequence_app; assumption ].
  - split; [ reflexivity | assumption ].
  - split; [ reflexivity | assumption ].
Qed.

Lemma adds_lines_when (m : io unit) :
  snd m = Done tt -> adds_lines (when false m) (when true m).
Proof.
  intros H. split; simpl; [ symmetry; exact H | apply subsequence_nil_l ].
Qed.

Lemma process_files_cons (w : world) (verbose : bool) (path : string)
    (rest : list string) (all_stats : list summary) :
  process_files w verbose (path :: rest) all_stats =
  (when verbose (print ("Processing: " ++ path)) ;;;
   stats <~ count_models w path ;;
   match stats with
   | Some s => process_files w verbose rest (all_stats ++ [s])%list
   | None =>
       when verbose (print ("  Failed to process " ++ path)) ;;;
       process_files w verbose rest all_stats
   end).
Proof. reflexivity. Qed.

Lemma process_files_adds_lines (w : world) (files : list string) :
  forall all_stats,
    adds_lines (process_files w false files all_stats)
               (process_files w true files all_stats).
Proof.
  induction files as [ | path rest IH]; intros all_stats.
  - apply adds_lines_refl.
  - rewrite !process_files_cons.
    apply adds_lines_bind; [ apply adds_lines_when; reflexivity | intros _ ].
    apply adds_lines_bind; [ apply adds_lines_refl | intros [s | ] ].
    + apply IH.
    + apply adds_lines_bind; [ apply adds_lines_when; reflexivity | intros _ ].
      apply IH.
Qed.

(** X4.  [--verbose] only adds lines: with and without the flag [main] ends
    the same way (same return, same exit status, same uncaught exception), and
    the lines printed without the flag are printed with it, in the same
    order. *)
Theorem verbose_only_adds_lines :
  forall (w : world) (args : arguments),
    let quiet := main w (with_verbose args false) in
    let loud := main w (with_verbose args true) in
    snd quiet = snd loud /\
    exit_status quiet = exit_status loud /\
    subsequence (fst quiet) (fst loud).
Proof.
  intros w args quiet loud.
  assert (adds_lines quiet loud) as [H1 H2].
  { unfold quiet, loud, main. simpl arg_path. simpl arg_verbose. simpl arg_json.
    apply adds_lines_bind; [ apply adds_lines_refl | intros files ].
    destruct files as [ | f rest]; [ apply adds_lines_refl | ].
    apply adds_lines_bind.
    - apply adds_lines_when. rewrite io_bind_snd. cbn [printf emit snd].
      rewrite io_bind_snd, print_each_snd. reflexivity.
    - intros _. apply adds_lines_bind;
        [ apply process_files_adds_lines | intros all_stats ].
      apply adds_lines_refl. }
  unfold exit_status. rewrite H1. auto.
Qed.

(** X5.  [--recursive] is parsed and never read: [main] does the same with
    any value of the flag, and the discovery in a directory always includes
    the matches of the recursive pattern ["**/run_results.json"]. *)
Theorem recursive_flag_is_ignored :
  forall (w : world) (args : arguments) (recursive : bool),
    main w (with_recursive args recursive) = main w args /\
    (kind w (arg_path args) = Directory ->
     forall f,
       In f (glob w (os_path_join (arg_path args) "**/run_results.json") true) ->
       exists out files,
         find_run_results_files w (arg_path args) = (out, Done files) /\
         In f files).
Proof.
  intros w args recursive. split; [ reflexivity | ].
  intros Hk f Hf. unfold find_run_results_files. rewrite Hk.
  set (l := list_of_set _).
  assert (In f l) as Hl.
  { unfold l, list_of_set. apply nodup_In. apply in_or_app. right.
    apply in_or_app. left. exact Hf. }
  assert (In f (sorted l)) as Hs
    by (apply (Permutation_in f (Permutation_sym (sorted_perm l))); exact Hl).
  destruct l as [ | x l']; [ destruct Hl | ].
  simpl. eexists; eexists; split; [ reflexivity | exact Hs ].
Qed.

Lemma recursive_flag_is_ignored_witness :
  kind sample_world "logs" = Directory /\
  exists out files,
    find_run_results_files sample_world "logs" = (out, Done files) /\
    In "logs/run_results.json" files.
Proof.
  split; [ reflexivity | ].
  apply (proj2 (recursive_flag_is_ignored sample_world (plain_arguments "logs") true));
    [ reflexivity | left; reflexivity ].
Defined.

(** ** The records the loop gets through *)

Lemma tally_step_well_shaped (t : tally) (r : json) :
  (exists t', tally_step t r = Ret t') <-> well_shaped r = true.
Proof.
  unfold tally_step, well_shaped, is_number.
  destruct r as [ | b | z | f | s | l | d]; simpl;
    try (split; [ intros [t' H]; discriminate | discriminate ]).
  destruct (lookup "unique_id" d) as [[ | b | z | f | id | l | d'] | ]; simpl;
    try (split; [ intros [t' H]; discriminate | discriminate ]).
  - destruct (String.prefix "model." id); simpl; [ | split; eauto ].
    destruct (lookup "execution_time" d) as [v | ]; simpl.
    + destruct (as_number v); split; eauto; try discriminate.
      intros [t' H]; discriminate.
    + split; eauto.
  - split; eauto.
Qed.

Lemma tally_step_raises (t : tally) (r : json) (e : exn) :
  tally_step t r = Raise e -> e = AttributeError \/ e = TypeError.
Proof.
  unfold tally_step.
  destruct r as [ | b | z | f | s | l | d]; simpl;
    try (intros H; inversion H; auto; fail).
  destruct (lookup "unique_id" d) as [[ | b | z | f | id | l | d'] | ]; simpl;
    try (intros H; inversion H; auto; fail).
  destruct (String.prefix "model." id); simpl; [ | discriminate ].
  destruct (lookup "execution_time" d) as [v | ]; simpl; [ | discriminate ].
  destruct (as_number v); intros H; inversion H; auto.
Qed.

Lemma tally_loop_well_shaped (items : list json) : forall t,
  (exists t', tally_loop t items = Ret t') <-> forallb well_shaped items = true.
Proof.
  induction items as [ | r items IH]; intros t; simpl.
  - split; eauto.
  - rewrite andb_true_iff, <- (tally_step_well_shaped t r). split.
    + intros [t' H]. invert_bind H. split; [ eauto | ].
      apply (IH v). eauto.
    + intros [[t1 H1] H2]. rewrite H1. simpl. apply IH, H2.
Qed.

Lemma tally_loop_raises (items : list json) : forall t e,
  tally_loop t items = Raise e -> e = AttributeError \/ e = TypeError.
Proof.
  induction items as [ | r items IH]; intros t e; simpl; [ discriminate | ].
  destruct (tally_step t r) as [t1 | e1] eqn:E; simpl.
  - apply IH.
  - intros H; inversion H; subst. apply (tally_step_raises _ _ _ E).
Qed.

(** X6.  The loop of [count_models] gets through a list of records exactly
    when each record is an object whose [unique_id] is absent or a string and,
    for a model, whose [execution_time] is absent or a number; otherwise it
    raises [AttributeError] or [TypeError].  So every report that yields a
    summary holds such records only. *)
Theorem loop_needs_well_shaped_records :
  (forall (items : list json) (t : tally),
     (exists t', tally_loop t items = Ret t') <->
     forallb well_shaped items = true) /\
  (forall (items : list json) (t : tally) (e : exn),
     tally_loop t items = Raise e -> e = AttributeError \/ e = TypeError) /\
  (forall (w : world) (path : string) (out : list event) (s : summary),
     count_models w path = (out, Done (Some s)) ->
     exists data items,
       load w path = Loaded data /\
       results_of data = Ret items /\
       forallb well_shaped items = true).
Proof.
  split; [ | split ].
  - intros items t. apply tally_loop_well_shaped.
  - intros items t e. apply tally_loop_raises.
  - intros w path out s H.
    apply count_models_Some in H. destruct H as [data [Hl H]].
    apply summarize_Ret in H. destruct H as (md & items & t & _ & Hr & Ht & _).
    exists data, items. repeat split; try assumption.
    apply (tally_loop_well_shaped items tally0). eauto.
Qed.

Lemma loop_needs_well_shaped_records_witness :
  forallb well_shaped sample_results = true /\
  exists t', tally_loop tally0 sample_results = Ret t'.
Proof.
  split; [ reflexivity | ].
  apply (proj2 (proj1 loop_needs_well_shaped_records sample_results tally0)).
  reflexivity.
Defined.

(** ** Metadata *)

Lemma build_summary_metadata (path : string) (metadata : json) (t : tally) (s : summary) :
  build_summary path metadata t = Ret s ->
  exists md,
    metadata = JDict md /\
    file_path s = path /\
    run_timestamp s = metadata_field "generated_at" md /\
    dbt_version s = metadata_field "dbt_version" md /\
    invocation_id s = metadata_field "invocation_id" md /\
    derive_run_date (run_timestamp s) = Ret (run_date s).
Proof.
  unfold build_summary. intros H.
  do 3 (invert_bind H).
  invert_bind H. apply py_get_Ret in Hv2. destruct Hv2 as [md [-> ->]].
  invert_bind H. simpl in H.
  do 3 (invert_bind H). inversion H; subst; clear H; simpl.
  exists md. repeat split; try reflexivity. exact Hv2.
Qed.

(** X7.  A summary carries the path it was asked for and the metadata
    values of the report as they are, of whatever JSON type:
    [run_timestamp], [dbt_version] and [invocation_id] are the values of
    [generated_at], [dbt_version] and [invocation_id], each replaced by
    ["unknown"] when its key is absent; a report without [metadata] has all
    three, and the run date, ["unknown"]. *)
Theorem metadata_is_copied_with_defaults :
  forall (w : world) (path : string) (out : list event) (s : summary),
    count_models w path = (out, Done (Some s)) ->
    exists d md,
      load w path = Loaded (JDict d) /\
      match lookup "metadata" d with Some m => m | None => JDict [] end = JDict md /\
      file_path s = path /\
      run_timestamp s = metadata_field "generated_at" md /\
      dbt_version s = metadata_field "dbt_version" md /\
      invocation_id s = metadata_field "invocation_id" md /\
      (lookup "metadata" d = None ->
       run_date s = "unknown" /\
       run_timestamp s = JStr "unknown" /\
       dbt_version s = JStr "unknown" /\
       invocation_id s = JStr "unknown").
Proof.
  intros w path out s H.
  apply count_models_Some in H. destruct H as [data [Hl H]].
  apply summarize_Ret in H. destruct H as (m & items & t & Hm & _ & _ & Hb).
  apply py_get_Ret in Hm. destruct Hm as [d [-> Hm]].
  apply build_summary_metadata in Hb.
  destruct Hb as (md & -> & H1 & H2 & H3 & H4 & H5).
  exists d, md.
  split; [ exact Hl | ]. split; [ symmetry; exact Hm | ].
  split; [ exact H1 | ]. split; [ exact H2 | ].
  split; [ exact H3 | ]. split; [ exact H4 | ].
  intros K. rewrite K in Hm. inversion Hm; subst md.
  rewrite H2 in H5. simpl in H5. inversion H5. auto.
Qed.

Lemma metadata_is_copied_with_defaults_witness :
  count_models sample_world "logs/run_results.json" = ([], Done (Some sample_summary))
  /\ exists d md,
      load sample_world "logs/run_results.json" = Loaded (JDict d) /\
      match lookup "metadata" d with Some m => m | None => JDict [] end = JDict md /\
      file_path sample_summary = "logs/run_results.json" /\
      run_timestamp sample_summary = metadata_field "generated_at" md /\
      dbt_version sample_summary = metadata_field "dbt_version" md /\
      invocation_id sample_summary = metadata_field "invocation_id" md /\
      (lookup "metadata" d = None ->
       run_date sample_summary = "unknown" /\
       run_timestamp sample_summary = JStr "unknown" /\
       dbt_version sample_summary = JStr "unknown" /\
       invocation_id sample_summary = JStr "unknown").
Proof.
  split; [ exact sample_count_models | ].
  apply (metadata_is_copied_with_defaults sample_world "logs/run_results.json" []).
  exact sample_count_models.
Defined.

(** ** The order of the table *)

Lemma string_leb_refl (a : string) : String.leb a a = true.
Proof. destruct (String.leb_total a a); assumption. Qed.

Lemma string_lt_leb (a b : string) : string_lt a b -> String.leb a b = true.
Proof.
  unfold string_lt, String.ltb, String.leb.
  destruct (String.compare a b); congruence.
Qed.

Lemma string_leb_trans (a b c : string) :
  String.leb a b = true -> String.leb b c = true -> String.leb a c = true.
Proof.
  intros H1 H2.
  destruct (string_dec a b) as [-> | Hab]; [ exact H2 | ].
  destruct (string_dec b c) as [<- | Hbc]; [ exact H1 | ].
  apply string_lt_leb. apply (string_lt_trans a b c); apply leb_true_lt; assumption.
Qed.

Lemma string_leb_false (a b : string) : String.leb a b = false -> String.leb b a = true.
Proof. intros H. destruct (String.leb_total a b); congruence. Qed.

Lemma insert_by_date_perm (x : summary) (l : list summary) :
  Permutation (insert_by_date x l) (x :: l).
Proof.
  induction l as [ | y l IH]; simpl; [ apply Permutation_refl | ].
  destruct (String.leb (run_date y) (run_date x)); [ apply Permutation_refl | ].
  apply perm_trans with (y :: x :: l); [ apply perm_skip, IH | apply perm_swap ].
Qed.

Lemma sort_by_date_desc_perm (l : list summary) :
  Permutation (sort_by_date_desc l) l.
Proof.
  induction l as [ | x l IH]; simpl; [ apply perm_nil | ].
  apply perm_trans with (x :: sort_by_date_desc l);
    [ apply insert_by_date_perm | apply perm_skip, IH ].
Qed.

Lemma insert_by_date_sorted (x : summary) (l : list summary) :
  StronglySorted not_earlier l -> StronglySorted not_earlier (insert_by_date x l).
Proof.
  induction 1 as [ | y l Hs IH Hy]; simpl.
  - constructor; constructor.
  - destruct (String.leb (run_date y) (run_date x)) eqn:E.
    + constructor; [ constructor; assumption | ].
      constructor; [ exact E | ].
      rewrite Forall_forall in *. intros z Hz. unfold not_earlier in *.
      apply string_leb_trans with (run_date y); [ apply Hy, Hz | exact E ].
    + constructor; [ exact IH | ].
      rewrite Forall_forall in *. intros z Hz.
      apply (Permutation_in z (insert_by_date_perm x l)) in Hz.
      destruct Hz as [<- | Hz]; [ | apply Hy, Hz ].
      apply string_leb_false, E.
Qed.

Lemma sort_by_date_desc_sorted (l : list summary) :
  StronglySorted not_earlier (sort_by_date_desc l).
Proof.
  induction l as [ | x l IH]; simpl; [ constructor | ].
  apply insert_by_date_sorted, IH.
Qed.

Lemma insert_by_date_filter (d : string) (x : summary) (l : list summary) :
  filter (has_date d) (insert_by_date x l) = filter (has_date d) (x :: l).
Proof.
  induction l as [ | y l IH]; [ reflexivity | ].
  simpl insert_by_date.
  destruct (String.leb (run_date y) (run_date x)) eqn:E; [ reflexivity | ].
  simpl in *. rewrite IH. unfold has_date.
  destruct (String.eqb (run_date x) d) eqn:Ex; [ | reflexivity ].
  destruct (String.eqb (run_date y) d) eqn:Ey; [ | reflexivity ].
  apply String.eqb_eq in Ex, Ey. rewrite Ex, Ey, string_leb_refl in E. discriminate.
Qed.

Lemma sort_by_date_desc_filter (d : string) (l : list summary) :
  filter (has_date d) (sort_by_date_desc l) = filter (has_date d) l.
Proof.
  induction l as [ | x l IH]; [ reflexivity | ].
  simpl sort_by_date_desc. rewrite insert_by_date_filter. simpl. rewrite IH.
  reflexivity.
Qed.

(** X8.  The rows of the summary table are the summaries, each once, and no
    row has an earlier run date ([run_date] compared as a string) than a row
    below it. *)
Theorem table_rows_are_sorted_by_date :
  forall all_stats : list summary,
    Permutation (sort_by_date_desc all_stats) all_stats /\
    StronglySorted not_earlier (sort_by_date_desc all_stats).
Proof.
  intros l. split; [ apply sort_by_date_desc_perm | apply sort_by_date_desc_sorted ].
Qed.

(** X9.  The sort of the table is stable: the summaries of one run date
    appear in the table in the order in which the files were processed. *)
Theorem table_rows_of_one_date_keep_their_order :
  forall (all_stats : list summary) (d : string),
    filter (has_date d) (sort_by_date_desc all_stats) = filter (has_date d) all_stats.
Proof. intros l d. apply sort_by_date_desc_filter. Qed.

Lemma digit_char_cases (x : Z) :
  In (digit_char x) ["0"; "1"; "2"; "3"; "4"; "5"; "6"; "7"; "8"; "9"]%char.
Proof.
  unfold digit_char.
  assert (0 <= x mod 10 < 10) as H by (apply Z.mod_pos_bound; lia).
  assert (x mod 10 = 0 \/ x mod 10 = 1 \/ x mod 10 = 2 \/ x mod 10 = 3 \/
          x mod 10 = 4 \/ x mod 10 = 5 \/ x mod 10 = 6 \/ x mod 10 = 7 \/
          x mod 10 = 8 \/ x mod 10 = 9) as K by lia.
  repeat (destruct K as [K | K]; [ rewrite K; simpl; tauto | ]).
  rewrite K; simpl; tauto.
Qed.

Lemma date_before_unknown (d : date) :
  String.leb "unknown" (date_isoformat d) = false.
Proof.
  unfold date_isoformat.
  pose proof (digit_char_cases (year d / 1000)) as H.
  set (c := digit_char (year d / 1000)) in *.
  simpl in H.
  repeat (destruct H as [<- | H]; [ reflexivity | ]). destruct H.
Qed.

Lemma date_is_not_unknown (d : date) : date_isoformat d <> "unknown".
Proof.
  intros H. pose proof (date_before_unknown d) as K. rewrite H in K.
  rewrite string_leb_refl in K. discriminate.
Qed.

Lemma sorted_unknown_first (l : list summary) :
  StronglySorted not_earlier l ->
  (forall s, In s l ->
     run_date s = "unknown" \/ exists d, run_date s = date_isoformat d) ->
  l = (filter (has_date "unknown") l
       ++ filter (fun s => negb (has_date "unknown" s)) l)%list.
Proof.
  induction 1 as [ | x l Hs IH Hx]; intros Hd; [ reflexivity | ].
  simpl. destruct (has_date "unknown" x) eqn:E; simpl.
  - f_equal. apply IH. intros s Hin. apply Hd. right. exact Hin.
  - assert (forall z, In z l -> has_date "unknown" z = false) as Hz.
    { intros z Hin. unfold has_date. apply String.eqb_neq. intros Hu.
      rewrite Forall_forall in Hx. specialize (Hx z Hin).
      unfold not_earlier in Hx. rewrite Hu in Hx.
      destruct (Hd x (or_introl eq_refl)) as [K | [d K]].
      - unfold has_date in E. rewrite K in E. discriminate.
      - rewrite K, date_before_unknown in Hx. discriminate. }
    assert (filter (has_date "unknown") l = [] /\
            filter (fun s => negb (has_date "unknown" s)) l = l) as [-> ->].
    { clear - Hz. induction l as [ | y l IH]; [ split; reflexivity | ].
      simpl. rewrite (Hz y (or_introl eq_refl)). simpl.
      destruct IH as [-> ->]; [ | split; reflexivity ].
      intros z Hin. apply Hz. right. exact Hin. }
    reflexivity.
Qed.

Lemma count_models_run_date (w : world) (path : string) (out : list event) (s : summary) :
  count_models w path = (out, Done (Some s)) ->
  run_date s = "unknown" \/ exists d, run_date s = date_isoformat d.
Proof.
  intros H. apply count_models_Some in H. destruct H as [data [_ H]].
  apply summarize_Ret in H. destruct H as (m & items & t & _ & _ & _ & Hb).
  apply build_summary_Ret in Hb.
  destruct Hb as (rate & avg & time & g & _ & _ & _ & _ & Hd & _).
  apply derive_run_date_Ret in Hd. destruct Hd as [g' [_ ->]].
  unfold run_date_of. destruct (String.eqb g' "unknown"); [ left; reflexivity | ].
  destruct (fromisoformat (replace_Z g')) as [d | ]; eauto.
Qed.

Example three_models_count_models :
  count_models three_models_world "run_results.json"
    = ([], Done (Some three_models_summary)).
Proof. vm_compute. reflexivity. Qed.

(** X10.  Summaries whose run date is ["unknown"] come first in the table,
    in the order of their files, above every dated summary: ["unknown"] is
    greater than every ISO date as a string.  Every summary of
    [count_models] has a run date of one of the two kinds. *)
Theorem undated_summaries_are_listed_first :
  (forall all_stats : list summary,
     (forall s, In s all_stats ->
        run_date s = "unknown" \/ exists d, run_date s = date_isoformat d) ->
     exists dated,
       sort_by_date_desc all_stats
         = (filter (has_date "unknown") all_stats ++ dated)%list /\
       (forall s, In s dated -> run_date s <> "unknown") /\
       StronglySorted not_earlier dated) /\
  (forall (w : world) (path : string) (out : list event) (s : summary),
     count_models w path = (out, Done (Some s)) ->
     run_date s = "unknown" \/ exists d, run_date s = date_isoformat d).
Proof.
  split; [ | apply count_models_run_date ].
  intros l Hd.
  exists (filter (fun s => negb (has_date "unknown" s)) (sort_by_date_desc l)).
  split; [ | split ].
  - rewrite <- (sort_by_date_desc_filter "unknown" l).
    apply sorted_unknown_first; [ apply sort_by_date_desc_sorted | ].
    intros s Hin. apply Hd.
    apply (Permutation_in s (sort_by_date_desc_perm l)), Hin.
  - intros s Hin. apply filter_In in Hin. destruct Hin as [_ Hin].
    unfold has_date in Hin. apply negb_true_iff, String.eqb_neq in Hin. exact Hin.
  - generalize (sort_by_date_desc_sorted l).
    generalize (sort_by_date_desc l). clear.
    induction 1 as [ | x l Hs IH Hx]; simpl; [ constructor | ].
    destruct (negb (has_date "unknown" x)); [ | exact IH ].
    constructor; [ exact IH | ].
    rewrite Forall_forall in *. intros z Hz. apply filter_In in Hz.
    apply Hx, Hz.
Qed.

Lemma undated_summaries_are_listed_first_witness :
  exists dated,
    sort_by_date_desc [sample_summary; three_models_summary]
      = (filter (has_date "unknown") [sample_summary; three_models_summary]
         ++ dated)%list /\
    (forall s, In s dated -> run_date s <> "unknown") /\
    StronglySorted not_earlier dated.
Proof.
  apply (proj1 undated_summaries_are_listed_first).
  intros s [<- | [<- | []]].
  - right. exists (mk_date 2024 1 15). reflexivity.
  - left. reflexivity.
Defined.

(** ** The totals of the table *)

Lemma io_bind_Done {A B : Type} (m : io A) (k : A -> io B) (out : list event) (b : B) :
  io_bind m k = (out, Done b) ->
  exists o1 a o2, m = (o1, Done a) /\ k a = (o2, Done b) /\ out = (o1 ++ o2)%list.
Proof.
  destruct m as [o1 [a | e | st]]; simpl; try discriminate.
  destruct (k a) as [o2 r] eqn:E. intros H. inversion H; subst.
  exists o1, a, o2. auto.
Qed.

Lemma lift_Done {A : Type} (m : outcome A) (out : list event) (a : A) :
  lift m = (out, Done a) -> m = Ret a /\ out = [].
Proof. destruct m; simpl; intros H; inversion H; auto. Qed.

Lemma emit_Done (e : event) (out : list event) (u : unit) :
  emit e = (out, Done u) -> out = [e].
Proof. unfold emit. intros H; inversion H; reflexivity. Qed.

Ltac invert_io H :=
  let o1 := fresh "o" in
  let a := fresh "a" in
  let o2 := fresh "o" in
  let Ha := fresh "Ha" in
  let Ho := fresh "Ho" in
  apply io_bind_Done in H; destruct H as (o1 & a & o2 & Ha & H & Ho);
  first [ apply lift_Done in Ha; destruct Ha as [Ha ?]
        | apply emit_Done in Ha
        | idtac ];
  subst.

Lemma print_rows_cons (stats : summary) (rest : list summary) (models successful : Z)
    (time : num) :
  print_rows (stats :: rest) (models, successful, time) =
  (let file_name := substring 0 28 (basename (file_path stats)) in
   rate <~ lift (format_f (success_rate stats)) ;;
   exec_time <~ lift (format_f (total_execution_time stats)) ;;
   printf "{file_name:<30} {stats['run_date']:<12} {models:<7} {success_rate:>6.1f}% {exec_time:>7.2f}"
     [VStr file_name; VStr (run_date stats); VInt (total_models stats);
      rate; exec_time] ;;;
   time' <~ lift (num_add time (total_execution_time stats)) ;;
   print_rows rest
     (models + total_models stats, successful + successful_models stats, time')).
Proof. reflexivity. Qed.

Lemma print_rows_Done (rows : list summary) :
  forall models successful time out models' successful' time',
    print_rows rows (models, successful, time)
      = (out, Done (models', successful', time')) ->
    models' = models + total_of total_models rows /\
    successful' = successful + total_of successful_models rows /\
    sum_from time (map total_execution_time rows) = Ret time' /\
    List.length out = List.length rows.
Proof.
  induction rows as [ | stats rest IH]; intros m s t out m' s' t' H.
  - simpl in H. inversion H; subst. simpl. repeat split; lia || reflexivity.
  - rewrite print_rows_cons in H. cbv zeta in H.
    do 4 (invert_io H).
    apply IH in H. destruct H as (H1 & H2 & H3 & H4).
    subst. simpl.
    match goal with K : num_add _ _ = Ret _ |- _ => rewrite K end.
    simpl. repeat split; try lia; try assumption.
Qed.

Lemma total_of_perm (f : summary -> Z) (l l' : list summary) :
  Permutation l l' -> total_of f l = total_of f l'.
Proof. induction 1; simpl; lia. Qed.

(** X11.  When [print_summary_results] prints a non-empty list to its end,
    it prints the five header lines, one row per summary, and the eight
    closing lines; the totals shown are the sums of [total_models] and of
    [successful_models] over all summaries, the overall rate is computed
    from these two sums, the average per run is the first sum divided by the
    number of summaries, and the total time is the sum of the times in the
    order of the rows. *)
Theorem summary_totals_are_sums :
  forall (all_stats : list summary) (out : list event),
    all_stats <> [] ->
    print_summary_results all_stats = (out, Done tt) ->
    exists rows overall rate total_time time per_run,
      List.length rows = List.length all_stats /\
      compute_success_rate (total_of successful_models all_stats)
        (total_of total_models all_stats) = Ret overall /\
      format_f overall = Ret rate /\
      py_sum (map total_execution_time (sort_by_date_desc all_stats)) = Ret total_time /\
      format_f total_time = Ret time /\
      int_truediv (total_of total_models all_stats) (py_len all_stats) = Ret per_run /\
      out = (table_header ++ rows
             ++ table_footer (py_len all_stats) (total_of total_models all_stats)
                  rate time per_run)%list.
Proof.
  intros all_stats out Hne H.
  unfold print_summary_results in H.
  destruct all_stats as [ | s0 rest]; [ congruence | ].
  set (l := s0 :: rest) in *. clearbody l.
  do 5 (invert_io H).
  invert_io H.
  match goal with
  | K : print_rows _ _ = (_, Done ?x) |- _ =>
      destruct x as [[models successful] time0];
      apply print_rows_Done in K; destruct K as (H1 & H2 & H3 & H4)
  end.
  rewrite (total_of_perm total_models _ _ (sort_by_date_desc_perm l)) in H1.
  rewrite (total_of_perm successful_models _ _ (sort_by_date_desc_perm l)) in H2.
  simpl in H1, H2. subst models successful.
  repeat (invert_io H). apply emit_Done in H. subst.
  rewrite (Permutation_length (sort_by_date_desc_perm l)) in H4.
  exists o. do 5 eexists.
  repeat (split; [ eassumption | ]). reflexivity.
Qed.

Lemma summary_totals_are_sums_witness :
  [sample_summary; three_models_summary] <> [] /\
  exists out,
    print_summary_results [sample_summary; three_models_summary] = (out, Done tt) /\
    exists rows overall rate total_time time per_run,
      List.length rows = List.length [sample_summary; three_models_summary] /\
      compute_success_rate
        (total_of successful_models [sample_summary; three_models_summary])
        (total_of total_models [sample_summary; three_models_summary]) = Ret overall /\
      format_f overall = Ret rate /\
      py_sum (map total_execution_time
                (sort_by_date_desc [sample_summary; three_models_summary]))
        = Ret total_time /\
      format_f total_time = Ret time /\
      int_truediv (total_of total_models [sample_summary; three_models_summary])
        (py_len [sample_summary; three_models_summary]) = Ret per_run /\
      out = (table_header ++ rows
             ++ table_footer (py_len [sample_summary; three_models_summary])
                  (total_of total_models [sample_summary; three_models_summary])
                  rate time per_run)%list.
Proof.
  split; [ discriminate | ].
  eexists. split; [ vm_compute; reflexivity | ].
  apply (summary_totals_are_sums [sample_summary; three_models_summary]);
    [ discriminate | vm_compute; reflexivity ].
Defined.

(** ** The shape of rounded numbers *)

Lemma Zdigits2_le (x k : Z) : 0 <= k -> 0 <= x < 2 ^ k -> Zdigits2 x <= k.
Proof.
  intros Hk [Hx0 Hx]. destruct (Z.le_gt_cases x 0) as [H0 | H0].
  - replace x with 0 by lia. simpl. lia.
  - destruct (Zdigits2_bounds x H0) as [Hl _].
    assert (2 ^ (Zdigits2 x - 1) < 2 ^ k) as H by lia.
    pose proof (Zdigits2_nonneg x).
    destruct (Z.eq_dec (Zdigits2 x) 0) as [E | E]; [ lia | ].
    apply Z.pow_lt_mono_r_iff in H; lia.
Qed.

(** The mantissa and the exponent [shr_fexp] returns. *)
Lemma shr_fexp_m (m e : Z) (l : location) :
  0 <= m ->
  let n := Z.max 0 (fexp64 (Zdigits2 m + e) - e) in
  shr_m (fst (shr_fexp prec emax m e l)) = m / 2 ^ n /\
  snd (shr_fexp prec emax m e l) = e + n.
Proof.
  intros Hm n. unfold shr_fexp, shr. fold (fexp64 (Zdigits2 m + e)).
  assert (Hrec : shr_m (shr_record_of_loc m l) = m)
    by (destruct l as [ | [ | | ]]; reflexivity).
  unfold n. destruct (fexp64 (Zdigits2 m + e) - e) as [ | k | k] eqn:En; cbn [fst snd].
  - rewrite Hrec. simpl. rewrite Z.div_1_r. split; [ reflexivity | lia ].
  - rewrite iter_pos_nat.
    assert (Hm' : 0 <= shr_m (shr_record_of_loc m l)) by (rewrite Hrec; exact Hm).
    destruct (shr_iter_spec (Pos.to_nat k) _ Hm') as [Sm _].
    rewrite positive_nat_Z, Hrec in Sm.
    rewrite Sm. replace (Z.max 0 (Zpos k)) with (Zpos k) by lia.
    split; reflexivity.
  - rewrite Hrec. replace (Z.max 0 (Zneg k)) with 0 by lia.
    simpl. rewrite Z.div_1_r. split; [ reflexivity | lia ].
Qed.

(** After [shr_fexp] a mantissa has at most 53 bits. *)
Lemma shr_fexp_digits (m e : Z) (l : location) :
  0 <= m -> Zdigits2 (shr_m (fst (shr_fexp prec emax m e l))) <= 53.
Proof.
  intros Hm. destruct (shr_fexp_m m e l Hm) as [-> _].
  set (n := Z.max 0 (fexp64 (Zdigits2 m + e) - e)).
  assert (Hn : 0 <= n) by (unfold n; lia).
  assert (Hp : 0 < 2 ^ n) by (apply Z.pow_pos_nonneg; lia).
  destruct (Z.eq_dec m 0) as [-> | Hnz].
  - rewrite Z.div_0_l by lia. simpl. lia.
  - destruct (Zdigits2_bounds m ltac:(lia)) as [_ Hu].
    pose proof (Zdigits2_nonneg m) as Hd.
    apply Zdigits2_le; [ lia | ].
    split; [ apply Z.div_pos; lia | ].
    apply Z.div_lt_upper_bound; [ exact Hp | ].
    rewrite <- Z.pow_add_r by lia.
    eapply Z.lt_le_trans; [ exact Hu | ].
    apply Z.pow_le_mono_r; [ lia | ].
    unfold n. rewrite fexp64_eq. lia.
Qed.

(** A positive mantissa of a number of magnitude at least [2^-1074] stays
    positive in [shr_fexp]. *)
Lemma shr_fexp_pos (m e : Z) (l : location) :
  0 < m -> -1074 < Zdigits2 m + e ->
  0 < shr_m (fst (shr_fexp prec emax m e l)) /\
  -1074 <= snd (shr_fexp prec emax m e l).
Proof.
  intros Hm Hd. destruct (shr_fexp_m m e l ltac:(lia)) as [-> ->].
  set (n := Z.max 0 (fexp64 (Zdigits2 m + e) - e)).
  assert (Hn : 0 <= n) by (unfold n; lia).
  assert (Hp : 0 < 2 ^ n) by (apply Z.pow_pos_nonneg; lia).
  destruct (Zdigits2_bounds m Hm) as [Hl _].
  assert (Hdm : 1 <= Zdigits2 m).
  { destruct m as [ | p | p]; try lia.
    change (Zdigits2 (Zpos p)) with (Zpos (digits2_pos p)). lia. }
  split.
  - apply Z.div_str_pos. split; [ exact Hp | ].
    eapply Z.le_trans; [ | exact Hl ].
    apply Z.pow_le_mono_r; [ lia | ].
    unfold n. rewrite fexp64_eq. lia.
  - unfold n. rewrite fexp64_eq. lia.
Qed.

Lemma round_nearest_even_ge (m : Z) (l : location) : m <= round_nearest_even m l.
Proof.
  destruct (round_nearest_even_cases m l) as [-> | [_ ->]]; lia.
Qed.

(** The shape of every result of [binary_round_aux]. *)
Lemma binary_round_aux_shape (sx : bool) (mx ex : Z) (lx : location) :
  0 <= mx ->
  match binary_round_aux prec emax sx mx ex lx with
  | S754_zero s => s = sx
  | S754_infinity s => s = sx
  | S754_finite s m e => s = sx /\ Zdigits2 (Zpos m) <= 53 /\ e <= 971
  | S754_nan => False
  end.
Proof.
  intros Hmx. unfold binary_round_aux.
  pose proof (shr_fexp_m mx ex lx Hmx) as [H1 _].
  destruct (shr_fexp prec emax mx ex lx) as [mrs' e']. cbn [fst] in H1.
  set (m2 := round_nearest_even (shr_m mrs') (loc_of_shr_record mrs')).
  assert (Hm2 : 0 <= m2).
  { pose proof (round_nearest_even_ge (shr_m mrs') (loc_of_shr_record mrs')).
    assert (0 <= shr_m mrs').
    { rewrite H1. apply Z.div_pos; [ exact Hmx | apply Z.pow_pos_nonneg; lia ]. }
    unfold m2. lia. }
  pose proof (shr_fexp_digits m2 e' loc_Exact Hm2) as Hd.
  pose proof (shr_fexp_m m2 e' loc_Exact Hm2) as [H2 _].
  destruct (shr_fexp prec emax m2 e' loc_Exact) as [mrs'' e'']. cbn [fst] in *.
  assert (0 <= shr_m mrs'').
  { rewrite H2. apply Z.div_pos; [ exact Hm2 | apply Z.pow_pos_nonneg; lia ]. }
  destruct (shr_m mrs'') as [ | m | m]; [ reflexivity | | lia ].
  destruct (e'' <=? emax - prec) eqn:E; [ | reflexivity ].
  apply Z.leb_le in E. unfold emax, prec in E. repeat split; [ exact Hd | lia ].
Qed.

(** A positive number of magnitude at least [2^-1074] does not round to
    zero. *)
Lemma binary_round_aux_nonzero (sx : bool) (mx ex : Z) (lx : location) :
  0 < mx -> -1074 < Zdigits2 mx + ex ->
  is_zero (binary_round_aux prec emax sx mx ex lx) = false.
Proof.
  intros Hmx Hd. unfold binary_round_aux.
  pose proof (shr_fexp_pos mx ex lx Hmx Hd) as [H1 He].
  destruct (shr_fexp prec emax mx ex lx) as [mrs' e']. cbn [fst snd] in *.
  set (m2 := round_nearest_even (shr_m mrs') (loc_of_shr_record mrs')).
  assert (Hm2 : 0 < m2).
  { pose proof (round_nearest_even_ge (shr_m mrs') (loc_of_shr_record mrs')).
    unfold m2. lia. }
  assert (Hd2 : -1074 < Zdigits2 m2 + e').
  { assert (1 <= Zdigits2 m2); [ | lia ].
    destruct m2 as [ | p | p]; try lia.
    change (Zdigits2 (Zpos p)) with (Zpos (digits2_pos p)). lia. }
  pose proof (shr_fexp_pos m2 e' loc_Exact Hm2 Hd2) as [H2 _].
  destruct (shr_fexp prec emax m2 e' loc_Exact) as [mrs'' e'']. cbn [fst] in *.
  destruct (shr_m mrs'') as [ | m | m]; try lia.
  destruct (e'' <=? emax - prec); reflexivity.
Qed.

Lemma shl_align_spec (p : positive) (e e' : Z) :
  let '(mz, ez) := shl_align p e e' in
  ez <= e /\ Zpos mz = Zpos p * 2 ^ (e - ez) /\
  (e <= e' /\ ez = e \/ ez = e').
Proof.
  unfold shl_align. destruct (e' - e) as [ | d | d] eqn:E.
  - rewrite Z.sub_diag. simpl. split; [ lia | split; [ lia | left; lia ] ].
  - rewrite Z.sub_diag. simpl. split; [ lia | split; [ lia | left; lia ] ].
  - split; [ lia | ]. split; [ | auto ].
    replace (e - e') with (Zpos d) by lia.
    clear. induction d as [ | d IH] using Pos.peano_ind.
    + simpl. lia.
    + rewrite Pos.iter_succ, Pos2Z.inj_succ, Z.pow_succ_r by lia.
      change (Zpos (Pos.iter xO p d)~0) with (2 * Zpos (Pos.iter xO p d)).
      rewrite IH. ring.
Qed.

(** ** Rounding below the largest binary64 number *)
Section BoundMax.

(** The bound [Mu * 2^eu] is any binary64 number. *)
Variables Mu eu : Z.
Hypothesis Mu_pos : 0 < Mu.
Hypothesis Mu_canonical : fexp64 (Zdigits2 Mu + eu) = eu.
Hypothesis Mu_max : Zdigits2 Mu + eu <= emax.

Lemma fexp64_below (m e : Z) :
  0 <= m -> (F m e <= F Mu eu)%Q -> e <= eu -> fexp64 (Zdigits2 m + e) <= eu.
Proof.
  intros Hm Hle He. destruct (Z.eq_dec m 0) as [-> | Hnz].
  - simpl Zdigits2. rewrite <- Mu_canonical in *. rewrite !fexp64_eq in *. lia.
  - apply (exponent_below Mu eu Mu_pos Mu_canonical); [ lia | exact Hle ].
Qed.

Lemma binary_round_aux_bound_max (mx ex : Z) (lx : location) :
  0 <= mx ->
  (F mx ex <= F Mu eu)%Q ->
  ex <= fexp64 (Zdigits2 mx + ex) ->
  (lx <> loc_Exact -> (F mx ex < F Mu eu)%Q) ->
  at_most (F Mu eu) (binary_round_aux prec emax false mx ex lx).
Proof.
  intros Hmx Hle Halign Hinexact. unfold binary_round_aux.
  assert (Heu : -1074 <= eu <= 971).
  { rewrite <- Mu_canonical. rewrite fexp64_eq. unfold emax in Mu_max. lia. }
  pose proof (shr_fexp_spec mx ex lx Hmx) as H1.
  destruct (shr_fexp prec emax mx ex lx) as [mrs' e'].
  destruct H1 as (Hm1 & Hv1 & Hcase).
  set (m1 := shr_m mrs') in *.
  assert (He' : e' <= eu).
  { assert (ex <= eu).
    { destruct (Z.eq_dec mx 0) as [-> | Hnz].
      - simpl Zdigits2 in Halign. rewrite fexp64_eq in Halign. lia.
      - eapply Z.le_trans; [ exact Halign | ].
        apply (exponent_below Mu eu Mu_pos Mu_canonical); [ lia | exact Hle ]. }
    destruct Hcase as [(-> & _ & _) | (-> & _ & _)]; [ assumption | ].
    apply fexp64_below; assumption. }
  set (m2 := round_nearest_even m1 (loc_of_shr_record mrs')).
  assert (Hm2 : 0 <= m2 /\ (F m2 e' <= F Mu eu)%Q).
  { destruct (round_nearest_even_cases m1 (loc_of_shr_record mrs')) as [E | [Hl E]];
      unfold m2; rewrite E.
    - split; [ exact Hm1 | eapply Qle_trans; [ exact Hv1 | exact Hle ] ].
    - split; [ lia | ]. apply next_below; [ exact He' | ].
      assert (Ei : inexact mrs' = true).
      { destruct (inexact mrs') eqn:Ei; [ reflexivity | ].
        exfalso. apply Hl, loc_of_shr_record_exact, Ei. }
      destruct Hcase as [(-> & -> & _) | (_ & _ & Hi)].
      + apply inexact_of_loc in Ei.
        assert (Em : m1 = mx) by (unfold m1; destruct lx as [ | [ | | ]]; reflexivity).
        rewrite Em. apply Hinexact, Ei.
      + destruct (Hi Ei) as [K | K].
        * eapply Qle_lt_trans; [ exact Hv1 | apply Hinexact, K ].
        * eapply Qlt_le_trans; [ exact K | exact Hle ]. }
  destruct Hm2 as [Hm2 Hv2].
  pose proof (shr_fexp_spec m2 e' loc_Exact Hm2) as H2.
  destruct (shr_fexp prec emax m2 e' loc_Exact) as [mrs'' e''].
  destruct H2 as (Hm3 & Hv3 & Hcase2).
  assert (Hv : (F (shr_m mrs'') e'' <= F Mu eu)%Q)
    by (eapply Qle_trans; [ exact Hv3 | exact Hv2 ]).
  assert (He'' : e'' <= eu).
  { destruct Hcase2 as [(-> & _ & _) | (-> & _ & _)]; [ assumption | ].
    apply fexp64_below; assumption. }
  destruct (shr_m mrs'') as [ | m | m]; [ exact I | | lia ].
  assert (He : e'' <= emax - prec) by (unfold emax, prec; lia).
  apply Z.leb_le in He. rewrite He. exact Hv.
Qed.

End BoundMax.

(** The quotient computed by [SFdiv_core_binary] is aligned on the exponent
    the format gives it. *)
Lemma SFdiv_core_binary_aligned (a b : positive) :
  let '(q, e', l) := SFdiv_core_binary prec emax (Zpos a) 0 (Zpos b) 0 in
  e' <= fexp64 (Zdigits2 q + e').
Proof.
  unfold SFdiv_core_binary.
  set (d1 := Zdigits2 (Zpos a)). set (d2 := Zdigits2 (Zpos b)).
  rewrite !Z.add_0_r, Z.sub_0_r. fold (fexp64 (d1 - d2)).
  set (e' := Z.min (fexp64 (d1 - d2)) 0).
  assert (He : e' <= 0) by (unfold e'; lia).
  replace (0 - e') with (- e') by ring.
  set (m' := match - e' with
             | Zpos _ => Z.shiftl (Zpos a) (- e')
             | 0 => Zpos a
             | Zneg _ => 0
             end).
  assert (Em : m' = Zpos a * 2 ^ (- e')).
  { unfold m'. destruct (- e') as [ | s | s] eqn:Es; try lia.
    rewrite Z.shiftl_mul_pow2 by lia. reflexivity. }
  clearbody m'.
  pose proof (Z_div_mod m' (Zpos b) eq_refl) as Hdiv.
  destruct (Z.div_eucl m' (Zpos b)) as [q r] eqn:Eq.
  destruct Hdiv as [Hm' Hr].
  assert (Hp : 0 < 2 ^ (- e')) by (apply Z.pow_pos_nonneg; lia).
  assert (Hq : q = m' / Zpos b).
  { apply (Z.div_unique_pos m' (Zpos b) q r); [ lia | exact Hm' ]. }
  assert (Hd : d1 - e' - d2 <= Zdigits2 q).
  { rewrite Hq.
    assert (E : Zdigits2 m' = d1 - e').
    { rewrite Em. unfold d1. rewrite Zdigits2_shift by lia. ring. }
    rewrite <- E. apply Zdigits2_div; lia. }
  apply Z.le_trans with (fexp64 (d1 - d2)); [ unfold e'; lia | ].
  apply fexp64_mono. lia.
Qed.

(** The quotient of two positive integers does not overflow when it is at
    most a binary64 number. *)
Lemma int_truediv_bound_max (Mu eu a b : Z) :
  0 < Mu -> fexp64 (Zdigits2 Mu + eu) = eu -> Zdigits2 Mu + eu <= emax ->
  0 < a -> 0 < b -> (inject_Z a <= F Mu eu * inject_Z b)%Q ->
  exists f, int_truediv a b = Ret f /\ at_most (F Mu eu) f.
Proof.
  intros HMu Hc Hmax Ha Hb Hab.
  destruct a as [ | p | p]; try lia. destruct b as [ | q | q]; try lia.
  cbn [int_truediv].
  assert (H : at_most (F Mu eu)
                (SFdiv prec emax (S754_finite false p 0) (S754_finite false q 0))).
  { cbn [SFdiv xorb].
    pose proof (SFdiv_core_binary_spec p q) as H.
    pose proof (SFdiv_core_binary_aligned p q) as Hal.
    destruct (SFdiv_core_binary prec emax (Zpos p) 0 (Zpos q) 0) as [[m e'] l].
    destruct H as (He & Hq & Hle & Hl).
    apply (binary_round_aux_bound_max Mu eu HMu Hc Hmax); [ exact Hq | | exact Hal | ].
    - apply (quotient_le Mu eu m (Zpos p) (Zpos q)); try assumption; reflexivity.
    - intros Hne. destruct (Hl Hne) as [Hlt _].
      apply (quotient_lt Mu eu m (Zpos p) (Zpos q)); try assumption; reflexivity. }
  destruct (SFdiv prec emax (S754_finite false p 0) (S754_finite false q 0))
    as [s | s | | s m e]; simpl in H |- *; try contradiction; eauto.
Qed.

(** ** Mantissas that need no rounding *)
Lemma digits_pos (p : positive) : 1 <= Zdigits2 (Zpos p).
Proof. change (Zdigits2 (Zpos p)) with (Zpos (digits2_pos p)). lia. Qed.

Lemma binary_round_aligned (p : positive) (e : Z) :
  let '(mz, ez) := shl_align p e (fexp prec emax (Zpos (digits2_pos p) + e)) in
  ez <= fexp64 (Zdigits2 (Zpos mz) + ez) /\
  (F (Zpos mz) ez == F (Zpos p) e)%Q /\
  Zdigits2 (Zpos mz) + ez = Zdigits2 (Zpos p) + e.
Proof.
  pose proof (shl_align_spec p e (fexp prec emax (Zpos (digits2_pos p) + e))) as H.
  destruct (shl_align p e (fexp prec emax (Zpos (digits2_pos p) + e))) as [mz ez].
  destruct H as (Hle & Hm & Hez).
  assert (Hd : Zdigits2 (Zpos mz) + ez = Zdigits2 (Zpos p) + e).
  { rewrite Hm, Zdigits2_shift by lia. ring. }
  split; [ | split; [ | exact Hd ] ].
  - rewrite Hd. destruct Hez as [[Hl ->] | ->].
    + exact Hl.
    + apply Z.le_refl.
  - rewrite Hm, F_shift by lia. replace (ez + (e - ez)) with e by ring. reflexivity.
Qed.

(** ** Arithmetic, conversions and roundings of binary64 numbers *)

Lemma valid_binary_bounded64 (f : spec_float) :
  valid_binary prec emax f = true -> bounded64 f.
Proof.
  destruct f as [s | s | | s m e]; simpl; auto.
  unfold bounded, canonical_mantissa. intros H.
  apply andb_true_iff in H. destruct H as [H1 H2].
  apply Z.eqb_eq in H1. apply Z.leb_le in H2.
  fold (fexp64 (Zpos (digits2_pos m) + e)) in H1. rewrite fexp64_eq in H1.
  change (Zdigits2 (Zpos m)) with (Zpos (digits2_pos m)).
  unfold emax, prec in H2. lia.
Qed.

Lemma binary_round_aux_bounded64 (sx : bool) (mx ex : Z) (lx : location) :
  0 <= mx -> bounded64 (binary_round_aux prec emax sx mx ex lx).
Proof.
  intros H. pose proof (binary_round_aux_shape sx mx ex lx H) as K.
  destruct (binary_round_aux prec emax sx mx ex lx); simpl; auto. tauto.
Qed.

Lemma binary_normalize_bounded64 (m e : Z) (szero : bool) :
  bounded64 (binary_normalize prec emax m e szero).
Proof.
  destruct m as [ | p | p]; cbn [binary_normalize]; [ exact I | | ];
    unfold binary_round;
    destruct (shl_align p e _) as [mz ez];
    apply binary_round_aux_bounded64; lia.
Qed.

Lemma SFadd_bounded64 (x y : spec_float) :
  bounded64 x -> bounded64 y -> bounded64 (SFadd prec emax x y).
Proof.
  intros Hx Hy.
  destruct x as [sx | sx | | sx mx ex], y as [sy | sy | | sy my ey];
    cbn [SFadd]; try exact I; try assumption.
  - destruct sx, sy; exact I.
  - destruct sx, sy; exact I.
  - apply binary_normalize_bounded64.
Qed.

Lemma SFdiv_core_binary_nonneg (m1 m2 : positive) (e1 e2 : Z) :
  0 <= fst (fst (SFdiv_core_binary prec emax (Zpos m1) e1 (Zpos m2) e2)).
Proof.
  unfold SFdiv_core_binary.
  set (s := e1 - e2 - _).
  set (m' := match s with
             | 0 => Zpos m1
             | Zpos _ => Z.shiftl (Zpos m1) s
             | Zneg _ => 0
             end).
  assert (Hm : 0 <= m').
  { unfold m'. destruct s; try lia. apply Z.shiftl_nonneg. lia. }
  clearbody m'.
  pose proof (Z_div_mod m' (Zpos m2) eq_refl) as Hdiv.
  destruct (Z.div_eucl m' (Zpos m2)) as [q r]. cbn [fst].
  destruct Hdiv as [E Hr]. nia.
Qed.

Lemma SFdiv_bounded64 (x y : spec_float) : bounded64 (SFdiv prec emax x y).
Proof.
  destruct x as [sx | sx | | sx mx ex], y as [sy | sy | | sy my ey];
    cbn [SFdiv]; try exact I.
  pose proof (SFdiv_core_binary_nonneg mx my ex ey) as H.
  destruct (SFdiv_core_binary prec emax (Zpos mx) ex (Zpos my) ey) as [[mz ez] lz].
  apply binary_round_aux_bounded64. exact H.
Qed.

(** [float(z)] of a non-zero integer is not zero. *)
Lemma float_of_int_nonzero (z : Z) (y : spec_float) :
  z <> 0 -> float_of_int z = Ret y -> is_zero y = false.
Proof.
  unfold float_of_int. intros Hz.
  assert (H : is_zero (binary_normalize prec emax z 0 false) = false).
  { destruct z as [ | p | p]; [ congruence | | ]; cbn [binary_normalize];
      unfold binary_round;
      pose proof (binary_round_aligned p 0) as Ha;
      destruct (shl_align p 0 (fexp prec emax (Zpos (digits2_pos p) + 0))) as [mz ez];
      destruct Ha as (_ & _ & Hd);
      (apply binary_round_aux_nonzero; [ lia | ]);
      rewrite Hd; pose proof (digits_pos p); lia. }
  destruct (is_infinity (binary_normalize prec emax z 0 false)); [ discriminate | ].
  intros K; inversion K; subst. exact H.
Qed.

(** [float(z)] returns a binary64 number for [0 <= z <= 2^1023]. *)
Lemma float_of_int_returns (z : Z) :
  0 <= z <= 2 ^ 1023 -> exists y, float_of_int z = Ret y /\ bounded64 y.
Proof.
  intros Hz. unfold float_of_int.
  assert (H : is_infinity (binary_normalize prec emax z 0 false) = false).
  { destruct z as [ | p | p]; [ reflexivity | | lia ].
    cbn [binary_normalize]. unfold binary_round.
    pose proof (binary_round_aligned p 0) as Ha.
    destruct (shl_align p 0 (fexp prec emax (Zpos (digits2_pos p) + 0))) as [mz ez].
    destruct Ha as (Hal & Hv & _).
    assert (B : at_most (F 4503599627370496 971)
                  (binary_round_aux prec emax false (Zpos mz) ez loc_Exact)).
    { apply binary_round_aux_bound_max;
        [ lia | reflexivity | vm_compute; discriminate | lia | | exact Hal | ].
      - rewrite Hv. unfold F.
        assert (E : (bpow 0 == 1)%Q) by reflexivity.
        rewrite E, (bpow_Z 971) by lia. rewrite <- inject_Z_mult, Qmult_1_r.
        rewrite <- Zle_Qle.
        replace (4503599627370496 * 2 ^ 971) with (2 ^ 1023); [ lia | ].
        change 4503599627370496 with (2 ^ 52). rewrite <- Z.pow_add_r by lia.
        reflexivity.
      - intros K. congruence. }
    destruct (binary_round_aux prec emax false (Zpos mz) ez loc_Exact) as [ | s | | ];
      simpl in B |- *; try reflexivity. contradiction. }
  rewrite H. eexists. split; [ reflexivity | apply binary_normalize_bounded64 ].
Qed.

(** Whether a rounding overflows does not depend on the sign. *)
Lemma binary_round_aux_infinity (sx sx' : bool) (mx ex : Z) (lx : location) :
  is_infinity (binary_round_aux prec emax sx mx ex lx)
  = is_infinity (binary_round_aux prec emax sx' mx ex lx).
Proof.
  unfold binary_round_aux.
  destruct (shr_fexp prec emax mx ex lx) as [mrs' e'].
  destruct (shr_fexp prec emax _ e' loc_Exact) as [mrs'' e''].
  destruct (shr_m mrs''); try reflexivity.
  destruct (e'' <=? emax - prec); reflexivity.
Qed.

Lemma int_truediv_sign (a b : Z) :
  0 < b ->
  (exists f, int_truediv a b = Ret f) <-> (exists f, int_truediv (Z.abs a) b = Ret f).
Proof.
  intros Hb. destruct b as [ | q | q]; try lia.
  destruct a as [ | p | p]; cbn [Z.abs int_truediv]; try reflexivity.
  cbn [SFdiv xorb].
  destruct (SFdiv_core_binary prec emax (Zpos p) 0 (Zpos q) 0) as [[m e] l].
  rewrite (binary_round_aux_infinity true false).
  destruct (is_infinity (binary_round_aux prec emax false m e l));
    split; intros [f H]; try discriminate; eauto.
Qed.

(** The largest binary64 number. *)
Lemma F_max_float : (F 9007199254740991 971 == inject_Z (9007199254740991 * 2 ^ 971))%Q.
Proof. unfold F. rewrite (bpow_Z 971) by lia. rewrite inject_Z_mult. reflexivity. Qed.

(** [round(f, ndigits)] returns on every binary64 number. *)
Lemma float_round_returns (ndigits : Z) (f : spec_float) :
  0 <= ndigits -> bounded64 f -> exists r, float_round ndigits f = Ret r.
Proof.
  intros Hn Hb. destruct f as [s | s | | s m e]; simpl; eauto.
  destruct Hb as [Hd He].
  destruct (scaled_decimal ndigits m e =? 0) eqn:Ek; [ eauto | ].
  apply Z.eqb_neq in Ek.
  assert (Hp10 : 0 < 10 ^ ndigits) by (apply Z.pow_pos_nonneg; lia).
  assert (Hm : Zpos m <= 9007199254740991).
  { destruct (Zdigits2_bounds (Zpos m) ltac:(lia)) as [_ Hu].
    assert (2 ^ Zdigits2 (Zpos m) <= 2 ^ 53) by (apply Z.pow_le_mono_r; lia).
    change (2 ^ 53) with 9007199254740992 in *. lia. }
  set (P := 2 ^ 971).
  assert (HP : 1 <= P) by (unfold P; apply (Z.pow_le_mono_r 2 0 971); lia).
  assert (Hk : 0 < scaled_decimal ndigits m e <= 9007199254740991 * P * 10 ^ ndigits).
  { unfold scaled_decimal in *. destruct (0 <=? e) eqn:E0.
    - apply Z.leb_le in E0.
      assert (0 < 2 ^ e) by (apply Z.pow_pos_nonneg; lia).
      assert (2 ^ e <= P) by (unfold P; apply Z.pow_le_mono_r; lia).
      split; [ nia | ]. apply Z.mul_le_mono_nonneg_r; [ lia | ]. nia.
    - apply Z.leb_gt in E0.
      assert (0 < 2 ^ (- e)) by (apply Z.pow_pos_nonneg; lia).
      pose proof (round_half_even_bound (Zpos m * 10 ^ ndigits) (2 ^ (- e))
                    (Zpos m * 10 ^ ndigits) ltac:(lia) ltac:(nia) ltac:(nia)) as K.
      split; [ lia | ]. nia. }
  set (k := scaled_decimal ndigits m e) in *.
  assert (exists r, int_truediv k (10 ^ ndigits) = Ret r) as Hr.
  { destruct (int_truediv_bound_max 9007199254740991 971 k (10 ^ ndigits))
      as [r [Hr _]]; try reflexivity; try lia.
    - rewrite F_max_float, <- inject_Z_mult, <- Zle_Qle. fold P. lia.
    - eauto. }
  destruct s; [ | exact Hr ].
  apply int_truediv_sign; [ exact Hp10 | ].
  rewrite Z.abs_opp, Z.abs_eq by lia. exact Hr.
Qed.

(** ** Sums and means of ordinary numbers *)
Lemma pow2_le (a b : Z) : 0 <= a <= b -> 2 ^ a <= 2 ^ b.
Proof. intros H. apply Z.pow_le_mono_r; lia. Qed.

Lemma to_float_within (B : Z) (x : num) :
  within B x -> B <= 2 ^ 1023 -> exists y, to_float x = Ret y /\ bounded64 y.
Proof.
  destruct x as [z | f]; simpl; intros H HB.
  - apply float_of_int_returns. lia.
  - eauto.
Qed.

Lemma num_add_within (B C : Z) (a b : num) :
  within B a -> within C b -> B <= 2 ^ 1023 -> C <= 2 ^ 1023 ->
  exists c, num_add a b = Ret c /\ within (B + C) c.
Proof.
  intros Ha Hb HB HC.
  destruct a as [x | f], b as [y | g]; cbn [num_add].
  - exists (NInt (x + y)). split; [ reflexivity | simpl in *; lia ].
  - destruct (to_float_within B (NInt x) Ha HB) as [u [-> Hu]]. cbn [to_float bind].
    eexists. split; [ reflexivity | ]. apply SFadd_bounded64; assumption.
  - destruct (to_float_within C (NInt y) Hb HC) as [u [Eu Hu]].
    cbn [to_float bind] in *. rewrite Eu. cbn [bind].
    eexists. split; [ reflexivity | ]. apply SFadd_bounded64; assumption.
  - cbn [to_float bind].
    eexists. split; [ reflexivity | ]. apply SFadd_bounded64; assumption.
Qed.

Lemma sum_from_within (C : Z) (xs : list num) : forall B acc,
  Forall (within C) xs -> within B acc -> 0 <= B -> 0 <= C ->
  B + C * py_len xs <= 2 ^ 1023 ->
  exists r, sum_from acc xs = Ret r /\ within (B + C * py_len xs) r.
Proof.
  unfold py_len.
  induction xs as [ | x xs IH]; intros B acc Hxs Hacc HB HC Hb.
  - exists acc. split; [ reflexivity | ]. simpl. rewrite Z.mul_0_r, Z.add_0_r. exact Hacc.
  - inversion Hxs as [ | x' xs' Hx Hrest]; subst.
    simpl List.length in *. rewrite Nat2Z.inj_succ in *.
    assert (Hn : 0 <= C * Z.of_nat (List.length xs))
      by (apply Z.mul_nonneg_nonneg; lia).
    destruct (num_add_within B C acc x Hacc Hx) as [c [Ec Hc]]; [ lia | lia | ].
    cbn [sum_from]. rewrite Ec. cbn [bind].
    destruct (IH (B + C) c Hrest Hc ltac:(lia) HC) as [r [Er Hr]]; [ lia | ].
    exists r. split; [ exact Er | ].
    replace (B + C * Z.succ (Z.of_nat (List.length xs)))
      with (B + C + C * Z.of_nat (List.length xs)) by lia.
    exact Hr.
Qed.

Lemma int_truediv_bounded64 (a b : Z) (f : spec_float) :
  int_truediv a b = Ret f -> bounded64 f.
Proof.
  unfold int_truediv.
  destruct a as [ | p | p], b as [ | q | q]; try discriminate;
    try (intros H; inversion H; exact I);
    match goal with
    | |- context [is_infinity ?x] =>
        assert (K : bounded64 x) by apply SFdiv_bounded64;
        destruct (is_infinity x); [ discriminate | ]
    end; intros H; injection H as <-; exact K.
Qed.

Lemma F_2_53 : (F 4503599627370496 1 == inject_Z (2 ^ 53))%Q.
Proof. unfold F. rewrite (bpow_Z 1) by lia. rewrite <- inject_Z_mult. reflexivity. Qed.

Lemma compute_avg_within (times : list num) :
  Forall (within (2 ^ 53)) times -> py_len times <= 2 ^ 63 ->
  exists avg, compute_avg times = Ret avg /\ within 0 avg.
Proof.
  intros Hf Hlen. unfold compute_avg.
  destruct times as [ | x rest] eqn:E;
    [ exists (NInt 0); split; [ reflexivity | simpl; lia ] | ].
  rewrite <- E in *.
  assert (Hpos : 0 < py_len times).
  { unfold py_len. rewrite E. simpl List.length. lia. }
  assert (Hb : 0 + 2 ^ 53 * py_len times <= 2 ^ 1023).
  { assert (2 ^ 53 * 2 ^ 63 <= 2 ^ 1023).
    { rewrite <- Z.pow_add_r by lia. apply pow2_le. lia. }
    assert (0 < 2 ^ 53) by (apply Z.pow_pos_nonneg; lia). nia. }
  destruct (sum_from_within (2 ^ 53) times 0 (NInt 0) Hf ltac:(simpl; lia)
              ltac:(lia) ltac:(apply Z.pow_nonneg; lia) Hb) as [s [Es Hs]].
  unfold py_sum. rewrite Es. cbn [bind].
  destruct s as [a | g]; cbn [num_truediv].
  - cbn [within] in Hs. rewrite Z.add_0_l in Hs.
    destruct (int_truediv_bound 4503599627370496 1 a (py_len times))
      as [f [Ef _]]; try lia; try reflexivity.
    { vm_compute. discriminate. }
    { rewrite F_2_53, <- inject_Z_mult, <- Zle_Qle. apply Hs. }
    rewrite Ef. cbn [bind]. eexists. split; [ reflexivity | ].
    apply (int_truediv_bounded64 _ _ _ Ef).
  - cbn [to_float bind].
    destruct (float_of_int_returns (py_len times)) as [y [Ey _]].
    { split; [ lia | ]. apply Z.le_trans with (2 ^ 63); [ lia | apply pow2_le; lia ]. }
    rewrite Ey. cbn [bind].
    rewrite (float_of_int_nonzero (py_len times) y ltac:(lia) Ey).
    eexists. split; [ reflexivity | ]. apply SFdiv_bounded64.
Qed.

Lemma addable_le (B C : Z) (x : num) : B <= C -> addable B x -> addable C x.
Proof. destruct x; simpl; intros; [ lia | assumption ]. Qed.

Lemma py_round_within (B : Z) (x : num) (ndigits : Z) :
  0 <= ndigits -> within B x ->
  exists r, py_round x ndigits = Ret r /\ addable B r.
Proof.
  intros Hn. destruct x as [z | f]; simpl; intros H.
  - exists (NInt z). split; [ reflexivity | exact H ].
  - destruct (float_round_returns ndigits f Hn H) as [r ->]. simpl.
    exists (NFloat r). split; [ reflexivity | exact I ].
Qed.

(** ** Ordinary reports *)
Lemma ordinary_record_well_shaped (r : json) :
  ordinary_record r = true -> well_shaped r = true.
Proof.
  unfold ordinary_record, well_shaped, ordinary_time, is_number.
  destruct r as [ | b | z | f | s | l | d]; try discriminate.
  destruct (lookup "unique_id" d) as [[ | b | z | f | id | l | d'] | ];
    try discriminate; try reflexivity.
  destruct (String.prefix "model." id); [ | reflexivity ].
  destruct (lookup "execution_time" d) as [[ | b | z | f | s | l | d'] | ];
    try discriminate; reflexivity.
Qed.

Lemma ordinary_records_well_shaped (items : list json) :
  forallb ordinary_record items = true -> forallb well_shaped items = true.
Proof.
  rewrite !forallb_forall. intros H r Hr. apply ordinary_record_well_shaped, H, Hr.
Qed.

Lemma ordinary_positive_time (r : json) :
  ordinary_record r = true -> is_model r = true ->
  Forall (within (2 ^ 53)) (positive_time r) /\
  (List.length (positive_time r) <= 1)%nat.
Proof.
  assert (P : 1 <= 2 ^ 53) by (apply (pow2_le 0 53); lia).
  unfold ordinary_record, is_model, positive_time, ordinary_time.
  destruct r as [ | b | z | f | s | l | d]; try discriminate.
  destruct (lookup "unique_id" d) as [[ | b | z | f | id | l | d'] | ];
    try discriminate.
  intros H Hm. rewrite Hm in H.
  destruct (lookup "execution_time" d) as [[ | b | z | f | s | l | d'] | ];
    try discriminate; cbn [as_number num_gt0].
  - destruct b; cbn -[Z.pow]; (split; [ | lia ]); repeat constructor; lia.
  - apply Z.ltb_lt in H.
    destruct (Z.ltb_spec 0 z); cbn -[Z.pow]; (split; [ | lia ]);
      repeat constructor; lia.
  - destruct (SFltb float_zero f); cbn -[Z.pow]; (split; [ | lia ]);
      repeat constructor. apply valid_binary_bounded64, H.
  - split; [ constructor | cbn; lia ].
Qed.

Lemma ordinary_timing_sample (items : list json) :
  forallb ordinary_record items = true ->
  Forall (within (2 ^ 53)) (timing_sample items) /\
  py_len (timing_sample items) <= py_len items.
Proof.
  unfold timing_sample, models, py_len.
  induction items as [ | r items IH]; simpl; intros H.
  - split; [ constructor | lia ].
  - apply andb_true_iff in H. destruct H as [Hr H].
    destruct (IH H) as [IH1 IH2].
    destruct (is_model r) eqn:Em; simpl.
    + destruct (ordinary_positive_time r Hr Em) as [K1 K2].
      split; [ apply Forall_app; split; assumption | ].
      rewrite length_app. lia.
    + split; [ exact IH1 | lia ].
Qed.

Lemma count_le_length (p : json -> bool) (items : list json) :
  0 <= count p items <= py_len items.
Proof.
  unfold count, py_len. pose proof (filter_length_le p items). lia.
Qed.

Lemma compute_success_rate_zero_or_float (successful total : Z) (rate : num) :
  compute_success_rate successful total = Ret rate -> zero_or_float rate.
Proof.
  unfold compute_success_rate. destruct (0 <? total).
  - intros H. invert_bind H.
    cbn [num_truediv] in Hv. invert_bind Hv. inversion Hv; subst.
    simpl in H. inversion H. right; eauto.
  - intros H; inversion H. left; reflexivity.
Qed.

Lemma py_round_zero_or_float (x r : num) (ndigits : Z) :
  py_round x ndigits = Ret r -> zero_or_float x -> zero_or_float r.
Proof.
  intros H [-> | [f ->]]; simpl in H.
  - inversion H. left; reflexivity.
  - invert_bind H. inversion H. right; eauto.
Qed.

Lemma build_summary_ordinary (path : string) (metadata : json) (t : tally) :
  ordinary_metadata metadata = true ->
  0 <= n_successful t <= n_total t -> n_total t <= 2 ^ 63 ->
  Forall (within (2 ^ 53)) (execution_times t) ->
  py_len (execution_times t) <= 2 ^ 63 ->
  exists s, build_summary path metadata t = Ret s /\ printable s.
Proof.
  intros Hmd Hc Ht Hf Hlen. unfold build_summary.
  destruct (success_rate_range _ _ Hc) as (rate & rounded & Er & Ero & _).
  destruct (compute_avg_within _ Hf Hlen) as [avg [Ea Havg]].
  assert (H116 : 2 ^ 53 * 2 ^ 63 = 2 ^ 116)
    by (rewrite <- Z.pow_add_r by lia; reflexivity).
  assert (H53 : 0 < 2 ^ 53) by (apply Z.pow_pos_nonneg; lia).
  assert (Hb : 0 + 2 ^ 53 * py_len (execution_times t) <= 2 ^ 1023).
  { assert (2 ^ 116 <= 2 ^ 1023) by (apply pow2_le; lia). nia. }
  destruct (sum_from_within (2 ^ 53) (execution_times t) 0 (NInt 0) Hf
              ltac:(simpl; lia) ltac:(lia) ltac:(lia) Hb) as [time [Es Htime]].
  fold (py_sum (execution_times t)) in Es.
  destruct (py_round_within 0 avg 3 ltac:(lia) Havg) as [avg' [Ea' _]].
  destruct (py_round_within _ time 3 ltac:(lia) Htime) as [time' [Et' Ht']].
  rewrite Er, Ea, Es. cbn [bind].
  unfold ordinary_metadata in Hmd.
  destruct metadata as [ | b | z | f | s | l | md]; try discriminate.
  cbn [py_get bind].
  assert (exists date,
            derive_run_date
              match lookup "generated_at" md with
              | Some v => v
              | None => JStr "unknown"
              end = Ret date) as [date Ed].
  { destruct (lookup "generated_at" md) as [[ | b | z | f | g | l | d'] | ];
      try discriminate; rewrite derive_run_date_str; eauto. }
  rewrite Ed, Ero, Ea', Et'. cbn [bind].
  eexists. split; [ reflexivity | ].
  unfold printable. cbn [successful_models total_models success_rate total_execution_time].
  split; [ exact Hc | ]. split; [ exact Ht | ]. split.
  - apply (py_round_zero_or_float _ _ _ Ero).
    apply (compute_success_rate_zero_or_float _ _ _ Er).
  - refine (addable_le _ (2 ^ 116) _ _ Ht').
    rewrite Z.add_0_l, <- H116. apply Z.mul_le_mono_nonneg_l; lia.
Qed.

Lemma summarize_ordinary (path : string) (data : json) :
  ordinary_report data = true ->
  exists s, summarize path data = Ret s /\ printable s.
Proof.
  unfold ordinary_report. destruct data as [ | b | z | f | s | l | d]; try discriminate.
  intros H. apply andb_true_iff in H. destruct H as [Hmd Hres].
  rewrite summarize_results_of. cbn [py_get bind].
  assert (exists items,
            results_of (JDict d) = Ret items /\
            forallb ordinary_record items = true /\ py_len items < 2 ^ 63)
    as (items & Ei & Ho & Hlen).
  { unfold results_of. cbn [py_get bind].
    destruct (lookup "results" d) as [[ | b | z | f | s | l | d'] | ];
      try discriminate.
    - apply andb_true_iff in Hres. destruct Hres as [H1 H2].
      apply Z.ltb_lt in H2. exists l. auto.
    - exists []. repeat split. }
  rewrite Ei. cbn [bind].
  destruct (proj2 (tally_loop_well_shaped items tally0)
              (ordinary_records_well_shaped items Ho)) as [t Et].
  rewrite Et. cbn [bind].
  pose proof (counts_ordered items t Et) as Hc.
  destruct (tally_loop_Ret items tally0 t Et) as (H1 & _ & _ & H4).
  simpl in H1, H4.
  destruct (ordinary_timing_sample items Ho) as [Hf Hl].
  pose proof (count_le_length is_model items).
  apply build_summary_ordinary; try assumption; try lia.
  - rewrite H4. exact Hf.
  - rewrite H4. lia.
Qed.

(** ** Printing the summaries of ordinary reports *)

Lemma format_f_returns (B : Z) (x : num) :
  addable B x -> B <= 2 ^ 1023 -> exists v, format_f x = Ret v.
Proof.
  unfold format_f. destruct x as [z | f]; simpl; intros H HB.
  - destruct (float_of_int_returns z ltac:(lia)) as [y [-> _]]. simpl. eauto.
  - eauto.
Qed.

Lemma zero_or_float_addable (x : num) : zero_or_float x -> addable 0 x.
Proof. intros [-> | [f ->]]; simpl; [ lia | exact I ]. Qed.

Lemma num_add_addable (B C : Z) (a b : num) :
  addable B a -> addable C b -> B <= 2 ^ 1023 -> C <= 2 ^ 1023 ->
  exists c, num_add a b = Ret c /\ addable (B + C) c.
Proof.
  intros Ha Hb HB HC.
  destruct a as [x | f], b as [y | g]; cbn [num_add].
  - exists (NInt (x + y)). split; [ reflexivity | simpl in *; lia ].
  - cbn [to_float]. simpl in Ha.
    destruct (float_of_int_returns x ltac:(lia)) as [u [-> _]]. cbn [bind].
    eexists. split; [ reflexivity | exact I ].
  - cbn [to_float bind]. simpl in Hb.
    destruct (float_of_int_returns y ltac:(lia)) as [u [-> _]]. cbn [bind].
    eexists. split; [ reflexivity | exact I ].
  - cbn [to_float bind]. eexists. split; [ reflexivity | exact I ].
Qed.

(** The rows are printed to the last one when the running total of the times
    stays an [int] below [2^1023] or is a float. *)
Lemma print_rows_returns (rows : list summary) :
  Forall printable rows ->
  forall B models successful time,
    addable B time -> 0 <= B ->
    B + 2 ^ 116 * py_len rows <= 2 ^ 1023 ->
    exists out totals,
      print_rows rows (models, successful, time) = (out, Done totals) /\
      addable (B + 2 ^ 116 * py_len rows) (snd totals).
Proof.
  assert (P : 0 < 2 ^ 116) by (apply Z.pow_pos_nonneg; lia).
  unfold py_len.
  induction 1 as [ | stats rest Hs Hrest IH]; intros B models successful time Ht HB Hb.
  - do 2 eexists. split; [ reflexivity | ].
    refine (addable_le _ _ _ _ Ht). simpl. lia.
  - rewrite print_rows_cons. cbv zeta.
    simpl List.length in *. rewrite Nat2Z.inj_succ in *.
    assert (Hn : 0 <= 2 ^ 116 * Z.of_nat (List.length rest))
      by (apply Z.mul_nonneg_nonneg; lia).
    destruct Hs as (_ & _ & Hr & He).
    destruct (format_f_returns 0 _ (zero_or_float_addable _ Hr)) as [r ->].
    { apply Z.pow_nonneg. lia. }
    destruct (format_f_returns (2 ^ 116) _ He ltac:(lia)) as [e ->].
    destruct (num_add_addable B (2 ^ 116) _ _ Ht He ltac:(lia) ltac:(lia))
      as [time' [-> Ht']].
    destruct (IH (B + 2 ^ 116) (models + total_models stats)
                (successful + successful_models stats) time' Ht' ltac:(lia)
                ltac:(lia)) as (out & totals & E & Ha).
    cbn [lift io_bind printf emit]. rewrite E. do 2 eexists.
    split; [ reflexivity | ].
    replace (B + 2 ^ 116 * Z.succ (Z.of_nat (List.length rest)))
      with (B + 2 ^ 116 + 2 ^ 116 * Z.of_nat (List.length rest)) by lia.
    exact Ha.
Qed.

Lemma total_of_bounds (rows : list summary) :
  Forall printable rows ->
  0 <= total_of successful_models rows <= total_of total_models rows /\
  total_of total_models rows <= 2 ^ 63 * py_len rows.
Proof.
  unfold py_len.
  induction 1 as [ | stats rest Hs Hrest IH]; [ simpl; lia | ].
  destruct Hs as (H1 & H2 & _). simpl total_of. simpl List.length.
  rewrite Nat2Z.inj_succ. lia.
Qed.

(** The summary table is printed to its end for printable summaries. *)
Lemma print_summary_results_returns (all_stats : list summary) :
  Forall printable all_stats -> py_len all_stats <= 2 ^ 63 ->
  exists out, print_summary_results all_stats = (out, Done tt).
Proof.
  intros Hp Hlen63. unfold print_summary_results.
  destruct all_stats as [ | s0 rest] eqn:E; [ eexists; reflexivity | ].
  rewrite <- E in *. assert (Hne : all_stats <> []) by (rewrite E; discriminate).
  clear E s0 rest.
  assert (Hsorted : Forall printable (sort_by_date_desc all_stats)).
  { rewrite Forall_forall in *. intros s Hs. apply Hp.
    apply (Permutation_in s (sort_by_date_desc_perm all_stats)), Hs. }
  assert (Hl : py_len (sort_by_date_desc all_stats) = py_len all_stats).
  { unfold py_len. rewrite (Permutation_length (sort_by_date_desc_perm all_stats)).
    reflexivity. }
  assert (Hb : 0 + 2 ^ 116 * py_len (sort_by_date_desc all_stats) <= 2 ^ 1023).
  { rewrite Hl.
    assert (2 ^ 116 * 2 ^ 63 <= 2 ^ 1023).
    { rewrite <- Z.pow_add_r by lia. apply pow2_le. lia. }
    assert (2 ^ 116 * py_len all_stats <= 2 ^ 116 * 2 ^ 63)
      by (apply Z.mul_le_mono_nonneg_l; [ apply Z.pow_nonneg | ]; lia).
    lia. }
  destruct (print_rows_returns _ Hsorted 0 0 0 (NInt 0) ltac:(simpl; lia)
              ltac:(lia) Hb)
    as (out & [[models successful] time] & Erows & Htime).
  cbn [snd] in Htime.
  destruct (print_rows_Done _ _ _ _ _ _ _ _ Erows) as (H1 & H2 & _ & _).
  rewrite (total_of_perm total_models _ _ (sort_by_date_desc_perm all_stats)) in H1.
  rewrite (total_of_perm successful_models _ _ (sort_by_date_desc_perm all_stats)) in H2.
  simpl in H1, H2. subst models successful.
  destruct (total_of_bounds all_stats Hp) as [Hc Hbd].
  destruct (success_rate_range _ _ Hc) as (overall & _ & Eo & _).
  destruct (format_f_returns 0 overall
              (zero_or_float_addable _ (compute_success_rate_zero_or_float _ _ _ Eo)))
    as [rate Erate].
  { apply Z.pow_nonneg. lia. }
  destruct (format_f_returns _ time Htime Hb) as [time' Etime].
  assert (Hlen : 0 < py_len all_stats).
  { unfold py_len. destruct all_stats; [ congruence | simpl List.length; lia ]. }
  destruct (int_truediv_bound 4503599627370496 11
              (total_of total_models all_stats) (py_len all_stats))
    as [per_run [Eper _]]; try lia; try reflexivity.
  { vm_compute. discriminate. }
  { unfold F. rewrite (bpow_Z 11) by lia.
    rewrite <- !inject_Z_mult, <- Zle_Qle.
    change (4503599627370496 * 2 ^ 11) with (2 ^ 63). lia. }
  rewrite Erows. cbn [print printf emit lift io_bind].
  rewrite Eo. cbn [lift io_bind]. rewrite Erate, Etime. cbn [lift io_bind].
  rewrite Eper. cbn [print printf emit lift io_bind]. eexists. reflexivity.
Qed.

Lemma print_detail_returns (stats : summary) :
  exists out, print_detail stats = (out, Done tt).
Proof.
  unfold print_detail. cbn [print printf emit io_bind].
  destruct (num_gt0 (total_execution_time stats)); cbn [when io_ret io_bind];
    eexists; reflexivity.
Qed.

Lemma output_results_returns (as_json : bool) (all_stats : list summary) :
  Forall printable all_stats -> py_len all_stats <= 2 ^ 63 ->
  exists out, output_results as_json all_stats = (out, Done tt).
Proof.
  intros Hp Hl. unfold output_results.
  destruct as_json; [ eexists; reflexivity | ].
  destruct all_stats as [ | s [ | s' rest]];
    [ apply print_summary_results_returns; assumption
    | apply print_detail_returns
    | apply print_summary_results_returns; assumption ].
Qed.

Lemma count_models_readable (w : world) (path : string) :
  readable w path ->
  (exists s, count_models w path = ([], Done (Some s)) /\ printable s) \/
  (exists message, count_models w path = ([Print message], Done None)).
Proof.
  unfold readable, count_models.
  destruct (load w path) as [data | | diagnostic | e]; intros H.
  - left. destruct (summarize_ordinary path data H) as [s [-> Hs]].
    exists s. split; [ reflexivity | exact Hs ].
  - right. eexists. reflexivity.
  - right. eexists. reflexivity.
  - destruct H.
Qed.

Lemma collect_readable (w : world) (files : list string) : forall all_stats,
  (forall f, In f files -> readable w f) ->
  Forall printable all_stats ->
  exists result,
    collect w files all_stats = Done result /\ Forall printable result /\
    py_len result <= py_len all_stats + py_len files.
Proof.
  unfold py_len.
  induction files as [ | f rest IH]; intros all_stats Hr Hp; simpl.
  - exists all_stats. repeat split; [ exact Hp | lia ].
  - destruct (count_models_readable w f (Hr f (or_introl eq_refl)))
      as [[s [-> Hs]] | [message ->]]; simpl.
    + destruct (IH (all_stats ++ [s])%list) as (result & E & Hres & Hl).
      { intros g Hg; apply Hr; right; exact Hg. }
      { apply Forall_app. split; [ exact Hp | constructor; [ exact Hs | constructor ] ]. }
      exists result. repeat split; try assumption.
      rewrite length_app in Hl. simpl in Hl. lia.
    + destruct (IH all_stats) as (result & E & Hres & Hl).
      { intros g Hg; apply Hr; right; exact Hg. }
      { exact Hp. }
      exists result. repeat split; try assumption. lia.
Qed.

(** X12.  [count_models] returns a summary, and prints nothing, on every
    report of the shape dbt writes: an object whose metadata are absent or an
    object with a string or no [generated_at], and whose results are absent
    or a list of fewer than [2^63] objects, each with a string or no
    [unique_id] and, for a model, an [execution_time] that is absent, a
    [bool], an [int] below [2^53] or a binary64 float.  No conversion, sum,
    division or rounding of the statistics raises on such a report; the
    total time of the summary is a float or an [int] from 0 to [2^116]. *)
Theorem ordinary_report_yields_a_summary :
  forall (w : world) (path : string) (data : json),
    load w path = Loaded data ->
    ordinary_report data = true ->
    exists s,
      count_models w path = ([], Done (Some s)) /\
      0 <= successful_models s <= total_models s /\
      zero_or_float (success_rate s) /\
      addable (2 ^ 116) (total_execution_time s).
Proof.
  intros w path data Hl Ho.
  assert (readable w path) as Hr by (unfold readable; rewrite Hl; exact Ho).
  destruct (count_models_readable w path Hr) as [[s [E Hs]] | [message E]].
  - exists s. destruct Hs as (H1 & _ & H3 & H4). auto.
  - exfalso. unfold count_models in E. rewrite Hl in E.
    destruct (summarize path data); discriminate.
Qed.

Lemma ordinary_report_yields_a_summary_witness :
  load sample_world "logs/run_results.json" = Loaded sample_report /\
  ordinary_report sample_report = true /\
  exists s,
    count_models sample_world "logs/run_results.json" = ([], Done (Some s)) /\
    0 <= successful_models s <= total_models s /\
    zero_or_float (success_rate s) /\
    addable (2 ^ 116) (total_execution_time s).
Proof.
  split; [ reflexivity | ]. split; [ reflexivity | ].
  apply (ordinary_report_yields_a_summary sample_world "logs/run_results.json"
           sample_report); reflexivity.
Defined.

(** X13.  When every discovered file is missing, is not JSON, or holds a
    report of the shape dbt writes, [main] ends without an uncaught
    exception, with any flags: it returns after its report, or it exits with
    status 1 after one of its two messages.  The list of the discovered
    files has at most [2^63] paths, as every Python list has.  (Writing to
    the standard output is, as everywhere in this file, taken not to fail.) *)
Theorem ordinary_reports_never_end_in_a_traceback :
  forall (w : world) (args : arguments) (out : list event) (files : list string),
    find_run_results_files w (arg_path args) = (out, Done files) ->
    py_len files <= 2 ^ 63 ->
    (forall f, In f files -> readable w f) ->
    exists printed,
      main w args = (printed, Done tt) \/ main w args = (printed, Exit 1).
Proof.
  intros w args out files Hfind Hlen Hr.
  pose proof (main_cases w args out files Hfind) as Hm.
  destruct files as [ | f rest] eqn:Ef; [ eexists; right; exact Hm | ].
  rewrite <- Ef in *. destruct Hm as [printed Hm].
  destruct (collect_readable w files [] Hr (Forall_nil _)) as (result & E & Hp & Hl).
  rewrite E in Hm. destruct result as [ | s l] eqn:Er;
    [ eexists; right; exact Hm | ].
  rewrite <- Er in *.
  destruct (output_results_returns (arg_json args) result Hp) as [o Eo].
  { unfold py_len in *. simpl in Hl. lia. }
  rewrite Er in Hm. rewrite <- Er in Hm. rewrite Eo in Hm.
  eexists; left; exact Hm.
Qed.

Lemma ordinary_reports_never_end_in_a_traceback_witness :
  find_run_results_files sample_world "logs" = ([], Done sample_files) /\
  py_len sample_files <= 2 ^ 63 /\
  (forall f, In f sample_files -> readable sample_world f) /\
  exists printed,
    main sample_world (plain_arguments "logs") = (printed, Done tt) \/
    main sample_world (plain_arguments "logs") = (printed, Exit 1).
Proof.
  assert (R : forall f, In f sample_files -> readable sample_world f).
  { intros f [<- | [<- | []]]; [ reflexivity | exact I ]. }
  split; [ vm_compute; reflexivity | ].
  split; [ vm_compute; discriminate | ]. split; [ exact R | ].
  apply (ordinary_reports_never_end_in_a_traceback sample_world
           (plain_arguments "logs") [] sample_files);
    [ vm_compute; reflexivity | vm_compute; discriminate | exact R ].
Defined.

(** ** The exceptions that escape *)

Lemma raises_only_bind {A B : Type} (P : exn -> Prop) (m : outcome A) (k : A -> outcome B) :
  raises_only P m -> (forall a, m = Ret a -> raises_only P (k a)) ->
  raises_only P (bind m k).
Proof.
  intros Hm Hk e. destruct m as [a | e']; simpl.
  - apply (Hk a eq_refl).
  - intros H. apply Hm. inversion H. reflexivity.
Qed.

Lemma raises_only_Ret {A : Type} (P : exn -> Prop) (a : A) : raises_only P (Ret a).
Proof. intros e H. discriminate. Qed.

Lemma raises_only_weaken {A : Type} (P Q : exn -> Prop) (m : outcome A) :
  (forall e, P e -> Q e) -> raises_only P m -> raises_only Q m.
Proof. intros H Hm e He. apply H, Hm, He. Qed.

Lemma float_of_int_raises (z : Z) : raises_only is_overflow (float_of_int z).
Proof.
  unfold float_of_int. intros e.
  destruct (is_infinity _); intros H; inversion H; reflexivity.
Qed.

Lemma to_float_raises (x : num) : raises_only is_overflow (to_float x).
Proof.
  destruct x; simpl; [ apply float_of_int_raises | apply raises_only_Ret ].
Qed.

Lemma num_add_raises (a b : num) : raises_only is_overflow (num_add a b).
Proof.
  unfold num_add.
  destruct a as [x | f], b as [y | g]; try apply raises_only_Ret;
    (apply raises_only_bind; [ apply to_float_raises | intros u _ ];
     apply raises_only_bind; [ apply to_float_raises | intros v _ ];
     apply raises_only_Ret).
Qed.

Lemma num_mul_raises (a b : num) : raises_only is_overflow (num_mul a b).
Proof.
  unfold num_mul.
  destruct a as [x | f], b as [y | g]; try apply raises_only_Ret;
    (apply raises_only_bind; [ apply to_float_raises | intros u _ ];
     apply raises_only_bind; [ apply to_float_raises | intros v _ ];
     apply raises_only_Ret).
Qed.

Lemma int_truediv_raises (a b : Z) :
  b <> 0 -> raises_only is_overflow (int_truediv a b).
Proof.
  intros Hb e. unfold int_truediv.
  destruct a as [ | p | p], b as [ | q | q]; try congruence;
    try discriminate;
    match goal with
    | |- context [is_infinity ?x] => destruct (is_infinity x)
    end; intros H; inversion H; reflexivity.
Qed.

Lemma num_truediv_raises (a : num) (n : Z) :
  n <> 0 -> raises_only is_overflow (num_truediv a (NInt n)).
Proof.
  intros Hn. unfold num_truediv. destruct a as [x | f].
  - apply raises_only_bind; [ apply int_truediv_raises, Hn | intros u _ ].
    apply raises_only_Ret.
  - apply raises_only_bind; [ apply to_float_raises | intros u _ ].
    apply raises_only_bind; [ apply to_float_raises | intros v Hv ].
    simpl in Hv. rewrite (float_of_int_nonzero n v Hn Hv).
    apply raises_only_Ret.
Qed.

Lemma sum_from_raises (xs : list num) : forall acc,
  raises_only is_overflow (sum_from acc xs).
Proof.
  induction xs as [ | x xs IH]; intros acc; simpl.
  - apply raises_only_Ret.
  - apply raises_only_bind; [ apply num_add_raises | intros acc' _; apply IH ].
Qed.

Lemma py_round_raises (x : num) (ndigits : Z) :
  0 <= ndigits -> raises_only is_overflow (py_round x ndigits).
Proof.
  intros Hn. destruct x as [z | f]; simpl; [ apply raises_only_Ret | ].
  apply raises_only_bind; [ | intros r _; apply raises_only_Ret ].
  unfold float_round. destruct f as [s | s | | s m e]; try apply raises_only_Ret.
  destruct (_ =? 0); [ apply raises_only_Ret | ].
  apply int_truediv_raises.
  pose proof (Z.pow_pos_nonneg 10 ndigits). lia.
Qed.

Lemma compute_success_rate_raises (successful total : Z) :
  raises_only is_overflow (compute_success_rate successful total).
Proof.
  unfold compute_success_rate. destruct (0 <? total) eqn:E.
  - apply Z.ltb_lt in E.
    apply raises_only_bind; [ apply num_truediv_raises; lia | intros q _ ].
    apply num_mul_raises.
  - apply raises_only_Ret.
Qed.

Lemma compute_avg_raises (times : list num) :
  raises_only is_overflow (compute_avg times).
Proof.
  unfold compute_avg. destruct times as [ | x rest] eqn:E;
    [ apply raises_only_Ret | ].
  rewrite <- E.
  apply raises_only_bind; [ apply sum_from_raises | intros s _ ].
  apply num_truediv_raises. unfold py_len. rewrite E. simpl List.length. lia.
Qed.

Lemma py_get_raises (o : json) (k : string) (default : json) :
  raises_only (fun e => e = AttributeError) (py_get o k default).
Proof. destruct o; intros e H; inversion H; reflexivity. Qed.

Lemma py_iter_raises (o : json) : raises_only (fun e => e = TypeError) (py_iter o).
Proof. destruct o; intros e H; inversion H; reflexivity. Qed.

Lemma derive_run_date_raises (v : json) :
  raises_only (fun e => e = AttributeError) (derive_run_date v).
Proof.
  unfold derive_run_date. destruct (py_eq_str v "unknown"); [ apply raises_only_Ret | ].
  destruct v; try (intros e H; inversion H; reflexivity).
  destruct (fromisoformat _); apply raises_only_Ret.
Qed.

Lemma summarize_raises (path : string) (data : json) :
  raises_only escapes_count_models (summarize path data).
Proof.
  assert (A : forall e, e = AttributeError -> escapes_count_models e)
    by (intros e ->; left; reflexivity).
  assert (T : forall e, e = TypeError -> escapes_count_models e)
    by (intros e ->; right; left; reflexivity).
  assert (O : forall e, is_overflow e -> escapes_count_models e)
    by (intros e ->; right; right; reflexivity).
  unfold summarize.
  apply raises_only_bind;
    [ apply (raises_only_weaken _ _ _ A), py_get_raises | intros metadata _ ].
  apply raises_only_bind;
    [ apply (raises_only_weaken _ _ _ A), py_get_raises | intros results _ ].
  apply raises_only_bind;
    [ apply (raises_only_weaken _ _ _ T), py_iter_raises | intros items _ ].
  apply raises_only_bind.
  { intros e H. apply tally_loop_raises in H. destruct H as [-> | ->];
      [ left | right; left ]; reflexivity. }
  intros t _. unfold build_summary.
  apply raises_only_bind;
    [ apply (raises_only_weaken _ _ _ O), compute_success_rate_raises | intros rate _ ].
  apply raises_only_bind;
    [ apply (raises_only_weaken _ _ _ O), compute_avg_raises | intros avg _ ].
  apply raises_only_bind;
    [ apply (raises_only_weaken _ _ _ O), sum_from_raises | intros time _ ].
  apply raises_only_bind;
    [ apply (raises_only_weaken _ _ _ A), py_get_raises | intros g _ ].
  apply raises_only_bind;
    [ apply (raises_only_weaken _ _ _ A), derive_run_date_raises | intros date _ ].
  apply raises_only_bind;
    [ apply (raises_only_weaken _ _ _ A), py_get_raises | intros version _ ].
  apply raises_only_bind;
    [ apply (raises_only_weaken _ _ _ A), py_get_raises | intros invocation _ ].
  apply raises_only_bind;
    [ apply (raises_only_weaken _ _ _ O), py_round_raises; lia | intros rate' _ ].
  apply raises_only_bind;
    [ apply (raises_only_weaken _ _ _ O), py_round_raises; lia | intros avg' _ ].
  apply raises_only_bind;
    [ apply (raises_only_weaken _ _ _ O), py_round_raises; lia | intros time' _ ].
  apply raises_only_Ret.
Qed.

(** X14.  An exception that escapes [count_models] was raised by the
    reading of the file, or is an [AttributeError], a [TypeError] or an
    [OverflowError] raised on the loaded document.  In particular the two
    divisions never raise [ZeroDivisionError], and a timestamp that does not
    parse never raises [ValueError]. *)
Theorem count_models_raises_only :
  forall (w : world) (path : string) (e : exn),
    snd (count_models w path) = Uncaught e ->
    load w path = LoadRaises e \/
    (exists data, load w path = Loaded data) /\
    (e = AttributeError \/ e = TypeError \/ e = OverflowError).
Proof.
  intros w path e. rewrite count_models_snd.
  destruct (load w path) as [data | | diagnostic | e'].
  - destruct (summarize path data) as [s | e'] eqn:E; intros H; inversion H; subst.
    right. split; [ eauto | ]. apply (summarize_raises path data e E).
  - discriminate.
  - discriminate.
  - intros H; inversion H; subst. left. reflexivity.
Qed.

Lemma count_models_raises_only_witness :
  snd (count_models list_document_world "logs/run_results_list.json")
    = Uncaught AttributeError /\
  (load list_document_world "logs/run_results_list.json" = LoadRaises AttributeError \/
   (exists data, load list_document_world "logs/run_results_list.json" = Loaded data) /\
   (AttributeError = AttributeError \/ AttributeError = TypeError \/
    AttributeError = OverflowError)).
Proof.
  split; [ reflexivity | ].
  apply (count_models_raises_only list_document_world "logs/run_results_list.json").
  reflexivity.
Defined.

Lemma ends_only_bind {A B : Type} (P : exn -> Prop) (m : io A) (k : A -> io B) :
  ends_only P m -> (forall a, ends_only P (k a)) -> ends_only P (io_bind m k).
Proof.
  intros Hm Hk e. rewrite io_bind_snd.
  destruct (snd m) as [a | e' | st] eqn:E.
  - apply Hk.
  - intros H. inversion H; subst. apply Hm. exact E.
  - discriminate.
Qed.

Lemma ends_only_lift {A : Type} (P : exn -> Prop) (m : outcome A) :
  raises_only P m -> ends_only P (lift m).
Proof.
  intros Hm e. destruct m as [a | e']; simpl; intros H; inversion H; subst.
  apply Hm. reflexivity.
Qed.

Lemma ends_only_emit (P : exn -> Prop) (ev : event) : ends_only P (emit ev).
Proof. intros e H. discriminate. Qed.

Lemma format_f_raises (x : num) : raises_only is_overflow (format_f x).
Proof.
  unfold format_f. apply raises_only_bind; [ apply to_float_raises | intros f _ ].
  apply raises_only_Ret.
Qed.

Lemma print_rows_ends (rows : list summary) : forall acc,
  ends_only is_overflow (print_rows rows acc).
Proof.
  induction rows as [ | stats rest IH]; intros [[models successful] time].
  - intros e H. discriminate.
  - rewrite print_rows_cons. cbv zeta.
    apply ends_only_bind; [ apply ends_only_lift, format_f_raises | intros rate ].
    apply ends_only_bind; [ apply ends_only_lift, format_f_raises | intros exec_time ].
    apply ends_only_bind; [ apply ends_only_emit | intros _ ].
    apply ends_only_bind; [ apply ends_only_lift, num_add_raises | intros time' ].
    apply IH.
Qed.

Lemma print_summary_results_ends (all_stats : list summary) :
  ends_only is_overflow (print_summary_results all_stats).
Proof.
  unfold print_summary_results.
  destruct all_stats as [ | s0 rest] eqn:E; [ apply ends_only_emit | ].
  rewrite <- E.
  assert (Hlen : py_len all_stats <> 0).
  { unfold py_len. rewrite E. simpl List.length. lia. }
  clear E.
  do 5 (apply ends_only_bind; [ apply ends_only_emit | intros _ ]).
  apply ends_only_bind; [ apply print_rows_ends | intros [[models successful] time] ].
  apply ends_only_bind; [ apply ends_only_emit | intros _ ].
  apply ends_only_bind;
    [ apply ends_only_lift, compute_success_rate_raises | intros overall ].
  apply ends_only_bind; [ apply ends_only_lift, format_f_raises | intros rate ].
  apply ends_only_bind; [ apply ends_only_lift, format_f_raises | intros time' ].
  do 4 (apply ends_only_bind; [ apply ends_only_emit | intros _ ]).
  apply ends_only_bind;
    [ apply ends_only_lift, int_truediv_raises, Hlen | intros per_run ].
  do 2 (apply ends_only_bind; [ apply ends_only_emit | intros _ ]).
  apply ends_only_emit.
Qed.

(** Two models with the integer time [2^1023] give a mean within the binary64
    range and a total, an [int], beyond it. *)
Example huge_time_summarize :
  summarize "run_results.json" huge_time_report = Ret huge_time_summary.
Proof. vm_compute. reflexivity. Qed.

(** X15.  The only exception the rendering of the report can raise is
    [OverflowError], from the conversion to [float] of an [int] beyond the
    binary64 range, and only in the summary table: the JSON output and the
    single-file view raise nothing, and the divisions of the table never raise
    [ZeroDivisionError]. *)
Theorem rendering_raises_only_overflow :
  forall (as_json : bool) (all_stats : list summary) (e : exn),
    snd (output_results as_json all_stats) = Uncaught e ->
    e = OverflowError /\ as_json = false /\ List.length all_stats <> 1%nat.
Proof.
  intros as_json all_stats e. unfold output_results.
  destruct as_json; [ discriminate | ].
  destruct all_stats as [ | s [ | s' rest]].
  - discriminate.
  - destruct (print_detail_returns s) as [out ->]. discriminate.
  - intros H. apply print_summary_results_ends in H.
    repeat split; [ exact H | simpl; lia ].
Qed.

Lemma rendering_raises_only_overflow_witness :
  snd (output_results false [huge_time_summary; huge_time_summary])
    = Uncaught OverflowError /\
  OverflowError = OverflowError /\ false = false /\
  List.length [huge_time_summary; huge_time_summary] <> 1%nat.
Proof.
  split; [ vm_compute; reflexivity | ].
  apply (rendering_raises_only_overflow false [huge_time_summary; huge_time_summary]).
  vm_compute. reflexivity.
Defined.

(** ** Run dates that parse back *)

Lemma digit_of_digit_char (x : Z) : digit_of (digit_char x) = Some (x mod 10).
Proof.
  unfold digit_char.
  assert (0 <= x mod 10 < 10) as H by (apply Z.mod_pos_bound; lia).
  assert (x mod 10 = 0 \/ x mod 10 = 1 \/ x mod 10 = 2 \/ x mod 10 = 3 \/
          x mod 10 = 4 \/ x mod 10 = 5 \/ x mod 10 = 6 \/ x mod 10 = 7 \/
          x mod 10 = 8 \/ x mod 10 = 9) as K by lia.
  repeat (destruct K as [K | K]; [ rewrite K; reflexivity | ]).
  rewrite K; reflexivity.
Qed.

Lemma digit_char_not_Z (x : Z) : Ascii.eqb (digit_char x) "Z" = false.
Proof.
  pose proof (digit_char_cases x) as H. simpl in H.
  repeat (destruct H as [<- | H]; [ reflexivity | ]). destruct H.
Qed.

Lemma replace_Z_date_isoformat (d : date) :
  replace_Z (date_isoformat d) = date_isoformat d.
Proof.
  unfold date_isoformat. cbn [replace_Z].
  rewrite !digit_char_not_Z. reflexivity.
Qed.

Lemma take_digits_2_digit_chars (x : Z) (rest : string) :
  0 <= x <= 99 ->
  take_digits 2 0 (String (digit_char (x / 10)) (String (digit_char x) rest))
  = Some (x, rest).
Proof.
  intros H. rewrite !take_digits_cons, !digit_of_digit_char.
  rewrite take_digits_cons, digit_of_digit_char. cbn [take_digits].
  f_equal. f_equal. Z.div_mod_to_equations. lia.
Qed.

Lemma take_digits_4_digit_chars (x : Z) (rest : string) :
  0 <= x <= 9999 ->
  take_digits 4 0
    (String (digit_char (x / 1000)) (String (digit_char (x / 100))
       (String (digit_char (x / 10)) (String (digit_char x) rest))))
  = Some (x, rest).
Proof.
  intros H.
  do 4 (rewrite take_digits_cons, digit_of_digit_char). cbn [take_digits].
  f_equal. f_equal. Z.div_mod_to_equations. lia.
Qed.

Lemma valid_date_bounds (y m d : Z) :
  valid_date y m d = true -> 1 <= y <= 9999 /\ 1 <= m <= 12 /\ 1 <= d <= 31.
Proof.
  unfold valid_date, days_in_month. intros H.
  repeat (apply andb_true_iff in H; destruct H as [H ?]).
  repeat match goal with K : (_ <=? _) = true |- _ => apply Z.leb_le in K end.
  destruct (m =? 2); [ destruct (is_leap y) | ];
    try destruct ((m =? 4) || (m =? 6) || (m =? 9) || (m =? 11))%bool; lia.
Qed.

(** Round trip *)
Lemma fromisoformat_date_isoformat (y m d : Z) :
  valid_date y m d = true ->
  fromisoformat (date_isoformat (mk_date y m d)) = Some (mk_date y m d).
Proof.
  intros Hv. destruct (valid_date_bounds y m d Hv) as (Hy & Hm & Hd).
  unfold fromisoformat, date_isoformat. cbn [year month day].
  rewrite take_digits_4_digit_chars by lia. cbn [take_char]. 
  change (Ascii.eqb "-" "-") with true. cbv iota.
  rewrite take_digits_2_digit_chars by lia. cbn [take_char].
  change (Ascii.eqb "-" "-") with true. cbv iota.
  rewrite take_digits_2_digit_chars by lia.
  rewrite Hv. reflexivity.
Qed.

Lemma fromisoformat_valid (s : string) (d : date) :
  fromisoformat s = Some d -> valid_date (year d) (month d) (day d) = true.
Proof.
  unfold fromisoformat.
  destruct (take_digits 4 0 s) as [[y s1] | ]; [ | discriminate ].
  destruct (take_char "-" s1) as [s2 | ]; [ | discriminate ].
  destruct (take_digits 2 0 s2) as [[m s3] | ]; [ | discriminate ].
  destruct (take_char "-" s3) as [s4 | ]; [ | discriminate ].
  destruct (take_digits 2 0 s4) as [[n rest] | ]; [ | discriminate ].
  destruct (valid_date y m n) eqn:E; [ | discriminate ].
  destruct rest as [ | c t].
  - intros H; inversion H; subst. exact E.
  - destruct (parse_isoformat_time t); intros H; inversion H; subst. exact E.
Qed.

(** X16.  The [run_date] of a summary is ["unknown"] or the ten characters
    [YYYY-MM-DD] of a date of the calendar, which [fromisoformat] parses back
    to the same date.  Parsing and printing a date is a round trip, and
    deriving the run date of a run date changes nothing. *)
Theorem run_date_is_unknown_or_a_calendar_date :
  (forall (w : world) (path : string) (out : list event) (s : summary),
     count_models w path = (out, Done (Some s)) ->
     run_date s = "unknown" \/
     exists d,
       valid_date (year d) (month d) (day d) = true /\
       run_date s = date_isoformat d /\
       String.length (run_date s) = 10%nat /\
       fromisoformat (run_date s) = Some d) /\
  (forall d,
     valid_date (year d) (month d) (day d) = true ->
     fromisoformat (date_isoformat d) = Some d) /\
  (forall g, run_date_of (run_date_of g) = run_date_of g).
Proof.
  assert (R : forall d, valid_date (year d) (month d) (day d) = true ->
                        fromisoformat (date_isoformat d) = Some d).
  { intros [y m n] Hv. apply fromisoformat_date_isoformat, Hv. }
  assert (P : forall g, run_date_of g = "unknown" \/
                        exists d, valid_date (year d) (month d) (day d) = true /\
                                  run_date_of g = date_isoformat d).
  { intros g. unfold run_date_of. destruct (String.eqb g "unknown"); [ left; reflexivity | ].
    destruct (fromisoformat (replace_Z g)) as [d | ] eqn:E; [ right | left; reflexivity ].
    exists d. split; [ apply (fromisoformat_valid _ _ E) | reflexivity ]. }
  split; [ | split; [ exact R | ] ].
  - intros w path out s H.
    apply count_models_Some in H. destruct H as [data [_ H]].
    apply summarize_Ret in H. destruct H as (m & items & t & _ & _ & _ & Hb).
    apply build_summary_Ret in Hb.
    destruct Hb as (rate & avg & time & g & _ & _ & _ & _ & Hd & _).
    apply derive_run_date_Ret in Hd. destruct Hd as [g' [_ ->]].
    destruct (P g') as [-> | [d [Hv ->]]]; [ left; reflexivity | right ].
    exists d. repeat split; [ exact Hv | apply R, Hv ].
  - intros g. destruct (P g) as [-> | [d [Hv ->]]]; [ reflexivity | ].
    unfold run_date_of.
    destruct (String.eqb (date_isoformat d) "unknown") eqn:E.
    + apply String.eqb_eq in E. exfalso. apply (date_is_not_unknown d E).
    + rewrite replace_Z_date_isoformat, (R d Hv). reflexivity.
Qed.

Lemma run_date_is_unknown_or_a_calendar_date_witness :
  count_models sample_world "logs/run_results.json" = ([], Done (Some sample_summary))
  /\ (run_date sample_summary = "unknown" \/
      exists d,
        valid_date (year d) (month d) (day d) = true /\
        run_date sample_summary = date_isoformat d /\
        String.length (run_date sample_summary) = 10%nat /\
        fromisoformat (run_date sample_summary) = Some d).
Proof.
  split; [ exact sample_count_models | ].
  apply (proj1 run_date_is_unknown_or_a_calendar_date
           sample_world "logs/run_results.json" []).
  exact sample_count_models.
Defined.

(** ** The order of the summaries *)

Lemma collect_summaries_of (w : world) (files : list string) :
  forall all_stats result,
    collect w files all_stats = Done result ->
    result = (all_stats ++ summaries_of w files)%list.
Proof.
  induction files as [ | f rest IH]; intros all_stats result; simpl.
  - intros H; inversion H. rewrite app_nil_r. reflexivity.
  - destruct (snd (count_models w f)) as [[s | ] | e | st]; try discriminate.
    + intros H. apply IH in H. rewrite <- app_assoc in H. exact H.
    + intros H. apply IH in H. exact H.
Qed.

Lemma count_models_file_path (w : world) (path : string) (s : summary) :
  snd (count_models w path) = Done (Some s) -> file_path s = path.
Proof.
  rewrite count_models_snd.
  destruct (load w path) as [data | | diagnostic | e]; try discriminate.
  destruct (summarize path data) as [s' | e] eqn:E; try discriminate.
  intros H; inversion H; subst.
  apply summarize_Ret in E. destruct E as (m & items & t & _ & _ & _ & Hb).
  apply build_summary_Ret in Hb.
  destruct Hb as (rate & avg & time & g & _ & _ & _ & _ & _ & _ & _ & _ & Hp & _).
  exact Hp.
Qed.

Lemma summaries_of_paths (w : world) (files : list string) :
  subsequence (map file_path (summaries_of w files)) files.
Proof.
  unfold summaries_of.
  induction files as [ | f rest IH]; simpl; [ constructor | ].
  destruct (snd (count_models w f)) as [[s | ] | e | st] eqn:E; simpl;
    try (apply subsequence_skip, IH).
  rewrite (count_models_file_path w f s E). apply subsequence_keep, IH.
Qed.

Lemma subsequence_In {A : Type} (l l' : list A) :
  subsequence l l' -> forall x, In x l -> In x l'.
Proof.
  induction 1 as [ | y l l' _ IH | y l l' _ IH]; intros x Hx; simpl in *; auto.
  destruct Hx as [-> | Hx]; auto.
Qed.

Lemma subsequence_sorted (l l' : list string) :
  subsequence l l' -> StronglySorted string_lt l' -> StronglySorted string_lt l.
Proof.
  induction 1 as [ | y l l' Hs IH | y l l' Hs IH]; intros H.
  - constructor.
  - inversion H; subst. apply IH. assumption.
  - inversion H as [ | y' l'' Hl Hy]; subst.
    constructor; [ apply IH, Hl | ].
    rewrite Forall_forall in *. intros x Hx. apply Hy.
    apply (subsequence_In _ _ Hs), Hx.
Qed.

Lemma discovered_files_increasing (w : world) (path : string) (out : list event)
    (files : list string) :
  find_run_results_files w path = (out, Done files) ->
  StronglySorted string_lt files.
Proof.
  unfold find_run_results_files. destruct (kind w path).
  - destruct (py_endswith path ".json"); simpl; intros H; inversion H;
      repeat constructor.
  - set (l := list_of_set _).
    assert (Hs : StronglySorted string_lt (sorted l))
      by (apply sorted_increasing, NoDup_nodup).
    destruct l; simpl; intros H; inversion H; subst; exact Hs.
  - simpl. intros H; inversion H. constructor.
Qed.

(** X17.  With [--json], a run that returns ends by one JSON document that
    lists the summaries of the files that yield one, in the order of the
    discovered files: their [file_path] values are discovered paths, in
    strictly increasing order, so no file appears twice. *)
Theorem json_report_lists_summaries_by_path :
  forall (w : world) (args : arguments) (out : list event) (files : list string),
    find_run_results_files w (arg_path args) = (out, Done files) ->
    arg_json args = true ->
    snd (main w args) = Done tt ->
    exists printed,
      fst (main w args) = (printed ++ [PrintJson (summaries_of w files)])%list /\
      summaries_of w files <> [] /\
      subsequence (map file_path (summaries_of w files)) files /\
      StronglySorted string_lt (map file_path (summaries_of w files)).
Proof.
  intros w args out files Hfind Hj Hdone.
  pose proof (main_cases w args out files Hfind) as Hm.
  destruct files as [ | f rest] eqn:Ef.
  { rewrite Hm in Hdone. discriminate. }
  rewrite <- Ef in *. destruct Hm as [printed Hm].
  destruct (collect w files []) as [result | e | st] eqn:Ec.
  - apply collect_summaries_of in Ec. simpl in Ec. subst result.
    destruct (summaries_of w files) as [ | s l] eqn:Es.
    + rewrite Hm in Hdone. discriminate.
    + rewrite <- Es in *. rewrite Hj in Hm. simpl in Hm.
      exists printed. rewrite Hm. split; [ reflexivity | ].
      split; [ rewrite Es; discriminate | ].
      split; [ apply summaries_of_paths | ].
      apply (subsequence_sorted _ files (summaries_of_paths w files)).
      apply (discovered_files_increasing _ _ _ _ Hfind).
  - rewrite Hm in Hdone. discriminate.
  - destruct Hm.
Qed.

Lemma json_report_lists_summaries_by_path_witness :
  find_run_results_files sample_world "logs" = ([], Done sample_files) /\
  snd (main sample_world (json_arguments "logs")) = Done tt /\
  exists printed,
    fst (main sample_world (json_arguments "logs"))
      = (printed ++ [PrintJson (summaries_of sample_world sample_files)])%list /\
    summaries_of sample_world sample_files <> [] /\
    subsequence (map file_path (summaries_of sample_world sample_files)) sample_files /\
    StronglySorted string_lt (map file_path (summaries_of sample_world sample_files)).
Proof.
  split; [ vm_compute; reflexivity | ]. split; [ vm_compute; reflexivity | ].
  apply (json_report_lists_summaries_by_path sample_world (json_arguments "logs") []);
    [ vm_compute; reflexivity | reflexivity | vm_compute; reflexivity ].
Defined.

(** X18.  [print_single_result], which the script defines and does not call,
    prints the summary of a report of the shape dbt writes without raising:
    four lines, and a fifth with the execution time exactly when the total
    time of the summary is positive. *)
Theorem single_result_of_an_ordinary_report :
  forall (w : world) (path : string) (data : json),
    load w path = Loaded data ->
    ordinary_report data = true ->
    exists s lines,
      count_models w path = ([], Done (Some s)) /\
      print_single_result s = (lines, Done tt) /\
      List.length lines
        = (if num_gt0 (total_execution_time s) then 5%nat else 4%nat) /\
      (total_execution_time s = NInt 0 -> List.length lines = 4%nat).
Proof.
  intros w path data Hl Ho.
  assert (readable w path) as Hr by (unfold readable; rewrite Hl; exact Ho).
  destruct (count_models_readable w path Hr) as [[s [E Hs]] | [message E]].
  - exists s. destruct Hs as (_ & _ & _ & Ht).
    destruct (format_f_returns (2 ^ 116) _ Ht) as [v Ev].
    { apply pow2_le. lia. }
    unfold print_single_result. rewrite Ev.
    cbn [print printf emit lift io_bind].
    destruct (num_gt0 (total_execution_time s)) eqn:Eg; cbn [when io_ret io_bind lift];
      eexists; (split; [ exact E | ]); (split; [ reflexivity | ]);
      (split; [ reflexivity | ]); intros K; rewrite K in Eg; try discriminate;
      reflexivity.
  - exfalso. unfold count_models in E. rewrite Hl in E.
    destruct (summarize path data); discriminate.
Qed.

Lemma single_result_of_an_ordinary_report_witness :
  load sample_world "logs/run_results.json" = Loaded sample_report /\
  ordinary_report sample_report = true /\
  exists s lines,
    count_models sample_world "logs/run_results.json" = ([], Done (Some s)) /\
    print_single_result s = (lines, Done tt) /\
    List.length lines
      = (if num_gt0 (total_execution_time s) then 5%nat else 4%nat) /\
    (total_execution_time s = NInt 0 -> List.length lines = 4%nat).
Proof.
  split; [ reflexivity | ]. split; [ reflexivity | ].
  apply (single_result_of_an_ordinary_report sample_world "logs/run_results.json"
           sample_report); reflexivity.
Defined.

(** ** The success rate at its two ends *)

Lemma int_truediv_same (p : positive) : int_truediv (Zpos p) (Zpos p) = Ret float_1_0.
Proof.
  cbn [int_truediv SFdiv xorb]. unfold SFdiv_core_binary.
  replace (Zdigits2 (Zpos p) + 0 - (Zdigits2 (Zpos p) + 0)) with 0 by ring.
  change (Z.min (fexp prec emax 0) (0 - 0)) with (-53).
  change (0 - 0 - -53) with 53. cbv iota.
  rewrite Z.shiftl_mul_pow2 by lia.
  assert (E : Z.div_eucl (Zpos p * 2 ^ 53) (Zpos p) = (2 ^ 53, 0)).
  { pose proof (Z_div_mod (Zpos p * 2 ^ 53) (Zpos p) eq_refl) as H.
    destruct (Z.div_eucl (Zpos p * 2 ^ 53) (Zpos p)) as [q r].
    destruct H as [H Hr].
    assert (r = 0).
    { assert (Zpos p * (2 ^ 53 - q) = r) by lia.
      assert (2 ^ 53 - q = 0) by nia. nia. }
    subst r. f_equal. nia. }
  rewrite E.
  assert (L : new_location (Zpos p) 0 = loc_Exact).
  { unfold new_location. destruct (Z.even (Zpos p)); reflexivity. }
  rewrite L. reflexivity.
Qed.

Lemma compute_success_rate_all (total : Z) :
  0 < total ->
  (rate <- compute_success_rate total total ;; py_round rate 2) = Ret (NFloat float_100).
Proof.
  intros H. unfold compute_success_rate.
  destruct total as [ | p | p]; try lia.
  change (0 <? Zpos p) with true. cbv iota.
  cbn [num_truediv bind]. rewrite int_truediv_same. reflexivity.
Qed.

Lemma compute_success_rate_none (total : Z) :
  0 < total ->
  (rate <- compute_success_rate 0 total ;; py_round rate 2)
  = Ret (NFloat (S754_zero false)).
Proof.
  intros H. unfold compute_success_rate.
  destruct total as [ | p | p]; try lia. reflexivity.
Qed.

Lemma build_summary_success_rate (path : string) (metadata : json) (t : tally)
    (s : summary) :
  build_summary path metadata t = Ret s ->
  (rate <- compute_success_rate (n_successful t) (n_total t) ;; py_round rate 2)
  = Ret (success_rate s).
Proof.
  intros H. apply build_summary_Ret in H.
  destruct H as (rate & avg & time & g & E1 & _ & _ & _ & _ & E2 & _).
  rewrite E1. exact E2.
Qed.

(** X19.  When a report has models and none failed, [success_rate] is
    exactly the float 100.0; when none succeeded it is exactly the float 0.0.
    The converse of the first fails: with 99999 successes out of 100000 the
    rounded rate is 100.0 as well. *)
Theorem success_rate_at_the_extremes :
  (forall (w : world) (path : string) (out : list event) (s : summary),
     count_models w path = (out, Done (Some s)) ->
     0 < total_models s ->
     (failed_models s = 0 -> success_rate s = NFloat float_100) /\
     (successful_models s = 0 -> success_rate s = NFloat (S754_zero false))) /\
  (float_value float_100 == 100)%Q /\
  (rate <- compute_success_rate 99999 100000 ;; py_round rate 2)
    = Ret (NFloat float_100).
Proof.
  split; [ | split; [ reflexivity | vm_compute; reflexivity ] ].
  intros w path out s H Hpos.
  apply count_models_Some in H. destruct H as [data [_ H]].
  apply summarize_Ret in H. destruct H as (m & items & t & _ & _ & Ht & Hb).
  pose proof (build_summary_success_rate _ _ _ _ Hb) as Hr.
  pose proof (tally_loop_invariant items tally0 t Ht eq_refl) as Hi.
  apply build_summary_Ret in Hb.
  destruct Hb as (rate & avg & time & g & _ & _ & _ & _ & _ & _ & _ & _ & _ & _ & E1 & E2 & E3).
  rewrite E1, E2, E3 in *. split; intros K.
  - assert (n_successful t = n_total t) as E by lia. rewrite E in Hr.
    rewrite compute_success_rate_all in Hr by lia. inversion Hr. reflexivity.
  - rewrite K in Hr. rewrite compute_success_rate_none in Hr by lia.
    inversion Hr. reflexivity.
Qed.

Lemma success_rate_at_the_extremes_witness :
  (exists s,
     count_models all_successful_world "logs/run_results.json" = ([], Done (Some s)) /\
     0 < total_models s /\ failed_models s = 0 /\
     success_rate s = NFloat float_100).
Proof.
  eexists. split; [ vm_compute; reflexivity | ].
  split; [ reflexivity | ]. split; [ reflexivity | ].
  refine (proj1 (proj1 success_rate_at_the_extremes all_successful_world
                   "logs/run_results.json" [] _ _ _) _);
    vm_compute; reflexivity.
Defined.

(** ** Dates as strings *)

Lemma digit_char_compare (a b : Z) :
  Ascii.compare (digit_char a) (digit_char b) = (a mod 10 ?= b mod 10).
Proof.
  unfold digit_char.
  assert (forall x, x mod 10 = 0 \/ x mod 10 = 1 \/ x mod 10 = 2 \/ x mod 10 = 3 \/
          x mod 10 = 4 \/ x mod 10 = 5 \/ x mod 10 = 6 \/ x mod 10 = 7 \/
          x mod 10 = 8 \/ x mod 10 = 9) as K.
  { intros x. assert (0 <= x mod 10 < 10) by (apply Z.mod_pos_bound; lia). lia. }
  destruct (K a) as [Ha | [Ha | [Ha | [Ha | [Ha | [Ha | [Ha | [Ha | [Ha | Ha]]]]]]]]];
    destruct (K b) as [Hb | [Hb | [Hb | [Hb | [Hb | [Hb | [Hb | [Hb | [Hb | Hb]]]]]]]]];
    rewrite Ha, Hb; reflexivity.
Qed.

Lemma string_compare_cons (c1 c2 : ascii) (s1 s2 : string) :
  String.compare (String c1 s1) (String c2 s2) =
  match Ascii.compare c1 c2 with
  | Eq => String.compare s1 s2
  | r => r
  end.
Proof. reflexivity. Qed.

Lemma digits_of_year (y : Z) :
  0 <= y <= 9999 ->
  y = 1000 * ((y / 1000) mod 10) + 100 * ((y / 100) mod 10)
      + 10 * ((y / 10) mod 10) + y mod 10 /\
  0 <= (y / 1000) mod 10 <= 9 /\ 0 <= (y / 100) mod 10 <= 9 /\
  0 <= (y / 10) mod 10 <= 9 /\ 0 <= y mod 10 <= 9.
Proof. intros H. Z.div_mod_to_equations. lia. Qed.

Lemma digits_of_month (m : Z) :
  0 <= m <= 99 ->
  m = 10 * ((m / 10) mod 10) + m mod 10 /\
  0 <= (m / 10) mod 10 <= 9 /\ 0 <= m mod 10 <= 9.
Proof. intros H. Z.div_mod_to_equations. lia. Qed.

(** ISO dates compare as strings the way the dates compare. *)
Lemma date_isoformat_leb (a b : date) :
  valid_date (year a) (month a) (day a) = true ->
  valid_date (year b) (month b) (day b) = true ->
  String.leb (date_isoformat a) (date_isoformat b) = date_leb a b.
Proof.
  intros Ha Hb.
  destruct (valid_date_bounds _ _ _ Ha) as (Hya & Hma & Hda).
  destruct (valid_date_bounds _ _ _ Hb) as (Hyb & Hmb & Hdb).
  unfold String.leb, date_isoformat, date_leb.
  rewrite !string_compare_cons, !digit_char_compare.
  change (Ascii.compare "-" "-") with Eq. cbv iota.
  destruct a as [ya ma da], b as [yb mb db]. cbn [year month day] in *.
  destruct (digits_of_year ya ltac:(lia)) as (Ea & A3 & A2 & A1 & A0).
  destruct (digits_of_year yb ltac:(lia)) as (Eb & B3 & B2 & B1 & B0).
  destruct (digits_of_month ma ltac:(lia)) as (Ema & MA1 & MA0).
  destruct (digits_of_month mb ltac:(lia)) as (Emb & MB1 & MB0).
  destruct (digits_of_month da ltac:(lia)) as (Eda & DA1 & DA0).
  destruct (digits_of_month db ltac:(lia)) as (Edb & DB1 & DB0).
  revert Ea Eb Ema Emb Eda Edb.
  generalize dependent ((ya / 1000) mod 10). generalize dependent ((ya / 100) mod 10).
  generalize dependent ((ya / 10) mod 10). generalize dependent (ya mod 10).
  generalize dependent ((yb / 1000) mod 10). generalize dependent ((yb / 100) mod 10).
  generalize dependent ((yb / 10) mod 10). generalize dependent (yb mod 10).
  generalize dependent ((ma / 10) mod 10). generalize dependent (ma mod 10).
  generalize dependent ((mb / 10) mod 10). generalize dependent (mb mod 10).
  generalize dependent ((da / 10) mod 10). generalize dependent (da mod 10).
  generalize dependent ((db / 10) mod 10). generalize dependent (db mod 10).
  intros. clear Ha Hb.
  repeat match goal with
         | |- context [?x ?= ?y] => destruct (Z.compare_spec x y)
         end;
    simpl String.compare; cbv iota;
    destruct (Z.ltb_spec ya yb); destruct (Z.eqb_spec ya yb);
    destruct (Z.ltb_spec ma mb); destruct (Z.eqb_spec ma mb);
    destruct (Z.leb_spec da db); simpl; try reflexivity; exfalso; lia.
Qed.

(** X20.  Two dates of the calendar compare as the strings [isoformat]
    gives them: the string order the table is sorted by is the order of the
    dates, so a dated row is never above a row of a later date. *)
Theorem iso_dates_sort_chronologically :
  (forall a b : date,
     valid_date (year a) (month a) (day a) = true ->
     valid_date (year b) (month b) (day b) = true ->
     String.leb (date_isoformat a) (date_isoformat b) = date_leb a b) /\
  (forall (s1 s2 : summary) (d1 d2 : date),
     valid_date (year d1) (month d1) (day d1) = true ->
     valid_date (year d2) (month d2) (day d2) = true ->
     run_date s1 = date_isoformat d1 ->
     run_date s2 = date_isoformat d2 ->
     (not_earlier s1 s2 <-> date_leb d2 d1 = true)).
Proof.
  split; [ exact date_isoformat_leb | ].
  intros s1 s2 d1 d2 H1 H2 E1 E2. unfold not_earlier.
  rewrite E1, E2, (date_isoformat_leb d2 d1 H2 H1). reflexivity.
Qed.

Lemma iso_dates_sort_chronologically_witness :
  valid_date 2023 12 31 = true /\ valid_date 2024 1 15 = true /\
  String.leb (date_isoformat (mk_date 2023 12 31)) (date_isoformat (mk_date 2024 1 15))
    = date_leb (mk_date 2023 12 31) (mk_date 2024 1 15).
Proof.
  split; [ reflexivity | ]. split; [ reflexivity | ].
  apply (proj1 iso_dates_sort_chronologically (mk_date 2023 12 31) (mk_date 2024 1 15));
    reflexivity.
Defined.

(** ** File names *)

Lemma string_append_assoc (a b c : string) : (a ++ b) ++ c = a ++ (b ++ c).
Proof. induction a as [ | x a IH]; simpl; [ reflexivity | rewrite IH; reflexivity ]. Qed.








Lemma py_endswith_slash (path : string) : py_endswith (path ++ "/") "/" = true.
Proof.
  unfold py_endswith.
  assert (L : String.length (path ++ "/") = S (String.length path)).
  { induction path as [ | c p IH]; simpl; [ reflexivity | rewrite IH; reflexivity ]. }
  rewrite L. simpl String.length.
  replace (S (String.length path) - 1)%nat with (String.length path) by lia.
  assert (E : substring (String.length path) 1 (path ++ "/") = "/").
  { clear L. induction path as [ | c p IH]; simpl; [ reflexivity | exact IH ]. }
  rewrite E. reflexivity.
Qed.

Lemma os_path_join_slash (path name : string) :
  path <> "" -> py_endswith path "/" = false ->
  os_path_join (path ++ "/") name = os_path_join path name.
Proof.
  intros Hne Hs. unfold os_path_join. rewrite py_endswith_slash, Hs.
  destruct (String.eqb (path ++ "/") "") eqn:E1.
  { apply String.eqb_eq in E1. destruct path; discriminate. }
  destruct (String.eqb path "") eqn:E2.
  { apply String.eqb_eq in E2. congruence. }
  apply string_append_assoc.
Qed.

(** X22.  Naming the directory with or without a trailing ['/'] gives the
    same patterns to [glob], hence the same list of files. *)
Theorem trailing_slash_finds_the_same_files :
  forall (w : world) (path : string),
    path <> "" -> py_endswith path "/" = false ->
    kind w path = Directory -> kind w (path ++ "/") = Directory ->
    snd (find_run_results_files w (path ++ "/")) = snd (find_run_results_files w path).
Proof.
  intros w path Hne Hs K1 K2. unfold find_run_results_files.
  rewrite K1, K2, !os_path_join_slash by assumption.
  set (l := list_of_set _). destruct l; reflexivity.
Qed.

Lemma trailing_slash_finds_the_same_files_witness :
  kind slash_world "logs" = Directory /\ kind slash_world "logs/" = Directory /\
  snd (find_run_results_files slash_world "logs/")
    = snd (find_run_results_files slash_world "logs").
Proof.
  split; [ reflexivity | ]. split; [ reflexivity | ].
  apply (trailing_slash_finds_the_same_files slash_world "logs");
    [ discriminate | reflexivity | reflexivity | reflexivity ].
Defined.

(** ** The first bad record *)

(** X23.  The first record the loop cannot get through ends [count_models]
    with an exception and without any output, whatever the records before and
    after it: [TypeError] when it is a model whose [execution_time] is not a
    number, [AttributeError] when it is not an object or its [unique_id] is
    not a string.  No partial summary is returned. *)
Theorem first_bad_record_ends_the_count :
  forall (w : world) (path : string) (d : list (string * json))
         (good rest : list json) (bad : json),
    load w path = Loaded (JDict d) ->
    lookup "results" d = Some (JList (good ++ bad :: rest)%list) ->
    forallb well_shaped good = true ->
    well_shaped bad = false ->
    exists e,
      count_models w path = ([], Uncaught e) /\
      (is_model bad = true -> e = TypeError) /\
      (is_model bad = false -> e = AttributeError).
Proof.
  intros w path d good rest bad Hl Hr Hg Hb.
  assert (exists e, forall t, tally_step t bad = Raise e /\
            (is_model bad = true -> e = TypeError) /\
            (is_model bad = false -> e = AttributeError)) as [e He].
  { unfold tally_step, well_shaped, is_model, is_number in *.
    destruct bad as [ | b | z | f | s | l | bd];
      try (exists AttributeError; intros t;
           split; [ reflexivity | split; intros K; reflexivity || discriminate ]).
    cbn [py_get bind].
    destruct (lookup "unique_id" bd) as [[ | b | z | f | id | l | d'] | ];
      try discriminate;
      try (exists AttributeError; intros t;
           split; [ reflexivity | split; intros K; reflexivity || discriminate ]).
    cbn [py_get bind py_startswith].
    destruct (String.prefix "model." id); [ | discriminate ].
    destruct (lookup "execution_time" bd) as [v | ]; [ | discriminate ].
    cbn [py_get bind]. destruct (as_number v); [ discriminate | ].
    exists TypeError. intros t.
    split; [ reflexivity | split; intros K; reflexivity || discriminate ]. }
  exists e. split; [ | split; apply (He tally0) ].
  unfold count_models. rewrite Hl. unfold summarize.
  cbn [py_get bind]. rewrite Hr. cbn [py_iter bind].
  rewrite tally_loop_app.
  destruct (proj2 (tally_loop_well_shaped good tally0) Hg) as [t Et].
  rewrite Et. cbn [bind tally_loop].
  destruct (He t) as [-> _]. reflexivity.
Qed.

Lemma first_bad_record_ends_the_count_witness :
  load bad_record_world "logs/run_results.json" = Loaded (JDict bad_record_report) /\
  well_shaped (JStr "oops") = false /\
  exists e,
    count_models bad_record_world "logs/run_results.json" = ([], Uncaught e) /\
    (is_model (JStr "oops") = true -> e = TypeError) /\
    (is_model (JStr "oops") = false -> e = AttributeError).
Proof.
  split; [ reflexivity | ]. split; [ reflexivity | ].
  apply (first_bad_record_ends_the_count bad_record_world "logs/run_results.json"
           bad_record_report
           [record "model.a" "success" (JFloat float_1_0)]
           [record "model.b" "success" (JFloat float_2_0)]
           (JStr "oops")); reflexivity.
Defined.

(** ** The choice of the view *)

(** X24.  Without [--json], a run that returns ends by the single-file view
    when exactly one discovered file yields a summary, however many files were
    discovered, and by the summary table when two or more do. *)
Theorem view_is_chosen_by_the_number_of_summaries :
  forall (w : world) (args : arguments) (out : list event) (files : list string),
    find_run_results_files w (arg_path args) = (out, Done files) ->
    arg_json args = false ->
    snd (main w args) = Done tt ->
    exists printed,
      fst (main w args) =
        (printed ++
         match summaries_of w files with
         | [stats] => fst (print_detail stats)
         | all_stats => fst (print_summary_results all_stats)
         end)%list /\
      summaries_of w files <> [].
Proof.
  intros w args out files Hfind Hj Hdone.
  pose proof (main_cases w args out files Hfind) as Hm.
  destruct files as [ | f rest] eqn:Ef.
  { rewrite Hm in Hdone. discriminate. }
  rewrite <- Ef in *. destruct Hm as [printed Hm].
  destruct (collect w files []) as [result | e | st] eqn:Ec.
  - apply collect_summaries_of in Ec. simpl in Ec. subst result.
    destruct (summaries_of w files) as [ | s l] eqn:Es.
    + rewrite Hm in Hdone. discriminate.
    + rewrite Hj in Hm. exists printed. rewrite Hm.
      split; [ | discriminate ].
      unfold output_results. destruct l; reflexivity.
  - rewrite Hm in Hdone. discriminate.
  - destruct Hm.
Qed.

Lemma view_is_chosen_by_the_number_of_summaries_witness :
  find_run_results_files sample_world "logs" = ([], Done sample_files) /\
  List.length sample_files = 2%nat /\
  snd (main sample_world (plain_arguments "logs")) = Done tt /\
  exists printed,
    fst (main sample_world (plain_arguments "logs")) =
      (printed ++
       match summaries_of sample_world sample_files with
       | [stats] => fst (print_detail stats)
       | all_stats => fst (print_summary_results all_stats)
       end)%list /\
    summaries_of sample_world sample_files <> [].
Proof.
  split; [ vm_compute; reflexivity | ]. split; [ reflexivity | ].
  split; [ vm_compute; reflexivity | ].
  apply (view_is_chosen_by_the_number_of_summaries sample_world
           (plain_arguments "logs") []);
    [ vm_compute; reflexivity | reflexivity | vm_compute; reflexivity ].
Defined.
